(** * Sharingan eye-control content scripts: gaze filtering, zone dwell,
      calibration gate and watchdog

    The repository ships two content scripts with the same sidebar logic:

    - the WebGazer script ([content.js], the second document of
      [src/popup.js]): in-page estimator, adaptive filter, watchdog;
    - the Python-server script ([content_python.js], the second document of
      [src/start_server.bat]): samples arrive over a WebSocket and an
      animation frame loop re-evaluates the zones.

    Conventions of the embedding.

    - JavaScript numbers are exact rationals ([Q]).  Viewport sizes are
      positive wherever a quotient by them is taken.
    - [null] of a numeric field is [None]; arithmetic on such a field coerces
      [null] to [0] as JavaScript does ([num]).
    - A zone variable holds [null], [undefined] or one of the five names.
    - [performance.now()] / [Date.now()] are read once per handler run and
      passed in as [now].
    - [Math.sqrt(a) > t] with [t >= 0] is written [a > t*t].
    - The mutable global [state] is threaded explicitly; what a handler does
      to the outside world is returned as a list of [Effect]s.
    - Timer and interval ids are kept as their presence only; rendering of
      the sidebar, the gaze dot and notifications is left out. *)

From Stdlib Require Import QArith Qabs Qround Qminmax Lqa ZArith Lia List Bool.
From stdpp Require Import gmap strings.
Import ListNotations.

Local Open Scope Q_scope.

(** ** Numbers *)

Definition Qleb (a b : Q) : bool := Qle_bool a b.
Definition Qltb (a b : Q) : bool := negb (Qle_bool b a).

(** [null] coerced to a number. *)
Definition num (o : option Q) : Q :=
  match o with Some v => v | None => 0 end.

(** ** Zones *)

Inductive Zone := SCROLL_UP | SCROLL_DOWN | MEDIA | ASK_AI | KILL_SWITCH.

(** The value of a zone variable ([zone], [state.currentZone],
    [state.pendingZone]). *)
Inductive zoneval :=
| ZNull
| ZUndefined
| ZName (z : Zone).

#[global] Instance Zone_eq_dec : EqDecision Zone.
Proof. solve_decision. Defined.

#[global] Instance zoneval_eq_dec : EqDecision zoneval.
Proof. solve_decision. Defined.

(** [a !== b] on zone values. *)
Definition zone_neq (a b : zoneval) : bool := negb (bool_decide (a = b)).

(** Truthiness of a zone value: names are non-empty strings. *)
Definition truthy (v : zoneval) : bool :=
  match v with ZName _ => true | _ => false end.

(** [arr[i]] for a numeric index: [undefined] outside the array. *)
Definition js_index (arr : list Zone) (i : Z) : zoneval :=
  if (i <? 0)%Z then ZUndefined
  else match nth_error arr (Z.to_nat i) with
       | Some z => ZName z
       | None => ZUndefined
       end.

(** ** Configuration shared by the two scripts *)

Record UIConfig := {
  SIDEBAR_WIDTH : Q;
  ZONE_COUNT : Z;
  DWELL_TIME : Q;
  ZONE_SWITCH_DELAY : Q;
  CALIBRATION_POINTS : nat;
  CLICKS_PER_POINT : nat;
  ZONES : list Zone;
  STORAGE_KEY : string
}.

(** [window.innerWidth], [window.innerHeight] and whether
    [#eye-sidebar-host] with its shadow root is in the document. *)
Record Page := {
  innerWidth : Q;
  innerHeight : Q;
  sidebarHost : bool
}.

(** Timers set with [setTimeout]. *)
Inductive Task :=
| ReactivateTracking
| FinishCalibration
| ResumeWebGazer
| ReinitWebGazer.

(** What a handler does outside [state]. *)
Inductive Effect :=
| ZoneAction (z : Zone)
| ZoneVisuals (active : zoneval) (progress : Q)
| SetTimeout (t : Task) (delay : Q)
| CalibrationPoint (x y : Q)
| RecoverWebGazer
| WebGazerPause
| WebGazerResume
| WebGazerEnd
| WebGazerClearData
| SendResetCalibration.

(** The zone actions dispatched in a run. *)
Fixpoint actions (es : list Effect) : list Zone :=
  match es with
  | [] => []
  | ZoneAction z :: es' => z :: actions es'
  | _ :: es' => actions es'
  end.

(** ** Zone resolution and dwell (both scripts)

    [state] fields read or written by the zone step. *)
Record ZoneState := {
  isActive : bool;
  isScrolling : bool;
  scrollIntervalId : bool;
  currentZone : zoneval;
  pendingZone : zoneval;
  zoneSwitchTime : option Q;
  dwellStartTime : option Q
}.

Definition initialZoneState : ZoneState := {|
  isActive := true;
  isScrolling := false;
  scrollIntervalId := false;
  currentZone := ZNull;
  pendingZone := ZNull;
  zoneSwitchTime := None;
  dwellStartTime := None
|}.

Section ZoneStep.
Variable CONFIG : UIConfig.
Variable page : Page.

Definition getZoneFromY (y : Q) : zoneval :=
  let zoneHeight := innerHeight page / inject_Z (ZONE_COUNT CONFIG) in
  let zoneIndex := Qfloor (y / zoneHeight) in
  js_index (ZONES CONFIG) (Z.min zoneIndex (ZONE_COUNT CONFIG - 1)).

Definition isInSidebar (x : Q) : bool :=
  Qleb (innerWidth page - SIDEBAR_WIDTH CONFIG) x.

Definition stopScrolling (s : ZoneState) : ZoneState :=
  {| isActive := isActive s;
     isScrolling := false;
     scrollIntervalId := false;
     currentZone := currentZone s;
     pendingZone := pendingZone s;
     zoneSwitchTime := zoneSwitchTime s;
     dwellStartTime := dwellStartTime s |}.

Definition set_isActive (b : bool) (s : ZoneState) : ZoneState :=
  {| isActive := b;
     isScrolling := isScrolling s;
     scrollIntervalId := scrollIntervalId s;
     currentZone := currentZone s;
     pendingZone := pendingZone s;
     zoneSwitchTime := zoneSwitchTime s;
     dwellStartTime := dwellStartTime s |}.

Definition set_pending (p : zoneval) (t : option Q) (s : ZoneState) : ZoneState :=
  {| isActive := isActive s;
     isScrolling := isScrolling s;
     scrollIntervalId := scrollIntervalId s;
     currentZone := currentZone s;
     pendingZone := p;
     zoneSwitchTime := t;
     dwellStartTime := dwellStartTime s |}.

Definition set_zone (c p : zoneval) (d : option Q) (s : ZoneState) : ZoneState :=
  {| isActive := isActive s;
     isScrolling := isScrolling s;
     scrollIntervalId := scrollIntervalId s;
     currentZone := c;
     pendingZone := p;
     zoneSwitchTime := zoneSwitchTime s;
     dwellStartTime := d |}.

Definition set_dwellStartTime (d : option Q) (s : ZoneState) : ZoneState :=
  set_zone (currentZone s) (pendingZone s) d s.

(** [handleZoneAction(zone)]: scrolling, media and the assistant panel are
    page effects; the kill switch pauses tracking for three seconds. *)
Definition handleZoneAction (zone : Zone) (s : ZoneState)
  : ZoneState * list Effect :=
  match zone with
  | KILL_SWITCH =>
      (set_isActive false (stopScrolling s),
       [ZoneAction KILL_SWITCH; SetTimeout ReactivateTracking 3000])
  | z => (s, [ZoneAction z])
  end.

(** The hysteresis block: [zone] is what [getZoneFromY] returned. *)
Definition resolveZone (zone : zoneval) (now : Q) (s : ZoneState) : ZoneState :=
  if zone_neq zone (currentZone s) then
    if zone_neq zone (pendingZone s) then
      set_pending zone (Some now) s
    else if Qleb (ZONE_SWITCH_DELAY CONFIG) (now - num (zoneSwitchTime s)) then
      stopScrolling (set_zone zone ZNull (Some now) s)
    else s
  else set_pending ZNull (zoneSwitchTime s) s.

(** The dwell block. *)
Definition dwellCheck (now : Q) (s : ZoneState) : ZoneState * list Effect :=
  match currentZone s with
  | ZName z =>
      let dwellDuration := now - num (dwellStartTime s) in
      let dwellProgress := Qmin (dwellDuration / DWELL_TIME CONFIG) 1 in
      let vis := ZoneVisuals (currentZone s) dwellProgress in
      if Qleb (DWELL_TIME CONFIG) dwellDuration then
        let '(s1, es) := handleZoneAction z s in
        (set_dwellStartTime (Some now) s1, vis :: es)
      else (s, [vis])
  | _ => (s, [])
  end.

(** [updateGazePosition(x, y)] of the WebGazer script from the sidebar
    lookup on, and [updateZoneFromGaze(x, y)] of the Python script. *)
Definition updateZone (x y now : Q) (s : ZoneState) : ZoneState * list Effect :=
  if negb (sidebarHost page) then (s, [])
  else if isInSidebar x then
    dwellCheck now (resolveZone (getZoneFromY y) now s)
  else if truthy (currentZone s) then
    (stopScrolling (set_zone ZNull ZNull None s), [ZoneVisuals ZNull 0])
  else (s, []).

End ZoneStep.

(** ** Calibration gate (both scripts) *)

(** [localStorage]; access may throw, which every caller catches. *)
Record LocalStorage := {
  accessible : bool;
  items : gmap string string
}.

Record CalState := {
  isCalibrated : bool;
  calibrationClicks : nat
}.

(** The calibration overlay: per dot, the closure's [dotClicks[index]] and
    whether the dot has [pointer-events: none]; and whether
    [finishCalibration] has faded the overlay ([opacity: 0]) and set the
    500 ms timer that removes it. *)
Record Overlay := {
  dotClicks : list nat;
  dotDisabled : list bool;
  fading : bool
}.

(** The nine dot [positions], in percent of the viewport. *)
Definition positions : list (Q * Q) :=
  [ (10, 10); (50, 10); (90, 10);
    (10, 50); (50, 50); (90, 50);
    (10, 90); (50, 90); (90, 90) ].

Definition freshOverlay : Overlay := {|
  dotClicks := map (fun _ => O) positions;
  dotDisabled := map (fun _ => false) positions;
  fading := false
|}.

Record CalWorld := {
  cal : CalState;
  storage : LocalStorage;
  overlay : option Overlay
}.

Section Calibration.
Variable CONFIG : UIConfig.
(** [webgazer.recordScreenPosition] resp. [sendCalibrationPoint]. *)
Variable recordClick : Q -> Q -> list Effect.

Definition isCalibrationDone (ls : LocalStorage) : bool :=
  if accessible ls
  then bool_decide (items ls !! STORAGE_KEY CONFIG = Some "true"%string)
  else false.

Definition setCalibrationDone (ls : LocalStorage) : LocalStorage :=
  if accessible ls
  then {| accessible := true;
          items := <[STORAGE_KEY CONFIG := "true"%string]> (items ls) |}
  else ls.

Definition removeCalibrationFlag (ls : LocalStorage) : LocalStorage :=
  if accessible ls
  then {| accessible := true; items := delete (STORAGE_KEY CONFIG) (items ls) |}
  else ls.

Definition createCalibrationOverlay (w : CalWorld) : CalWorld :=
  if isCalibrationDone (storage w) then
    {| cal := {| isCalibrated := true;
                 calibrationClicks := calibrationClicks (cal w) |};
       storage := storage w;
       overlay := overlay w |}
  else
    {| cal := cal w; storage := storage w; overlay := Some freshOverlay |}.

(** [overlay.style.opacity = '0'] with the timer that removes the overlay
    500 ms later: the overlay stays in the document, and takes clicks, until
    [removeOverlay]. *)
Definition fadeOverlay (o : Overlay) : Overlay :=
  {| dotClicks := dotClicks o; dotDisabled := dotDisabled o; fading := true |}.

Definition finishCalibration (w : CalWorld) : CalWorld :=
  {| cal := {| isCalibrated := true;
               calibrationClicks := calibrationClicks (cal w) |};
     storage := setCalibrationDone (storage w);
     overlay := match overlay w with
                | Some o => Some (fadeOverlay o)
                | None => None
                end |}.

(** The callback of that timer, [overlay.remove()] on the overlay that was
    faded: an overlay built since is another element and stays. *)
Definition removeOverlay (w : CalWorld) : CalWorld :=
  match overlay w with
  | Some o =>
      if fading o
      then {| cal := cal w; storage := storage w; overlay := None |}
      else w
  | None => w
  end.

(** The click listener of dot [index]. *)
Definition dotClickHandler (index : nat) (x y : Q) (o : Overlay) (w : CalWorld)
  : CalWorld * list Effect :=
  let n := S (default O (dotClicks o !! index)) in
  let clicks := <[index := n]> (dotClicks o) in
  if (CLICKS_PER_POINT CONFIG <=? n)%nat then
    let c := S (calibrationClicks (cal w)) in
    ({| cal := {| isCalibrated := isCalibrated (cal w); calibrationClicks := c |};
        storage := storage w;
        overlay := Some {| dotClicks := clicks;
                           dotDisabled := <[index := true]> (dotDisabled o);
                           fading := fading o |} |},
     recordClick x y ++
     (if (CALIBRATION_POINTS CONFIG <=? c)%nat
      then [SetTimeout FinishCalibration 500] else []))
  else
    ({| cal := cal w;
        storage := storage w;
        overlay := Some {| dotClicks := clicks;
                           dotDisabled := dotDisabled o;
                           fading := fading o |} |},
     recordClick x y).

(** A mouse click on dot [index]: delivered to the listener only while the
    overlay is in the document, faded or not, and the dot still takes
    pointer events. *)
Definition clickDot (index : nat) (x y : Q) (w : CalWorld) : CalWorld * list Effect :=
  match overlay w with
  | Some o =>
      match dotDisabled o !! index with
      | Some false => dotClickHandler index x y o w
      | _ => (w, [])
      end
  | None => (w, [])
  end.

(** Whether a click on dot [index] reaches its listener. *)
Definition delivered (index : nat) (w : CalWorld) : bool :=
  match overlay w with
  | Some o => bool_decide (dotDisabled o !! index = Some false)
  | None => false
  end.

(** The skip button. *)
Definition clickSkip (w : CalWorld) : CalWorld :=
  match overlay w with
  | Some _ => finishCalibration w
  | None => w
  end.

(** A sequence of dot clicks, with the number of them that were delivered
    and the effects in order. *)
Fixpoint clickDots (cs : list (nat * Q * Q)) (w : CalWorld)
  : CalWorld * nat * list Effect :=
  match cs with
  | [] => (w, O, [])
  | (i, x, y) :: cs' =>
      let d := delivered i w in
      let '(w1, es1) := clickDot i x y w in
      let '(w2, k, es2) := clickDots cs' w1 in
      (w2, ((if d then 1 else 0) + k)%nat, es1 ++ es2)
  end.

End Calibration.

(** ** Adaptive filter and gate (WebGazer script) *)

Record FilterConfig := {
  LERP_MARGIN : Q;
  FILTER_ALPHA : Q;
  KALMAN_ENABLED : bool;
  MOVING_AVG_SIZE : nat;
  VELOCITY_THRESHOLD : Q;
  MIN_CONFIDENCE : Q;
  OUTLIER_THRESHOLD : Q;
  WATCHDOG_INTERVAL : Q;
  WATCHDOG_TIMEOUT : Q
}.

(** One axis of the Kalman filter: [{ x, p, q, r }]. *)
Module K.
Record KalmanState := mk { x : Q; p : Q; q : Q; r : Q }.
End K.
Abbreviation KalmanState := K.KalmanState.

Record FilterState := {
  filteredX : option Q;
  filteredY : option Q;
  gazeBuffer : list (Q * Q * Q);
  lastRawX : option Q;
  lastRawY : option Q;
  lastTimestamp : option Q;
  velocityX : Q;
  velocityY : Q;
  kalmanX : KalmanState;
  kalmanY : KalmanState
}.

Definition initialKalman : KalmanState := K.mk 0 1000 8 20.

Definition initialFilterState : FilterState := {|
  filteredX := None;
  filteredY := None;
  gazeBuffer := [];
  lastRawX := None;
  lastRawY := None;
  lastTimestamp := None;
  velocityX := 0;
  velocityY := 0;
  kalmanX := initialKalman;
  kalmanY := initialKalman
|}.

(** What [calculateVelocity] returns; [speedSq] is the square of [speed]. *)
Record Velocity := { vx : Q; vy : Q; speedSq : Q }.

(** A sample handed to the gaze listener: [data.x], [data.y] and the
    optional [data.confidence]. *)
Record GazeData := {
  data_x : Q;
  data_y : Q;
  data_confidence : option Q
}.

(** [kalmanFilter(measurement, kalmanState)] updates [kalmanState] in place
    and returns its new [x]. *)
Definition kalmanFilter (measurement : Q) (ks : KalmanState) : KalmanState :=
  let predictedX := K.x ks in
  let predictedP := K.p ks + K.q ks in
  let k := predictedP / (predictedP + K.r ks) in
  K.mk (predictedX + k * (measurement - predictedX))
       ((1 - k) * predictedP)
       (K.q ks) (K.r ks).

(** [n] calls with the same measurement. *)
Fixpoint kalmanFeed (n : nat) (measurement : Q) (ks : KalmanState) : KalmanState :=
  match n with
  | O => ks
  | S n' => kalmanFeed n' measurement (kalmanFilter measurement ks)
  end.

Section Filter.
Variable F : FilterConfig.
Variable page : Page.

Definition lerpCoordinate (value viewportSize : Q) : Q :=
  let minMargin := LERP_MARGIN F * viewportSize in
  let maxMargin := (1 - LERP_MARGIN F) * viewportSize in
  let range := maxMargin - minMargin in
  let normalized := (value - minMargin) / range in
  Qmax 0 (Qmin 1 normalized) * viewportSize.

Definition applyLowPassFilter (newValue : Q) (oldValue : option Q) : Q :=
  match oldValue with
  | None => newValue
  | Some old => old + FILTER_ALPHA F * (newValue - old)
  end.

Definition calculateVelocity (newX newY timestamp : Q) (f : FilterState)
  : Velocity * FilterState :=
  match lastRawX f, lastTimestamp f with
  | Some lx, Some lt =>
      let dt := (timestamp - lt) / 1000 in
      if Qleb dt 0 then
        ({| vx := velocityX f; vy := velocityY f;
            speedSq := velocityX f ^ 2 + velocityY f ^ 2 |}, f)
      else
        let vx' := (newX - lx) / dt in
        let vy' := (newY - num (lastRawY f)) / dt in
        ({| vx := vx'; vy := vy'; speedSq := vx' * vx' + vy' * vy' |},
         {| filteredX := filteredX f;
            filteredY := filteredY f;
            gazeBuffer := gazeBuffer f;
            lastRawX := Some newX;
            lastRawY := Some newY;
            lastTimestamp := Some timestamp;
            velocityX := vx';
            velocityY := vy';
            kalmanX := kalmanX f;
            kalmanY := kalmanY f |})
  | _, _ =>
      ({| vx := 0; vy := 0; speedSq := 0 |},
       {| filteredX := filteredX f;
          filteredY := filteredY f;
          gazeBuffer := gazeBuffer f;
          lastRawX := Some newX;
          lastRawY := Some newY;
          lastTimestamp := Some timestamp;
          velocityX := velocityX f;
          velocityY := velocityY f;
          kalmanX := kalmanX f;
          kalmanY := kalmanY f |})
  end.

Definition isOutlier (newX newY : Q) (f : FilterState) : bool :=
  match filteredX f, filteredY f with
  | Some fx, Some fy =>
      Qltb (OUTLIER_THRESHOLD F * OUTLIER_THRESHOLD F)
           ((newX - fx) ^ 2 + (newY - fy) ^ 2)
  | _, _ => false
  end.

Definition lowConfidence (eyeFeatures : GazeData) : bool :=
  match data_confidence eyeFeatures with
  | Some c => Qltb c (MIN_CONFIDENCE F)
  | None => false
  end.

(** [processGazeData(rawX, rawY, timestamp, eyeFeatures)]: the returned
    position ([None] for [null]) and the filter state afterwards. *)
Definition processGazeData (rawX rawY timestamp : Q) (eyeFeatures : GazeData)
           (f : FilterState) : option (Q * Q) * FilterState :=
  if lowConfidence eyeFeatures then (None, f)
  else
    let lerpedX := lerpCoordinate rawX (innerWidth page) in
    let lerpedY := lerpCoordinate rawY (innerHeight page) in
    let '(velocity, f1) := calculateVelocity lerpedX lerpedY timestamp f in
    if Qltb (VELOCITY_THRESHOLD F * VELOCITY_THRESHOLD F) (speedSq velocity)
    then (None, f1)
    else if isOutlier lerpedX lerpedY f1 then
      (match filteredX f1 with
       | Some fx => Some (fx, num (filteredY f1))
       | None => None
       end, f1)
    else
      let kx := if KALMAN_ENABLED F
                then kalmanFilter lerpedX (kalmanX f1) else kalmanX f1 in
      let ky := if KALMAN_ENABLED F
                then kalmanFilter lerpedY (kalmanY f1) else kalmanY f1 in
      let fX := if KALMAN_ENABLED F
                then K.x kx else applyLowPassFilter lerpedX (filteredX f1) in
      let fY := if KALMAN_ENABLED F
                then K.x ky else applyLowPassFilter lerpedY (filteredY f1) in
      (Some (fX, fY),
       {| filteredX := Some fX;
          filteredY := Some fY;
          gazeBuffer := gazeBuffer f1;
          lastRawX := lastRawX f1;
          lastRawY := lastRawY f1;
          lastTimestamp := lastTimestamp f1;
          velocityX := velocityX f1;
          velocityY := velocityY f1;
          kalmanX := kx;
          kalmanY := ky |}).

End Filter.

(** ** The WebGazer content script ([content.js]) *)

Module ContentJs.

Definition CONFIG : UIConfig := {|
  SIDEBAR_WIDTH := 140;
  ZONE_COUNT := 5;
  DWELL_TIME := 650;
  ZONE_SWITCH_DELAY := 100;
  CALIBRATION_POINTS := 9;
  CLICKS_PER_POINT := 3;
  ZONES := [SCROLL_UP; SCROLL_DOWN; MEDIA; ASK_AI; KILL_SWITCH];
  STORAGE_KEY := "eyecontrol_calibrated"
|}.

Definition FILTER : FilterConfig := {|
  LERP_MARGIN := 8 # 100;
  FILTER_ALPHA := 5 # 10;
  KALMAN_ENABLED := true;
  MOVING_AVG_SIZE := 4;
  VELOCITY_THRESHOLD := 1200;
  MIN_CONFIDENCE := 3 # 10;
  OUTLIER_THRESHOLD := 200;
  WATCHDOG_INTERVAL := 3000;
  WATCHDOG_TIMEOUT := 5000
|}.

(** The [webgazer] global: whether it is defined, and whether [begin],
    [pause] and [end] return rather than throw. *)
Record Runtime := {
  webgazerLoaded : bool;
  beginOk : bool;
  pauseOk : bool;
  endOk : bool
}.

(** [state] without the two calibration fields, which live in [CalWorld]. *)
Record State := {
  zs : ZoneState;
  fs : FilterState;
  isWebGazerReady : bool;
  lastGazeTime : Q;
  watchdogId : bool
}.

Record World := {
  st : State;
  cw : CalWorld;
  page : Page
}.

Definition initialState : State := {|
  zs := initialZoneState;
  fs := initialFilterState;
  isWebGazerReady := false;
  lastGazeTime := 0;
  watchdogId := false
|}.

(** A session start: fresh [state], no overlay, the stored items of the
    profile. *)
Definition startSession (ls : LocalStorage) (pg : Page) : World := {|
  st := initialState;
  cw := {| cal := {| isCalibrated := false; calibrationClicks := O |};
           storage := ls;
           overlay := None |};
  page := pg
|}.

Definition set_zs (z : ZoneState) (s : State) : State :=
  {| zs := z; fs := fs s; isWebGazerReady := isWebGazerReady s;
     lastGazeTime := lastGazeTime s; watchdogId := watchdogId s |}.

Definition set_fs (f : FilterState) (s : State) : State :=
  {| zs := zs s; fs := f; isWebGazerReady := isWebGazerReady s;
     lastGazeTime := lastGazeTime s; watchdogId := watchdogId s |}.

Definition set_lastGazeTime (t : Q) (s : State) : State :=
  {| zs := zs s; fs := fs s; isWebGazerReady := isWebGazerReady s;
     lastGazeTime := t; watchdogId := watchdogId s |}.

Definition set_st (s : State) (w : World) : World :=
  {| st := s; cw := cw w; page := page w |}.

Definition set_cw (c : CalWorld) (w : World) : World :=
  {| st := st w; cw := c; page := page w |}.

Definition updateGazePosition (x y now : Q) (w : World) : World * list Effect :=
  let '(z, es) := updateZone CONFIG (page w) x y now (zs (st w)) in
  (set_st (set_zs z (st w)) w, es).

(** The listener given to [webgazer.setGazeListener]; [dateNow] is
    [Date.now()], [perfNow] is [performance.now()]. *)
Definition gazeListener (data : option GazeData) (dateNow perfNow : Q) (w : World)
  : World * list Effect :=
  match data with
  | None => (w, [])
  | Some d =>
      let w1 := set_st (set_lastGazeTime dateNow (st w)) w in
      if negb (isActive (zs (st w1))) || negb (isCalibrated (cal (cw w1)))
      then (w1, [])
      else
        let '(result, f) :=
          processGazeData FILTER (page w1) (data_x d) (data_y d) perfNow d
                          (fs (st w1)) in
        let w2 := set_st (set_fs f (st w1)) w1 in
        match result with
        | Some (x, y) => updateGazePosition x y perfNow w2
        | None => (w2, [])
        end
  end.

Definition recoverWebGazer (rt : Runtime) : list Effect :=
  if negb (webgazerLoaded rt) then []
  else if pauseOk rt then [WebGazerPause; SetTimeout ResumeWebGazer 500]
  else if endOk rt then [WebGazerEnd; SetTimeout ReinitWebGazer 1000]
  else [].

(** One run of the interval callback installed by [startWatchdog]. *)
Definition watchdogCheck (rt : Runtime) (dateNow : Q) (w : World)
  : World * list Effect :=
  if negb (isCalibrated (cal (cw w))) || negb (isWebGazerReady (st w))
  then (w, [])
  else
    let timeSinceLastGaze := dateNow - lastGazeTime (st w) in
    if Qltb 0 (lastGazeTime (st w))
       && Qltb (WATCHDOG_TIMEOUT FILTER) timeSinceLastGaze
    then (w, RecoverWebGazer :: recoverWebGazer rt)
    else (w, []).

(** The 500 ms timer of [recoverWebGazer]. *)
Definition resumeWebGazer (dateNow : Q) (w : World) : World * list Effect :=
  (set_st (set_lastGazeTime dateNow (st w)) w, [WebGazerResume]).

Definition initWebGazer (rt : Runtime) (dateNow : Q) (w : World) : World :=
  if negb (webgazerLoaded rt) then w
  else if beginOk rt then
    set_st {| zs := zs (st w); fs := fs (st w);
              isWebGazerReady := true;
              lastGazeTime := dateNow;
              watchdogId := true |} w
  else w.

Definition recordClick (rt : Runtime) (x y : Q) : list Effect :=
  if webgazerLoaded rt then [CalibrationPoint x y] else [].

Definition resetCalibration (rt : Runtime) (ls : LocalStorage)
  : LocalStorage * list Effect :=
  if accessible ls
  then (removeCalibrationFlag CONFIG ls,
        if webgazerLoaded rt then [WebGazerClearData] else [])
  else (ls, []).

(** The click listener of the recalibration button. *)
Definition recalibrate (rt : Runtime) (w : World) : World * list Effect :=
  let '(ls, es) := resetCalibration rt (storage (cw w)) in
  (set_cw (createCalibrationOverlay CONFIG
             {| cal := {| isCalibrated := false; calibrationClicks := O |};
                storage := ls;
                overlay := overlay (cw w) |}) w,
   es).

(** The [resize] listener of [setup]. *)
Definition onResize (w h : Q) (wd : World) : World :=
  {| st := set_fs {| filteredX := None;
                     filteredY := None;
                     gazeBuffer := [];
                     lastRawX := None;
                     lastRawY := None;
                     lastTimestamp := None;
                     velocityX := 0;
                     velocityY := 0;
                     kalmanX := K.mk 0 1000 8 20;
                     kalmanY := K.mk 0 1000 8 20 |} (st wd);
     cw := cw wd;
     page := {| innerWidth := w; innerHeight := h;
                sidebarHost := sidebarHost (page wd) |} |}.

(** What the browser can run next. *)
Inductive Event :=
| EvInit (dateNow : Q)
| EvOverlay
| EvGaze (data : option GazeData) (dateNow perfNow : Q)
| EvWatchdog (dateNow : Q)
| EvTimer (t : Task) (dateNow : Q)
| EvDotClick (index : nat) (x y : Q)
| EvSkip
| EvOverlayFaded
| EvRecalibrate
| EvResize (w h : Q).

Definition handle (rt : Runtime) (e : Event) (w : World) : World * list Effect :=
  match e with
  | EvInit dateNow => (initWebGazer rt dateNow w, [])
  | EvOverlay => (set_cw (createCalibrationOverlay CONFIG (cw w)) w, [])
  | EvGaze data dateNow perfNow => gazeListener data dateNow perfNow w
  | EvWatchdog dateNow =>
      if watchdogId (st w) then watchdogCheck rt dateNow w else (w, [])
  | EvTimer ReactivateTracking _ =>
      (set_st (set_zs (set_isActive true (zs (st w))) (st w)) w, [])
  | EvTimer FinishCalibration _ => (set_cw (finishCalibration CONFIG (cw w)) w, [])
  | EvTimer ResumeWebGazer dateNow => resumeWebGazer dateNow w
  | EvTimer ReinitWebGazer dateNow => (initWebGazer rt dateNow w, [])
  | EvDotClick index x y =>
      let '(c, es) := clickDot CONFIG (recordClick rt) index x y (cw w) in
      (set_cw c w, es)
  | EvSkip => (set_cw (clickSkip CONFIG (cw w)) w, [])
  | EvOverlayFaded => (set_cw (removeOverlay (cw w)) w, [])
  | EvRecalibrate => recalibrate rt w
  | EvResize wd h => (onResize wd h w, [])
  end.

Fixpoint run (rt : Runtime) (evs : list Event) (w : World) : World * list Effect :=
  match evs with
  | [] => (w, [])
  | e :: evs' =>
      let '(w1, es1) := handle rt e w in
      let '(w2, es2) := run rt evs' w1 in
      (w2, es1 ++ es2)
  end.

(** Whether a trace delivers a sample to the gaze listener. *)
Definition isSample (e : Event) : bool :=
  match e with EvGaze (Some _) _ _ => true | _ => false end.

(** Calls of [recoverWebGazer] in a run. *)
Fixpoint recoveries (es : list Effect) : nat :=
  match es with
  | [] => O
  | RecoverWebGazer :: es' => S (recoveries es')
  | _ :: es' => recoveries es'
  end.

End ContentJs.

(** ** The Python-server content script ([content_python.js]) *)

Module ContentPython.

Definition CONFIG : UIConfig := {|
  SIDEBAR_WIDTH := 140;
  ZONE_COUNT := 5;
  DWELL_TIME := 600;
  ZONE_SWITCH_DELAY := 100;
  CALIBRATION_POINTS := 9;
  CLICKS_PER_POINT := 2;
  ZONES := [SCROLL_UP; SCROLL_DOWN; MEDIA; ASK_AI; KILL_SWITCH];
  STORAGE_KEY := "sharingan_python_calibrated"
|}.

Definition CURSOR_SMOOTHING : Q := 15 # 100.

(** [state] without the two calibration fields; [wsOpen] stands for
    [state.ws && state.ws.readyState === WebSocket.OPEN]. *)
Record State := {
  zs : ZoneState;
  wsOpen : bool;
  isConnected : bool;
  gazeX : option Q;
  gazeY : option Q;
  displayX : option Q;
  displayY : option Q;
  animationFrameId : bool
}.

Record World := {
  st : State;
  cw : CalWorld;
  page : Page
}.

Definition initialState : State := {|
  zs := initialZoneState;
  wsOpen := false;
  isConnected := false;
  gazeX := None;
  gazeY := None;
  displayX := None;
  displayY := None;
  animationFrameId := false
|}.

Definition startSession (ls : LocalStorage) (pg : Page) : World := {|
  st := initialState;
  cw := {| cal := {| isCalibrated := false; calibrationClicks := O |};
           storage := ls;
           overlay := None |};
  page := pg
|}.

Definition set_zs (z : ZoneState) (s : State) : State :=
  {| zs := z; wsOpen := wsOpen s; isConnected := isConnected s;
     gazeX := gazeX s; gazeY := gazeY s;
     displayX := displayX s; displayY := displayY s;
     animationFrameId := animationFrameId s |}.

Definition set_gaze (x y : option Q) (s : State) : State :=
  {| zs := zs s; wsOpen := wsOpen s; isConnected := isConnected s;
     gazeX := x; gazeY := y;
     displayX := displayX s; displayY := displayY s;
     animationFrameId := animationFrameId s |}.

Definition set_display (x y : option Q) (s : State) : State :=
  {| zs := zs s; wsOpen := wsOpen s; isConnected := isConnected s;
     gazeX := gazeX s; gazeY := gazeY s;
     displayX := x; displayY := y;
     animationFrameId := animationFrameId s |}.

Definition set_st (s : State) (w : World) : World :=
  {| st := s; cw := cw w; page := page w |}.

Definition set_cw (c : CalWorld) (w : World) : World :=
  {| st := st w; cw := c; page := page w |}.

(** Messages of the gaze server, by [data.type]. *)
Inductive ServerMessage :=
| MsgGaze (x y : Q)
| MsgFrame
| MsgCalibrationAck (points_collected : nat) (is_calibrated : bool)
| MsgCalibrationReset
| MsgOther.

(** [updateGazePosition(x, y)] only moves the target of the animation. *)
Definition updateGazePosition (x y : Q) (w : World) : World :=
  set_st (set_gaze (Some x) (Some y) (st w)) w.

Definition handleServerMessage (data : ServerMessage) (w : World)
  : World * list Effect :=
  match data with
  | MsgGaze x y =>
      if isActive (zs (st w)) && isCalibrated (cal (cw w))
      then (updateGazePosition x y (set_st (set_gaze (Some x) (Some y) (st w)) w), [])
      else (w, [])
  | MsgFrame => (w, [])
  | MsgCalibrationAck _ is_calibrated =>
      if is_calibrated then (set_cw (finishCalibration CONFIG (cw w)) w, [])
      else (w, [])
  | MsgCalibrationReset =>
      (set_cw {| cal := {| isCalibrated := false; calibrationClicks := O |};
                 storage := storage (cw w);
                 overlay := overlay (cw w) |} w, [])
  | MsgOther => (w, [])
  end.

Definition updateZoneFromGaze (x y now : Q) (w : World) : World * list Effect :=
  let '(z, es) := updateZone CONFIG (page w) x y now (zs (st w)) in
  (set_st (set_zs z (st w)) w, es).

(** One run of the [requestAnimationFrame] callback [animate]. *)
Definition animate (now : Q) (w : World) : World * list Effect :=
  match gazeX (st w), gazeY (st w) with
  | Some gx, Some gy =>
      let s1 := match displayX (st w) with
                | None => set_display (Some gx) (Some gy) (st w)
                | Some _ => st w
                end in
      let dx := num (displayX s1) + (gx - num (displayX s1)) * CURSOR_SMOOTHING in
      let dy := num (displayY s1) + (gy - num (displayY s1)) * CURSOR_SMOOTHING in
      updateZoneFromGaze dx dy now (set_st (set_display (Some dx) (Some dy) s1) w)
  | _, _ => (w, [])
  end.

Definition sendCalibrationPoint (wsIsOpen : bool) (x y : Q) : list Effect :=
  if wsIsOpen then [CalibrationPoint x y] else [].

Definition resetCalibration (w : World) : World * list Effect :=
  (set_cw {| cal := {| isCalibrated := false; calibrationClicks := O |};
             storage := removeCalibrationFlag CONFIG (storage (cw w));
             overlay := overlay (cw w) |} w,
   if wsOpen (st w) then [SendResetCalibration] else []).

(** The click listener of the recalibration button. *)
Definition recalibrate (w : World) : World * list Effect :=
  let '(w1, es) := resetCalibration w in
  (set_cw (createCalibrationOverlay CONFIG (cw w1)) w1, es).

End ContentPython.

(** ** Runs and statements used by the theorems *)

(** Successive evaluations of the zone step, each at a position and time. *)
Fixpoint updateZoneRun (CONFIG : UIConfig) (page : Page)
         (evals : list (Q * Q * Q)) (s : ZoneState) : ZoneState * list Effect :=
  match evals with
  | [] => (s, [])
  | (x, y, now) :: evals' =>
      let '(s1, es1) := updateZone CONFIG page x y now s in
      let '(s2, es2) := updateZoneRun CONFIG page evals' s1 in
      (s2, es1 ++ es2)
  end.

Definition evalTime (e : Q * Q * Q) : Q := snd e.

(** An evaluation inside the strip that resolves to [zone]. *)
Definition resolvesTo (CONFIG : UIConfig) (page : Page) (zone : zoneval)
           (e : Q * Q * Q) : Prop :=
  isInSidebar CONFIG page (fst (fst e)) = true /\
  getZoneFromY CONFIG page (snd (fst e)) = zone.

(** The dwell rule in the words of the specification: an activation fires at
    an evaluation when [now - dwellStart >= D], and dwell restarts there. *)
Fixpoint dwellFires (D dwellStart : Q) (times : list Q) : nat :=
  match times with
  | [] => O
  | now :: times' =>
      if Qleb D (now - dwellStart)
      then S (dwellFires D now times')
      else dwellFires D dwellStart times'
  end.

Fixpoint dwellStartAfter (D dwellStart : Q) (times : list Q) : Q :=
  match times with
  | [] => dwellStart
  | now :: times' =>
      if Qleb D (now - dwellStart)
      then dwellStartAfter D now times'
      else dwellStartAfter D dwellStart times'
  end.

(** The zone index in the words of the specification. *)
Definition clampIndex (lo hi i : Z) : Z := Z.max lo (Z.min i hi).

Definition specZoneIndex (y h : Q) (count : Z) : Z :=
  clampIndex 0 (count - 1) (Qfloor (y / (h / inject_Z count))).

(** [a^n] for the contraction bound of the Kalman filter. *)
Fixpoint qpow (a : Q) (n : nat) : Q :=
  match n with
  | O => 1
  | S n' => a * qpow a n'
  end.

(** Steps after which [r/(q+r)] to that power is at most [1/100]. *)
Definition kalmanSteps (q r : Q) : nat := Z.to_nat (Qceiling (99 * r / q)).

(** [setTimeout(finishCalibration, 500)] calls in a run. *)
Fixpoint finishTimers (es : list Effect) : nat :=
  match es with
  | [] => O
  | SetTimeout FinishCalibration _ :: es' => S (finishTimers es')
  | _ :: es' => finishTimers es'
  end.

(** Dots that have reached [K] clicks. *)
Definition completedDots (K : nat) (clicks : list nat) : nat :=
  sum_list_with (fun n => if (K <=? n)%nat then 1%nat else 0%nat) clicks.

(** The world in which [createCalibrationOverlay] first runs in a session. *)
Definition sessionStart (ls : LocalStorage) : CalWorld :=
  {| cal := {| isCalibrated := false; calibrationClicks := O |};
     storage := ls;
     overlay := None |}.

(** The two shipped configurations. *)
Definition shipped (CONFIG : UIConfig) : Prop :=
  CONFIG = ContentJs.CONFIG \/ CONFIG = ContentPython.CONFIG.

(** The zone-index sentence as the specification words it: inside the strip
    the zone is the one at the index clamped to [[0, ZONE_COUNT - 1]]. *)
Definition zoneIndexAsStated (CONFIG : UIConfig) (page : Page) (y : Q) : Prop :=
  getZoneFromY CONFIG page y
  = js_index (ZONES CONFIG)
             (specZoneIndex y (innerHeight page) (ZONE_COUNT CONFIG)).

(** ** Concrete inputs *)

Definition page1000x800 : Page :=
  {| innerWidth := 1000; innerHeight := 800; sidebarHost := true |}.

(** Tracking [zone] since [dwellStart], nothing pending. *)
Definition tracking (zone : Zone) (dwellStart : Q) : ZoneState := {|
  isActive := true;
  isScrolling := false;
  scrollIntervalId := false;
  currentZone := ZName zone;
  pendingZone := ZNull;
  zoneSwitchTime := None;
  dwellStartTime := Some dwellStart
|}.

(** The dwell sentence as the specification words it, with its 600 ms. *)
Definition firesAt600AsStated (CONFIG : UIConfig) (page : Page) (zone : Zone)
           (x y now : Q) (s : ZoneState) : Prop :=
  600 <= now - num (dwellStartTime s) <->
  actions (snd (updateZone CONFIG page x y now s)) = [zone].

(** A sample straight ahead in the strip, and one with low confidence. *)
Definition sampleInStrip : GazeData :=
  {| data_x := 950; data_y := 500; data_confidence := None |}.

Definition emptyStorage : LocalStorage :=
  {| accessible := true; items := ∅ |}.

(** The profile of a user who calibrated the WebGazer script before. *)
Definition calibratedStorageJs : LocalStorage :=
  {| accessible := true;
     items := {[ STORAGE_KEY ContentJs.CONFIG := "true"%string ]} |}.

Definition calibratedStoragePython : LocalStorage :=
  {| accessible := true;
     items := {[ STORAGE_KEY ContentPython.CONFIG := "true"%string ]} |}.

(** The Python script after a calibrated session received one sample in the
    strip, the animation committed its zone, and the user asked to
    recalibrate. *)
Definition pythonAfterRecalibrate : ContentPython.World :=
  let w0 := ContentPython.set_cw
              (createCalibrationOverlay ContentPython.CONFIG
                 (ContentPython.cw
                    (ContentPython.startSession calibratedStoragePython page1000x800)))
              (ContentPython.startSession calibratedStoragePython page1000x800) in
  let w1 := fst (ContentPython.handleServerMessage (ContentPython.MsgGaze 950 500) w0) in
  let w2 := fst (ContentPython.animate 0 w1) in
  let w3 := fst (ContentPython.animate 100 w2) in
  fst (ContentPython.recalibrate w3).

(** The filter after some tracking: estimate at (500, 400), last raw sample
    there at time 1000. *)
Definition filterAt500x400 : FilterState := {|
  filteredX := Some 500;
  filteredY := Some 400;
  gazeBuffer := [];
  lastRawX := Some 500;
  lastRawY := Some 400;
  lastTimestamp := Some 1000;
  velocityX := 0;
  velocityY := 0;
  kalmanX := K.mk 500 20 8 20;
  kalmanY := K.mk 400 20 8 20
|}.

(** The same estimate while the raw samples have already moved away (the
    previous sample, at (900, 400), was vetoed). *)
Definition filterRawAhead : FilterState := {|
  filteredX := Some 500;
  filteredY := Some 400;
  gazeBuffer := [];
  lastRawX := Some 900;
  lastRawY := Some 400;
  lastTimestamp := Some 1000;
  velocityX := 0;
  velocityY := 0;
  kalmanX := K.mk 500 20 8 20;
  kalmanY := K.mk 400 20 8 20
|}.

(** A sample whose normalized position on a 1000x800 viewport is
    (900, 400). *)
Definition sampleFar : GazeData :=
  {| data_x := 836; data_y := 400; data_confidence := None |}.

Definition sampleLowConfidence : GazeData :=
  {| data_x := 836; data_y := 400; data_confidence := Some (1 # 10) |}.

(** The hold-steady sentence as stated: a sample farther than the threshold
    from an existing filtered position returns that position. *)
Definition holdSteadyAsStated (F : FilterConfig) (page : Page) (f : FilterState)
           (d : GazeData) (timestamp : Q) : Prop :=
  forall fx fy,
    filteredX f = Some fx ->
    filteredY f = Some fy ->
    OUTLIER_THRESHOLD F * OUTLIER_THRESHOLD F
    < (lerpCoordinate F (data_x d) (innerWidth page) - fx) ^ 2
      + (lerpCoordinate F (data_y d) (innerHeight page) - fy) ^ 2 ->
    fst (processGazeData F page (data_x d) (data_y d) timestamp d f)
    = Some (fx, fy).

(** The side-effect sentence as stated: every processed sample leaves its
    time stamp in [lastTimestamp]. *)
Definition velocityUpdatedAsStated (F : FilterConfig) (page : Page)
           (f : FilterState) (d : GazeData) (timestamp : Q) : Prop :=
  lastTimestamp (snd (processGazeData F page (data_x d) (data_y d) timestamp d f))
  = Some timestamp.

(** The resize sentence as stated, for the zone fields. *)
Definition resizeResetsZoneAsStated (w h : Q) (wd : ContentJs.World) : Prop :=
  ContentJs.zs (ContentJs.st (ContentJs.onResize w h wd)) = initialZoneState.

(** A WebGazer world that tracks [MEDIA]. *)
Definition worldTrackingMedia : ContentJs.World :=
  ContentJs.set_st
    (ContentJs.set_fs filterAt500x400
       (ContentJs.set_zs (tracking MEDIA 100) ContentJs.initialState))
    (ContentJs.startSession calibratedStorageJs page1000x800).

(** The invariant under which the gain is defined and lies in (0, 1). *)
Definition kalmanOk (ks : KalmanState) : Prop :=
  0 <= K.p ks /\ 0 < K.q ks /\ 0 < K.r ks.

(** What holds of the overlay between clicks: nine dots, none clicked more
    than [CLICKS_PER_POINT] times, a dot disabled exactly when it has that
    many clicks, and [state.calibrationClicks] counting the disabled dots. *)
Definition overlayInv (CONFIG : UIConfig) (w : CalWorld) (o : Overlay) : Prop :=
  overlay w = Some o /\
  length (dotClicks o) = 9%nat /\
  dotDisabled o = (fun n => (CLICKS_PER_POINT CONFIG <=? n)%nat) <$> dotClicks o /\
  Forall (fun n => (n <= CLICKS_PER_POINT CONFIG)%nat) (dotClicks o) /\
  calibrationClicks (cal w) = completedDots (CLICKS_PER_POINT CONFIG) (dotClicks o).

(** Two clicks on each of the nine dots. *)
Definition eighteenClicks : list (nat * Q * Q) :=
  flat_map (fun i => [(i, 100, 100); (i, 100, 100)])
           [0; 1; 2; 3; 4; 5; 6; 7; 8]%nat.

(** WebGazer loaded and answering every call. *)
Definition runtimeOk : ContentJs.Runtime :=
  {| ContentJs.webgazerLoaded := true;
     ContentJs.beginOk := true;
     ContentJs.pauseOk := true;
     ContentJs.endOk := true |}.

(** A calibrated profile opens a page; WebGazer starts at 500 ms, the
    overlay step finds the stored flag, the watchdog runs twice, and no
    sample ever arrives. *)
Definition silentSession : list ContentJs.Event :=
  [ContentJs.EvInit 500; ContentJs.EvOverlay;
   ContentJs.EvWatchdog 3500; ContentJs.EvWatchdog 6500].

(** The watchdog sentence as stated: without any sample received, no
    recovery is invoked. *)
Definition inertWithoutSamplesAsStated (rt : ContentJs.Runtime)
           (evs : list ContentJs.Event) (w : ContentJs.World) : Prop :=
  forallb (fun e => negb (ContentJs.isSample e)) evs = true ->
  ContentJs.recoveries (snd (ContentJs.run rt evs w)) = O.

(** ** Invariants used by the further properties *)

Definition within (lo hi : Q) (o : option Q) : Prop :=
  match o with
  | Some v => lo <= v /\ v <= hi
  | None => True
  end.

(** The filter estimates lie inside the viewport and both Kalman states
    have a defined gain. *)
Definition filterInv (page : Page) (f : FilterState) : Prop :=
  kalmanOk (kalmanX f) /\ kalmanOk (kalmanY f) /\
  (0 <= K.x (kalmanX f) /\ K.x (kalmanX f) <= innerWidth page) /\
  (0 <= K.x (kalmanY f) /\ K.x (kalmanY f) <= innerHeight page) /\
  within 0 (innerWidth page) (filteredX f) /\
  within 0 (innerHeight page) (filteredY f).

(** What the specification's data model asks of the zone fields:
    [dwellStartTime] is set exactly while [currentZone] is, and a candidate is
    only held while it differs from the current zone, with its time stamp. *)
Definition zoneInv (s : ZoneState) : Prop :=
  (currentZone s = ZNull <-> dwellStartTime s = None) /\
  (pendingZone s <> ZNull ->
   pendingZone s <> currentZone s /\ zoneSwitchTime s <> None).

(** Gaze-listener calls as browser events. *)
Definition gazeEvents (gazes : list (option GazeData * Q * Q)) : list ContentJs.Event :=
  map (fun g => ContentJs.EvGaze (fst (fst g)) (snd (fst g)) (snd g)) gazes.

(** ** Moving-average buffer (WebGazer script) *)

(** The [while (buffer.length > size) buffer.shift()] loop. *)
Fixpoint shiftWhileLonger (size : nat) (buf : list (Q * Q * Q)) : list (Q * Q * Q) :=
  match buf with
  | [] => []
  | _ :: rest =>
      if (size <? length buf)%nat then shiftWhileLonger size rest else buf
  end.

(** [addToGazeBuffer(x, y)]; [now] is [performance.now()]. *)
Definition addToGazeBuffer (F : FilterConfig) (x y now : Q) (f : FilterState)
  : FilterState :=
  {| filteredX := filteredX f;
     filteredY := filteredY f;
     gazeBuffer := shiftWhileLonger (MOVING_AVG_SIZE F) (gazeBuffer f ++ [(x, y, now)]);
     lastRawX := lastRawX f;
     lastRawY := lastRawY f;
     lastTimestamp := lastTimestamp f;
     velocityX := velocityX f;
     velocityY := velocityY f;
     kalmanX := kalmanX f;
     kalmanY := kalmanY f |}.

(** The [for] loop of [getMovingAverage] from index [i] on, with the running
    [sumX], [sumY], [sumWeight]. *)
Fixpoint weightedSums (len : Q) (i : nat) (buf : list (Q * Q * Q))
         (sums : Q * Q * Q) : Q * Q * Q :=
  match buf with
  | [] => sums
  | (x, y, _) :: rest =>
      let weight := (inject_Z (Z.of_nat i) + 1) / len in
      weightedSums len (S i) rest
        (fst (fst sums) + x * weight, snd (fst sums) + y * weight, snd sums + weight)
  end.

(** [getMovingAverage()]: [None] for [null]. *)
Definition getMovingAverage (f : FilterState) : option (Q * Q) :=
  match gazeBuffer f with
  | [] => None
  | buf =>
      let sums := weightedSums (inject_Z (Z.of_nat (length buf))) 0 buf (0, 0, 0) in
      Some (fst (fst sums) / snd sums, snd (fst sums) / snd sums)
  end.

(** A filter state that only carries a buffer. *)
Definition withBuffer (buf : list (Q * Q * Q)) : FilterState :=
  {| filteredX := None;
     filteredY := None;
     gazeBuffer := buf;
     lastRawX := None;
     lastRawY := None;
     lastTimestamp := None;
     velocityX := 0;
     velocityY := 0;
     kalmanX := initialKalman;
     kalmanY := initialKalman |}.

(** The progress value of every [updateZoneVisuals] call lies in [[0, 1]]. *)
Definition progressInUnit (e : Effect) : Prop :=
  match e with
  | ZoneVisuals _ progress => 0 <= progress /\ progress <= 1
  | _ => True
  end.

(** The Python world with [isActive] replaced. *)
Definition pythonSetActive (b : bool) (w : ContentPython.World) : ContentPython.World :=
  ContentPython.set_st
    (ContentPython.set_zs (set_isActive b (ContentPython.zs (ContentPython.st w)))
                          (ContentPython.st w)) w.

(** A Python world whose cursor is shown at (900, 500) while the target has
    moved to (950, 500). *)
Definition pythonCursorBehind : ContentPython.World :=
  ContentPython.set_st
    (ContentPython.set_display (Some 900) (Some 500)
       (ContentPython.set_gaze (Some 950) (Some 500) ContentPython.initialState))
    (ContentPython.startSession calibratedStoragePython page1000x800).

Definition blockedStorage : LocalStorage :=
  {| accessible := false; items := ∅ |}.

(** * Theorems *)

(** ** Comparisons *)

Lemma Qleb_true a b : Qleb a b = true <-> a <= b.
Proof. apply Qle_bool_iff. Qed.

Lemma Qleb_false a b : Qleb a b = false <-> b < a.
Proof.
  unfold Qleb. split; intros H.
  - destruct (Qlt_le_dec b a) as [Hlt | Hle]; [exact Hlt |].
    apply Qle_bool_iff in Hle. congruence.
  - destruct (Qle_bool a b) eqn:E; [| reflexivity].
    apply Qle_bool_iff in E. lra.
Qed.

Lemma Qltb_true a b : Qltb a b = true <-> a < b.
Proof.
  unfold Qltb. rewrite negb_true_iff. apply (Qleb_false b a).
Qed.

Lemma Qltb_false a b : Qltb a b = false <-> b <= a.
Proof.
  unfold Qltb. rewrite negb_false_iff. apply (Qleb_true b a).
Qed.

Lemma zone_neq_true a b : zone_neq a b = true <-> a <> b.
Proof.
  unfold zone_neq. rewrite negb_true_iff, bool_decide_eq_false. reflexivity.
Qed.

Lemma zone_neq_false a b : zone_neq a b = false <-> a = b.
Proof.
  unfold zone_neq. rewrite negb_false_iff, bool_decide_eq_true. reflexivity.
Qed.

(** ** Zone resolution *)

Lemma zoneHeight_pos (h : Q) (n : Z) : 0 < h -> (0 < n)%Z -> 0 < h / inject_Z n.
Proof.
  intros Hh Hn. apply Qlt_shift_div_l.
  - replace 0 with (inject_Z 0) by reflexivity. rewrite <- Zlt_Qlt. exact Hn.
  - lra.
Qed.

Lemma zoneIndex_nonneg (y zh : Q) : 0 < zh -> 0 <= y -> (0 <= Qfloor (y / zh))%Z.
Proof.
  intros Hzh Hy.
  assert (H : 0 <= y / zh) by (apply Qle_shift_div_l; lra).
  apply Qfloor_resp_le in H. exact H.
Qed.

Lemma zoneIndex_neg (y zh : Q) : 0 < zh -> y < 0 -> (Qfloor (y / zh) < 0)%Z.
Proof.
  intros Hzh Hy.
  assert (H : y / zh < 0) by (apply Qlt_shift_div_r; lra).
  pose proof (Qfloor_le (y / zh)) as Hf.
  assert (Hlt : inject_Z (Qfloor (y / zh)) < inject_Z 0).
  { eapply Qle_lt_trans; [exact Hf | exact H]. }
  rewrite <- Zlt_Qlt in Hlt. exact Hlt.
Qed.

Lemma js_index_five (i : Z) :
  (0 <= i <= 4)%Z ->
  exists z, js_index [SCROLL_UP; SCROLL_DOWN; MEDIA; ASK_AI; KILL_SWITCH] i = ZName z.
Proof.
  intros Hi.
  assert (Hc : (i = 0 \/ i = 1 \/ i = 2 \/ i = 3 \/ i = 4)%Z) by lia.
  destruct Hc as [-> | [-> | [-> | [-> | ->]]]]; simpl; eauto.
Qed.

Lemma getZoneFromY_not_null cfg page y : getZoneFromY cfg page y <> ZNull.
Proof.
  unfold getZoneFromY, js_index.
  destruct (_ <? 0)%Z; [discriminate |].
  destruct (nth_error _ _); discriminate.
Qed.

(** C3, as amended: a position is in the strip iff [x >= w - 140]; for
    [y >= 0] the zone is the one at [floor(y / (h / 5))] capped at 4, which
    is the index clamped to [[0, 4]]; for [y < 0] the lookup is [undefined]
    (the index is capped from above only).  On a 1000x800 viewport the
    position (950, 500) is in the strip and resolves to zone 3, [ASK_AI]. *)
Theorem zone_resolution (cfg : UIConfig) (page : Page) (x y : Q) :
  shipped cfg ->
  0 < innerHeight page ->
  (isInSidebar cfg page x = true <-> innerWidth page - 140 <= x) /\
  (0 <= y ->
   getZoneFromY cfg page y
   = js_index (ZONES cfg) (specZoneIndex y (innerHeight page) 5) /\
   (0 <= specZoneIndex y (innerHeight page) 5 <= 4)%Z /\
   exists z, getZoneFromY cfg page y = ZName z) /\
  (y < 0 -> getZoneFromY cfg page y = ZUndefined) /\
  (innerWidth page == 1000 -> isInSidebar cfg page 950 = true) /\
  (innerHeight page == 800 -> getZoneFromY cfg page 500 = ZName ASK_AI).
Proof.
  intros Hcfg Hh.
  assert (Hfields : SIDEBAR_WIDTH cfg = 140 /\ ZONE_COUNT cfg = 5%Z /\
                    ZONES cfg = [SCROLL_UP; SCROLL_DOWN; MEDIA; ASK_AI; KILL_SWITCH]).
  { destruct Hcfg as [-> | ->]; repeat split; reflexivity. }
  destruct Hfields as (Hsw & Hzc & Hzs).
  assert (Hzh : 0 < innerHeight page / inject_Z 5) by (apply zoneHeight_pos; [exact Hh | lia]).
  repeat split.
  - unfold isInSidebar. rewrite Hsw. apply Qleb_true.
  - unfold isInSidebar. rewrite Hsw. apply Qleb_true.
  - unfold getZoneFromY, specZoneIndex, clampIndex. rewrite Hzc.
    pose proof (zoneIndex_nonneg y _ Hzh H) as Hi.
    f_equal. lia.
  - unfold specZoneIndex, clampIndex. lia.
  - unfold specZoneIndex, clampIndex. lia.
  - unfold getZoneFromY. rewrite Hzc, Hzs.
    pose proof (zoneIndex_nonneg y _ Hzh H) as Hi.
    apply js_index_five. lia.
  - intros Hy. unfold getZoneFromY. rewrite Hzc.
    pose proof (zoneIndex_neg y _ Hzh Hy) as Hi.
    unfold js_index.
    destruct (Z.ltb_spec (Z.min (Qfloor (y / (innerHeight page / inject_Z 5))) (5 - 1)) 0);
      [reflexivity | lia].
  - intros Hw. unfold isInSidebar. rewrite Hsw. apply Qleb_true. rewrite Hw. lra.
  - intros Hh8. unfold getZoneFromY. rewrite Hzc, Hzs.
    assert (Hq : 500 / (innerHeight page / inject_Z 5) == 25 # 8).
    { rewrite Hh8. reflexivity. }
    rewrite Hq. reflexivity.
Qed.

Lemma zone_resolution_witness :
  isInSidebar ContentPython.CONFIG page1000x800 950 = true /\
  getZoneFromY ContentPython.CONFIG page1000x800 500 = ZName ASK_AI.
Proof.
  assert (Hs : shipped ContentPython.CONFIG) by (right; reflexivity).
  assert (Hh : 0 < innerHeight page1000x800) by (vm_compute; reflexivity).
  destruct (zone_resolution ContentPython.CONFIG page1000x800 950 500 Hs Hh)
    as (_ & _ & _ & Hx & Hy).
  split; [apply Hx | apply Hy]; reflexivity.
Defined.

(** C3 as stated fails below the top edge: the index is not clamped at 0. *)
Lemma zone_resolution_counterexample :
  isInSidebar ContentPython.CONFIG page1000x800 950 = true /\
  ~ zoneIndexAsStated ContentPython.CONFIG page1000x800 (-10).
Proof.
  split; [reflexivity |].
  unfold zoneIndexAsStated. vm_compute. discriminate.
Qed.

(** ** The zone step *)

Lemma updateZone_in_strip cfg page x y now s :
  sidebarHost page = true ->
  isInSidebar cfg page x = true ->
  updateZone cfg page x y now s
  = dwellCheck cfg now (resolveZone cfg (getZoneFromY cfg page y) now s).
Proof.
  intros Hh Hx. unfold updateZone. rewrite Hh, Hx. reflexivity.
Qed.

Lemma resolveZone_same cfg zone now s :
  zone = currentZone s ->
  resolveZone cfg zone now s = set_pending ZNull (zoneSwitchTime s) s.
Proof.
  intros H. unfold resolveZone.
  apply zone_neq_false in H. rewrite H. reflexivity.
Qed.

(** A resolved zone that differs from [currentZone] only records or keeps a
    candidate unless it already is the candidate and the delay has run. *)
Lemma resolveZone_candidate cfg zone now s :
  zone <> currentZone s ->
  pendingZone s <> zone \/ now - num (zoneSwitchTime s) < ZONE_SWITCH_DELAY cfg ->
  currentZone (resolveZone cfg zone now s) = currentZone s /\
  dwellStartTime (resolveZone cfg zone now s) = dwellStartTime s /\
  isActive (resolveZone cfg zone now s) = isActive s.
Proof.
  intros Hne Hp. unfold resolveZone.
  apply zone_neq_true in Hne. rewrite Hne.
  destruct (zone_neq zone (pendingZone s)) eqn:Ep; [repeat split |].
  apply zone_neq_false in Ep.
  destruct Hp as [Hp | Hp]; [congruence |].
  apply Qleb_false in Hp. rewrite Hp. repeat split.
Qed.

Lemma dwellCheck_tracking cfg now s z :
  currentZone s = ZName z ->
  currentZone (fst (dwellCheck cfg now s)) = ZName z /\
  pendingZone (fst (dwellCheck cfg now s)) = pendingZone s /\
  (DWELL_TIME cfg <= now - num (dwellStartTime s) ->
   actions (snd (dwellCheck cfg now s)) = [z] /\
   dwellStartTime (fst (dwellCheck cfg now s)) = Some now) /\
  (now - num (dwellStartTime s) < DWELL_TIME cfg ->
   actions (snd (dwellCheck cfg now s)) = [] /\
   dwellStartTime (fst (dwellCheck cfg now s)) = dwellStartTime s).
Proof.
  intros Hc. unfold dwellCheck. rewrite Hc.
  destruct (Qleb (DWELL_TIME cfg) (now - num (dwellStartTime s))) eqn:E.
  - apply Qleb_true in E.
    destruct z; simpl; rewrite ?Hc; repeat split; intros; try reflexivity; lra.
  - apply Qleb_false in E.
    simpl; rewrite ?Hc; repeat split; intros; try reflexivity; lra.
Qed.

(** In the strip, the dwell block sees the same zone and dwell start whether
    the resolved zone is the current one or a candidate that is not
    committed. *)
Lemma dwellCheck_frame cfg now s s' :
  currentZone s' = currentZone s ->
  dwellStartTime s' = dwellStartTime s ->
  actions (snd (dwellCheck cfg now s')) = actions (snd (dwellCheck cfg now s)) /\
  currentZone (fst (dwellCheck cfg now s')) = currentZone (fst (dwellCheck cfg now s)) /\
  dwellStartTime (fst (dwellCheck cfg now s'))
  = dwellStartTime (fst (dwellCheck cfg now s)).
Proof.
  intros Hc Hd. unfold dwellCheck. rewrite Hc, Hd.
  destruct (currentZone s) as [| | z] eqn:Ez; simpl;
    [repeat split; congruence | repeat split; congruence |].
  destruct (Qleb _ _); simpl; [| repeat split; congruence].
  destruct z; simpl; repeat split; congruence.
Qed.

Lemma dwellCheck_currentZone cfg now s :
  currentZone (fst (dwellCheck cfg now s)) = currentZone s.
Proof.
  unfold dwellCheck. destruct (currentZone s) as [| | z] eqn:Ez; simpl; auto.
  destruct (Qleb _ _); simpl; [| auto].
  destruct z; simpl; auto.
Qed.

(** ** Dwell *)

Lemma dwellFires_none D d ts :
  Forall (fun t => t < d + D) ts ->
  dwellFires D d ts = O /\ dwellStartAfter D d ts = d.
Proof.
  induction 1 as [| t ts Ht _ IH]; simpl; [auto |].
  assert (E : Qleb D (t - d) = false) by (apply Qleb_false; lra).
  rewrite E. exact IH.
Qed.

Lemma dwellFires_app D d ts1 ts2 :
  dwellFires D d (ts1 ++ ts2)
  = (dwellFires D d ts1 + dwellFires D (dwellStartAfter D d ts1) ts2)%nat.
Proof.
  revert d. induction ts1 as [| t ts1 IH]; intros d; simpl; [reflexivity |].
  destruct (Qleb D (t - d)); simpl; rewrite IH; reflexivity.
Qed.

Lemma dwellStartAfter_app D d ts1 ts2 :
  dwellStartAfter D d (ts1 ++ ts2)
  = dwellStartAfter D (dwellStartAfter D d ts1) ts2.
Proof.
  revert d. induction ts1 as [| t ts1 IH]; intros d; simpl; [reflexivity |].
  destruct (Qleb D (t - d)); simpl; rewrite IH; reflexivity.
Qed.

(** Holding through one dwell interval, evaluated at its end. *)
Lemma dwellFires_once D d pre :
  Forall (fun t => t < d + D) pre ->
  dwellFires D d (pre ++ [d + D]) = 1%nat.
Proof.
  intros Hpre. rewrite dwellFires_app.
  destruct (dwellFires_none D d pre Hpre) as [-> ->]. simpl.
  assert (E : Qleb D (d + D - d) = true) by (apply Qleb_true; lra).
  rewrite E. reflexivity.
Qed.

(** Holding through two dwell intervals, evaluated at the end of each. *)
Lemma dwellFires_twice D d pre1 pre2 :
  Forall (fun t => t < d + D) pre1 ->
  Forall (fun t => t < d + D + D) pre2 ->
  dwellFires D d (pre1 ++ [d + D] ++ pre2 ++ [d + D + D]) = 2%nat.
Proof.
  intros H1 H2. rewrite dwellFires_app.
  destruct (dwellFires_none D d pre1 H1) as [-> ->]. simpl.
  assert (E : Qleb D (d + D - d) = true) by (apply Qleb_true; lra).
  rewrite E. f_equal. apply (dwellFires_once D (d + D) pre2). exact H2.
Qed.

Lemma updateZoneRun_tracking cfg page z evals :
  sidebarHost page = true ->
  Forall (resolvesTo cfg page (ZName z)) evals ->
  forall s d0,
    currentZone s = ZName z ->
    dwellStartTime s = Some d0 ->
    actions (snd (updateZoneRun cfg page evals s))
    = repeat z (dwellFires (DWELL_TIME cfg) d0 (map evalTime evals)) /\
    currentZone (fst (updateZoneRun cfg page evals s)) = ZName z /\
    dwellStartTime (fst (updateZoneRun cfg page evals s))
    = Some (dwellStartAfter (DWELL_TIME cfg) d0 (map evalTime evals)).
Proof.
  intros Hh Hall.
  induction Hall as [| [[x y] now] evals [Hx Hy] _ IH]; intros s d0 Hc Hd.
  - simpl. auto.
  - simpl in Hx, Hy. cbn [updateZoneRun map evalTime snd dwellFires dwellStartAfter].
    rewrite (updateZone_in_strip cfg page x y now s Hh Hx), Hy.
    rewrite (resolveZone_same cfg (ZName z) now s) by congruence.
    set (s0 := set_pending ZNull (zoneSwitchTime s) s).
    assert (Hc0 : currentZone s0 = ZName z) by exact Hc.
    assert (Hd0 : dwellStartTime s0 = Some d0) by exact Hd.
    destruct (dwellCheck_tracking cfg now s0 z Hc0) as (Hc1 & _ & Hfire & Hwait).
    rewrite Hd0 in Hfire, Hwait. simpl num in Hfire, Hwait.
    destruct (dwellCheck cfg now s0) as [s1 es1] eqn:E1. simpl in Hc1, Hfire, Hwait.
    destruct (Qleb (DWELL_TIME cfg) (now - d0)) eqn:Eq.
    + apply Qleb_true in Eq. destruct (Hfire Eq) as [Ha Hd1].
      destruct (IH s1 now Hc1 Hd1) as (IHa & IHc & IHd).
      destruct (updateZoneRun cfg page evals s1) as [s2 es2]. simpl in *.
      repeat split; [| exact IHc | exact IHd].
      assert (Happ : forall a b, actions (a ++ b) = actions a ++ actions b).
      { clear. induction a as [| [] a IHa]; intros b; simpl; rewrite ?IHa; reflexivity. }
      rewrite Happ, Ha, IHa. reflexivity.
    + apply Qleb_false in Eq. destruct (Hwait Eq) as [Ha Hd1].
      destruct (IH s1 d0 Hc1 Hd1) as (IHa & IHc & IHd).
      destruct (updateZoneRun cfg page evals s1) as [s2 es2]. simpl in *.
      repeat split; [| exact IHc | exact IHd].
      assert (Happ : forall a b, actions (a ++ b) = actions a ++ actions b).
      { clear. induction a as [| [] a IHa]; intros b; simpl; rewrite ?IHa; reflexivity. }
      rewrite Happ, Ha, IHa. reflexivity.
Qed.

(** C2, as amended: [DWELL_TIME] is 650 ms in the WebGazer script and
    600 ms in the Python script.  While every evaluation of the zone step
    lies in the strip and resolves to the current zone [z], an activation
    of [z] fires at an evaluation exactly when [now - dwellStart >=
    DWELL_TIME], and dwell then restarts at [now]; so a hold evaluated at
    [dwellStart + DWELL_TIME] (and only earlier before) fires once, and one
    evaluated also at [dwellStart + 2 DWELL_TIME] fires twice. *)
Theorem dwell_activation (cfg : UIConfig) (page : Page) (z : Zone)
        (s : ZoneState) (d0 : Q) :
  sidebarHost page = true ->
  currentZone s = ZName z ->
  dwellStartTime s = Some d0 ->
  (DWELL_TIME ContentJs.CONFIG = 650 /\ DWELL_TIME ContentPython.CONFIG = 600) /\
  (forall x y now,
      resolvesTo cfg page (ZName z) (x, y, now) ->
      (DWELL_TIME cfg <= now - d0 <->
       actions (snd (updateZone cfg page x y now s)) = [z]) /\
      (DWELL_TIME cfg <= now - d0 ->
       dwellStartTime (fst (updateZone cfg page x y now s)) = Some now) /\
      (now - d0 < DWELL_TIME cfg ->
       actions (snd (updateZone cfg page x y now s)) = [] /\
       dwellStartTime (fst (updateZone cfg page x y now s)) = Some d0)) /\
  (forall evals,
      Forall (resolvesTo cfg page (ZName z)) evals ->
      actions (snd (updateZoneRun cfg page evals s))
      = repeat z (dwellFires (DWELL_TIME cfg) d0 (map evalTime evals))) /\
  (forall pre x y,
      Forall (resolvesTo cfg page (ZName z)) (pre ++ [(x, y, d0 + DWELL_TIME cfg)]) ->
      Forall (fun t => t < d0 + DWELL_TIME cfg) (map evalTime pre) ->
      actions (snd (updateZoneRun cfg page
                      (pre ++ [(x, y, d0 + DWELL_TIME cfg)]) s)) = [z]) /\
  (forall pre1 x1 y1 pre2 x2 y2,
      Forall (resolvesTo cfg page (ZName z))
             (pre1 ++ [(x1, y1, d0 + DWELL_TIME cfg)] ++
              pre2 ++ [(x2, y2, d0 + DWELL_TIME cfg + DWELL_TIME cfg)]) ->
      Forall (fun t => t < d0 + DWELL_TIME cfg) (map evalTime pre1) ->
      Forall (fun t => t < d0 + DWELL_TIME cfg + DWELL_TIME cfg) (map evalTime pre2) ->
      actions (snd (updateZoneRun cfg page
                      (pre1 ++ [(x1, y1, d0 + DWELL_TIME cfg)] ++
                       pre2 ++ [(x2, y2, d0 + DWELL_TIME cfg + DWELL_TIME cfg)]) s))
      = [z; z]).
Proof.
  intros Hh Hc Hd.
  split; [split; reflexivity |].
  split; [| split; [| split]].
  - intros x y now [Hx Hy]. simpl in Hx, Hy.
    rewrite (updateZone_in_strip cfg page x y now s Hh Hx), Hy.
    rewrite (resolveZone_same cfg (ZName z) now s) by congruence.
    set (s0 := set_pending ZNull (zoneSwitchTime s) s).
    assert (Hc0 : currentZone s0 = ZName z) by exact Hc.
    destruct (dwellCheck_tracking cfg now s0 z Hc0) as (_ & _ & Hfire & Hwait).
    change (dwellStartTime s0) with (dwellStartTime s) in Hfire, Hwait.
    rewrite Hd in Hfire, Hwait. simpl num in Hfire, Hwait.
    repeat split.
    + intros H. apply Hfire, H.
    + intros Ha. destruct (Qlt_le_dec (now - d0) (DWELL_TIME cfg)) as [Hlt | Hle];
        [| exact Hle].
      destruct (Hwait Hlt) as [Hn _]. rewrite Hn in Ha. discriminate.
    + intros H. apply Hfire, H.
    + apply Hwait, H.
    + apply Hwait, H.
  - intros evals Hall.
    apply (updateZoneRun_tracking cfg page z evals Hh Hall s d0 Hc Hd).
  - intros pre x y Hall Hpre.
    destruct (updateZoneRun_tracking cfg page z _ Hh Hall s d0 Hc Hd) as (Ha & _).
    rewrite Ha, map_app. cbn [map evalTime snd].
    rewrite dwellFires_once by exact Hpre. reflexivity.
  - intros pre1 x1 y1 pre2 x2 y2 Hall H1 H2.
    destruct (updateZoneRun_tracking cfg page z _ Hh Hall s d0 Hc Hd) as (Ha & _).
    rewrite Ha. rewrite !map_app. cbn [map evalTime snd].
    rewrite (dwellFires_twice _ _ _ _ H1 H2). reflexivity.
Qed.

Lemma dwell_activation_witness :
  actions (snd (updateZoneRun ContentPython.CONFIG page1000x800
                  [(950, 500, 300); (950, 500, 0 + 600)] (tracking ASK_AI 0)))
  = [ASK_AI].
Proof.
  assert (Hh : sidebarHost page1000x800 = true) by reflexivity.
  assert (Hc : currentZone (tracking ASK_AI 0) = ZName ASK_AI) by reflexivity.
  assert (Hd : dwellStartTime (tracking ASK_AI 0) = Some 0) by reflexivity.
  destruct (dwell_activation ContentPython.CONFIG page1000x800 ASK_AI
              (tracking ASK_AI 0) 0 Hh Hc Hd) as (_ & _ & _ & Hone & _).
  apply (Hone [(950, 500, 300)] 950 500).
  - repeat constructor.
  - repeat constructor.
Defined.

(** C2 as stated fails in the WebGazer script: 600 ms of dwell fire
    nothing there. *)
Lemma dwell_activation_counterexample :
  ~ firesAt600AsStated ContentJs.CONFIG page1000x800 ASK_AI
      950 500 600 (tracking ASK_AI 0).
Proof.
  unfold firesAt600AsStated. intros [H _].
  assert (Hle : 600 <= 600 - num (dwellStartTime (tracking ASK_AI 0)))
    by (vm_compute; discriminate).
  specialize (H Hle). vm_compute in H. discriminate.
Qed.

(** ** Hysteresis *)

Lemma dwellCheck_pendingZone cfg now s :
  pendingZone (fst (dwellCheck cfg now s)) = pendingZone s.
Proof.
  unfold dwellCheck. destruct (currentZone s) as [| | z]; simpl; auto.
  destruct (Qleb _ _); simpl; [| auto].
  destruct z; simpl; auto.
Qed.

Lemma dwellCheck_waiting cfg now s :
  now - num (dwellStartTime s) < DWELL_TIME cfg ->
  dwellStartTime (fst (dwellCheck cfg now s)) = dwellStartTime s /\
  actions (snd (dwellCheck cfg now s)) = [].
Proof.
  intros H. unfold dwellCheck.
  destruct (currentZone s) as [| | z]; simpl; auto.
  apply Qleb_false in H. rewrite H. simpl. auto.
Qed.

(** C4: when the resolved zone is the current one, differs from it at the
    next evaluation and is the current one again at the one after, the
    flicker leaves [currentZone] as it was, and [dwellStartTime] and the
    dispatched actions are those of the same evaluations without the
    flicker; if no activation is due at the flicker, [dwellStartTime] is
    not touched by it.  (No assumption on [ZONE_SWITCH_DELAY] is needed.) *)
Theorem flicker_no_switch (cfg : UIConfig) (page : Page) (s : ZoneState)
        (z' : zoneval) (x0 y0 t0 x1 y1 t1 x2 y2 t2 : Q) :
  sidebarHost page = true ->
  resolvesTo cfg page (currentZone s) (x0, y0, t0) ->
  resolvesTo cfg page z' (x1, y1, t1) ->
  z' <> currentZone s ->
  resolvesTo cfg page (currentZone s) (x2, y2, t2) ->
  let s0 := fst (updateZone cfg page x0 y0 t0 s) in
  let flicker := updateZone cfg page x1 y1 t1 s0 in
  let steady := updateZone cfg page x0 y0 t1 s0 in
  let after := updateZone cfg page x2 y2 t2 (fst flicker) in
  let after' := updateZone cfg page x2 y2 t2 (fst steady) in
  currentZone s0 = currentZone s /\
  currentZone (fst flicker) = currentZone s /\
  currentZone (fst after) = currentZone s /\
  pendingZone (fst after) = ZNull /\
  dwellStartTime (fst flicker) = dwellStartTime (fst steady) /\
  actions (snd flicker) = actions (snd steady) /\
  dwellStartTime (fst after) = dwellStartTime (fst after') /\
  actions (snd after) = actions (snd after') /\
  (t1 - num (dwellStartTime s0) < DWELL_TIME cfg ->
   dwellStartTime (fst flicker) = dwellStartTime s0 /\ actions (snd flicker) = []).
Proof.
  intros Hh [Hx0 Hy0] [Hx1 Hy1] Hne [Hx2 Hy2]. simpl in Hx0, Hy0, Hx1, Hy1, Hx2, Hy2.
  intros s0 flicker steady after after'.
  assert (Es0 : s0 = fst (dwellCheck cfg t0 (set_pending ZNull (zoneSwitchTime s) s))).
  { unfold s0. rewrite (updateZone_in_strip cfg page x0 y0 t0 s Hh Hx0), Hy0.
    rewrite resolveZone_same by reflexivity. reflexivity. }
  assert (Hc0 : currentZone s0 = currentZone s).
  { rewrite Es0, dwellCheck_currentZone. reflexivity. }
  assert (Hp0 : pendingZone s0 = ZNull).
  { rewrite Es0, dwellCheck_pendingZone. reflexivity. }
  assert (Hz' : z' <> ZNull).
  { rewrite <- Hy1. apply getZoneFromY_not_null. }
  assert (Hne0 : z' <> currentZone s0) by congruence.
  assert (Hcand : pendingZone s0 <> z' \/
                  t1 - num (zoneSwitchTime s0) < ZONE_SWITCH_DELAY cfg)
    by (left; congruence).
  destruct (resolveZone_candidate cfg z' t1 s0 Hne0 Hcand) as (Hrc & Hrd & _).
  assert (Ef : flicker = dwellCheck cfg t1 (resolveZone cfg z' t1 s0)).
  { unfold flicker. rewrite (updateZone_in_strip cfg page x1 y1 t1 s0 Hh Hx1), Hy1.
    reflexivity. }
  assert (Est : steady = dwellCheck cfg t1 (set_pending ZNull (zoneSwitchTime s0) s0)).
  { unfold steady. rewrite (updateZone_in_strip cfg page x0 y0 t1 s0 Hh Hx0), Hy0.
    rewrite resolveZone_same by congruence. reflexivity. }
  destruct (dwellCheck_frame cfg t1 (set_pending ZNull (zoneSwitchTime s0) s0)
              (resolveZone cfg z' t1 s0) Hrc Hrd) as (Hfa & Hfc & Hfd).
  rewrite <- Ef, <- Est in Hfa, Hfc, Hfd.
  assert (Hcf : currentZone (fst flicker) = currentZone s).
  { rewrite Ef, dwellCheck_currentZone, Hrc. exact Hc0. }
  assert (Hcs : currentZone (fst steady) = currentZone s).
  { rewrite <- Hfc. exact Hcf. }
  assert (Ea : after = dwellCheck cfg t2
                 (set_pending ZNull (zoneSwitchTime (fst flicker)) (fst flicker))).
  { unfold after.
    rewrite (updateZone_in_strip cfg page x2 y2 t2 (fst flicker) Hh Hx2), Hy2.
    rewrite resolveZone_same by congruence. reflexivity. }
  assert (Ea' : after' = dwellCheck cfg t2
                  (set_pending ZNull (zoneSwitchTime (fst steady)) (fst steady))).
  { unfold after'.
    rewrite (updateZone_in_strip cfg page x2 y2 t2 (fst steady) Hh Hx2), Hy2.
    rewrite resolveZone_same by congruence. reflexivity. }
  destruct (dwellCheck_frame cfg t2
              (set_pending ZNull (zoneSwitchTime (fst steady)) (fst steady))
              (set_pending ZNull (zoneSwitchTime (fst flicker)) (fst flicker)))
    as (Haa & _ & Had).
  { simpl. congruence. }
  { simpl. exact Hfd. }
  rewrite <- Ea, <- Ea' in Haa, Had.
  repeat split; try assumption.
  - rewrite Ea, dwellCheck_currentZone. exact Hcf.
  - rewrite Ea, dwellCheck_pendingZone. reflexivity.
  - rewrite Ef.
    destruct (dwellCheck_waiting cfg t1 (resolveZone cfg z' t1 s0)) as [Hd _];
      [rewrite Hrd; exact H | rewrite Hd; exact Hrd].
  - rewrite Ef.
    destruct (dwellCheck_waiting cfg t1 (resolveZone cfg z' t1 s0)) as [_ Ha];
      [rewrite Hrd; exact H | exact Ha].
Qed.

Lemma flicker_no_switch_witness :
  currentZone (fst (updateZone ContentJs.CONFIG page1000x800 950 470 116
                      (fst (updateZone ContentJs.CONFIG page1000x800 950 500 100
                              (tracking ASK_AI 0)))))
  = ZName ASK_AI.
Proof.
  assert (H0 : resolvesTo ContentJs.CONFIG page1000x800
                 (currentZone (tracking ASK_AI 0)) (950, 500, 100))
    by (split; reflexivity).
  assert (H1 : resolvesTo ContentJs.CONFIG page1000x800 (ZName MEDIA) (950, 470, 116))
    by (split; reflexivity).
  assert (H2 : resolvesTo ContentJs.CONFIG page1000x800
                 (currentZone (tracking ASK_AI 0)) (950, 490, 132))
    by (split; reflexivity).
  assert (Hne : ZName MEDIA <> currentZone (tracking ASK_AI 0)) by discriminate.
  destruct (flicker_no_switch ContentJs.CONFIG page1000x800 (tracking ASK_AI 0)
              (ZName MEDIA) 950 500 100 950 470 116 950 490 132
              eq_refl H0 H1 Hne H2) as (_ & Hf & _).
  exact Hf.
Defined.

(** A candidate that was recorded earlier and never cleared is committed by
    a single later evaluation: out of the strip with no current zone, the
    candidate and its time stamp are kept. *)
Remark stale_candidate_commits :
  let s1 := fst (updateZone ContentJs.CONFIG page1000x800 950 500 16 initialZoneState) in
  let s2 := fst (updateZone ContentJs.CONFIG page1000x800 400 500 32 s1) in
  let s3 := fst (updateZone ContentJs.CONFIG page1000x800 950 500 144 s2) in
  pendingZone s2 = ZName ASK_AI /\ currentZone s2 = ZNull /\
  currentZone s3 = ZName ASK_AI.
Proof. vm_compute. repeat split. Qed.

(** ** Calibration gate on the sample path *)

(** With [state.isCalibrated] false, the gaze listener of the WebGazer
    script, the only caller of its zone step, dispatches nothing and only
    stamps [lastGazeTime]; the [gaze] case of [handleServerMessage] of the
    Python script leaves the state as it is. *)
Lemma uncalibrated_no_dispatch (w : ContentJs.World) (pw : ContentPython.World)
        (data : option GazeData) (dateNow perfNow x y : Q) :
  isCalibrated (cal (ContentJs.cw w)) = false ->
  isCalibrated (cal (ContentPython.cw pw)) = false ->
  (snd (ContentJs.gazeListener data dateNow perfNow w) = [] /\
   actions (snd (ContentJs.gazeListener data dateNow perfNow w)) = [] /\
   ContentJs.zs (ContentJs.st (fst (ContentJs.gazeListener data dateNow perfNow w)))
   = ContentJs.zs (ContentJs.st w) /\
   ContentJs.fs (ContentJs.st (fst (ContentJs.gazeListener data dateNow perfNow w)))
   = ContentJs.fs (ContentJs.st w) /\
   ContentJs.cw (fst (ContentJs.gazeListener data dateNow perfNow w)) = ContentJs.cw w) /\
  ContentPython.handleServerMessage (ContentPython.MsgGaze x y) pw = (pw, []).
Proof.
  intros Hw Hpw. split.
  - unfold ContentJs.gazeListener. destruct data as [d |]; [| repeat split].
    cbn [ContentJs.set_st ContentJs.cw ContentJs.st ContentJs.set_lastGazeTime
         ContentJs.zs].
    rewrite Hw. rewrite orb_true_r. repeat split.
  - unfold ContentPython.handleServerMessage. rewrite Hpw, andb_false_r. reflexivity.
Qed.

Lemma uncalibrated_no_dispatch_witness :
  snd (ContentJs.gazeListener (Some sampleInStrip) 2000 1000
         (ContentJs.startSession emptyStorage page1000x800)) = [] /\
  ContentPython.handleServerMessage (ContentPython.MsgGaze 950 500)
    (ContentPython.startSession emptyStorage page1000x800)
  = (ContentPython.startSession emptyStorage page1000x800, []).
Proof.
  destruct (uncalibrated_no_dispatch
              (ContentJs.startSession emptyStorage page1000x800)
              (ContentPython.startSession emptyStorage page1000x800)
              (Some sampleInStrip) 2000 1000 950 500 eq_refl eq_refl)
    as [(H1 & _) H2].
  split; [exact H1 | exact H2].
Defined.

(** C1: the Python script dispatches while calibration is not done.  The
    gate of [handleServerMessage] keeps a new sample from moving the target,
    but the zone step is called by the animation frame, which goes on
    evaluating the last target and never reads [isCalibrated].  From a
    calibrated profile with a viewport of 1000 x 800: one sample at
    (950, 500), frames at 0 and 100 ms, then the recalibration button.  Now
    [isCalibrated] is false and the overlay is up; a further sample is
    dropped by the gate, and the frame at 700 ms activates ASK_AI. *)
Theorem uncalibrated_frame_dispatches :
  isCalibrated (cal (ContentPython.cw pythonAfterRecalibrate)) = false /\
  overlay (ContentPython.cw pythonAfterRecalibrate) = Some freshOverlay /\
  ContentPython.handleServerMessage (ContentPython.MsgGaze 950 500)
    pythonAfterRecalibrate = (pythonAfterRecalibrate, []) /\
  actions (snd (ContentPython.animate 700 pythonAfterRecalibrate)) = [ASK_AI].
Proof. vm_compute. repeat split; reflexivity. Qed.

(** ** Outlier and saccade gate *)

Lemma calculateVelocity_frame x y t f :
  filteredX (snd (calculateVelocity x y t f)) = filteredX f /\
  filteredY (snd (calculateVelocity x y t f)) = filteredY f /\
  kalmanX (snd (calculateVelocity x y t f)) = kalmanX f /\
  kalmanY (snd (calculateVelocity x y t f)) = kalmanY f /\
  gazeBuffer (snd (calculateVelocity x y t f)) = gazeBuffer f.
Proof.
  unfold calculateVelocity.
  destruct (lastRawX f), (lastTimestamp f); simpl; try (repeat split; reflexivity).
  destruct (Qleb _ 0); simpl; repeat split; reflexivity.
Qed.

Lemma isOutlier_frame F x y f f' :
  filteredX f' = filteredX f ->
  filteredY f' = filteredY f ->
  isOutlier F x y f' = isOutlier F x y f.
Proof. intros Hx Hy. unfold isOutlier. rewrite Hx, Hy. reflexivity. Qed.

Lemma isOutlier_far F x y f fx fy :
  filteredX f = Some fx ->
  filteredY f = Some fy ->
  OUTLIER_THRESHOLD F * OUTLIER_THRESHOLD F < (x - fx) ^ 2 + (y - fy) ^ 2 ->
  isOutlier F x y f = true.
Proof.
  intros Hx Hy H. unfold isOutlier. rewrite Hx, Hy. apply Qltb_true. exact H.
Qed.

(** C6, as amended: a sample whose normalized position is farther than
    [OUTLIER_THRESHOLD] from the prior filtered position never changes the
    filter estimates, and what is returned is either nothing or exactly the
    prior filtered position: the prior position when the sample passed the
    confidence and saccade checks, nothing when one of those vetoed it
    first.  Without a prior filtered position no sample counts as an
    outlier. *)
Theorem outlier_hold_steady (F : FilterConfig) (page : Page) (f : FilterState)
        (d : GazeData) (timestamp fx fy : Q) :
  filteredX f = Some fx ->
  filteredY f = Some fy ->
  OUTLIER_THRESHOLD F * OUTLIER_THRESHOLD F
  < (lerpCoordinate F (data_x d) (innerWidth page) - fx) ^ 2
    + (lerpCoordinate F (data_y d) (innerHeight page) - fy) ^ 2 ->
  let lerpedX := lerpCoordinate F (data_x d) (innerWidth page) in
  let lerpedY := lerpCoordinate F (data_y d) (innerHeight page) in
  let velocity := fst (calculateVelocity lerpedX lerpedY timestamp f) in
  let saccade := Qltb (VELOCITY_THRESHOLD F * VELOCITY_THRESHOLD F) (speedSq velocity) in
  let r := processGazeData F page (data_x d) (data_y d) timestamp d f in
  (filteredX (snd r) = Some fx /\ filteredY (snd r) = Some fy /\
   kalmanX (snd r) = kalmanX f /\ kalmanY (snd r) = kalmanY f) /\
  (fst r = None \/ fst r = Some (fx, fy)) /\
  (lowConfidence F d = false -> saccade = false -> fst r = Some (fx, fy)) /\
  (lowConfidence F d = true \/ saccade = true -> fst r = None) /\
  (forall f0 x y, filteredX f0 = None \/ filteredY f0 = None ->
                  isOutlier F x y f0 = false).
Proof.
  intros Hfx Hfy Hfar lerpedX lerpedY velocity saccade r.
  assert (Hlast : forall f0 x y, filteredX f0 = None \/ filteredY f0 = None ->
                                 isOutlier F x y f0 = false).
  { intros f0 x y [H | H]; unfold isOutlier; rewrite H;
      [reflexivity | destruct (filteredX f0); reflexivity]. }
  unfold r, processGazeData.
  destruct (lowConfidence F d) eqn:Elc.
  { simpl. repeat split; auto; try discriminate. }
  fold lerpedX lerpedY.
  destruct (calculateVelocity_frame lerpedX lerpedY timestamp f)
    as (Hvx & Hvy & Hkx & Hky & _).
  unfold saccade, velocity.
  destruct (calculateVelocity lerpedX lerpedY timestamp f) as [v f1] eqn:Ev.
  simpl in Hvx, Hvy, Hkx, Hky. simpl fst.
  destruct (Qltb (VELOCITY_THRESHOLD F * VELOCITY_THRESHOLD F) (speedSq v)) eqn:Es.
  { simpl. rewrite Hvx, Hvy, Hkx, Hky, Hfx, Hfy.
    repeat split; auto; try discriminate. }
  assert (Ho : isOutlier F lerpedX lerpedY f1 = true).
  { apply (isOutlier_far F lerpedX lerpedY f1 fx fy); [congruence | congruence | exact Hfar]. }
  rewrite Ho. simpl. rewrite Hvx, Hvy, Hkx, Hky, Hfx, Hfy. simpl.
  repeat split; auto.
  intros [H | H]; discriminate.
Qed.

Lemma outlier_hold_steady_witness :
  fst (processGazeData ContentJs.FILTER page1000x800
         (data_x sampleFar) (data_y sampleFar) 1033 sampleFar filterRawAhead)
  = Some (500, 400).
Proof.
  assert (Hfar : OUTLIER_THRESHOLD ContentJs.FILTER * OUTLIER_THRESHOLD ContentJs.FILTER
                 < (lerpCoordinate ContentJs.FILTER (data_x sampleFar)
                      (innerWidth page1000x800) - 500) ^ 2
                   + (lerpCoordinate ContentJs.FILTER (data_y sampleFar)
                        (innerHeight page1000x800) - 400) ^ 2)
    by (vm_compute; reflexivity).
  destruct (outlier_hold_steady ContentJs.FILTER page1000x800 filterRawAhead
              sampleFar 1033 500 400 eq_refl eq_refl Hfar) as (_ & _ & H & _).
  apply H; vm_compute; reflexivity.
Defined.

(** C6 as stated fails for a far sample that is vetoed as a saccade before
    the outlier rule: nothing is returned although a prior filtered position
    exists. *)
Lemma outlier_hold_steady_counterexample :
  ~ holdSteadyAsStated ContentJs.FILTER page1000x800 filterAt500x400 sampleFar 1033.
Proof.
  intros H. specialize (H 500 400 eq_refl eq_refl).
  assert (Hfar : OUTLIER_THRESHOLD ContentJs.FILTER * OUTLIER_THRESHOLD ContentJs.FILTER
                 < (lerpCoordinate ContentJs.FILTER (data_x sampleFar)
                      (innerWidth page1000x800) - 500) ^ 2
                   + (lerpCoordinate ContentJs.FILTER (data_y sampleFar)
                        (innerHeight page1000x800) - 400) ^ 2)
    by (vm_compute; reflexivity).
  specialize (H Hfar).
  assert (E : fst (processGazeData ContentJs.FILTER page1000x800
                     (data_x sampleFar) (data_y sampleFar) 1033 sampleFar
                     filterAt500x400) = None)
    by (vm_compute; reflexivity).
  clear Hfar. rewrite E in H. discriminate H.
Qed.

Lemma elapsed_nonpos (timestamp lt : Q) :
  Qleb ((timestamp - lt) / 1000) 0 = true <-> timestamp <= lt.
Proof.
  rewrite Qleb_true. split; intros H.
  - assert (H1 : (timestamp - lt) / 1000 * 1000 <= 0 * 1000)
      by (apply Qmult_le_compat_r; [exact H | lra]).
    assert (H2 : (timestamp - lt) / 1000 * 1000 == timestamp - lt) by (field; lra).
    lra.
  - apply Qle_shift_div_r; lra.
Qed.

Lemma processGazeData_velocity_fields F page d timestamp f :
  lowConfidence F d = false ->
  let lerpedX := lerpCoordinate F (data_x d) (innerWidth page) in
  let lerpedY := lerpCoordinate F (data_y d) (innerHeight page) in
  let f1 := snd (calculateVelocity lerpedX lerpedY timestamp f) in
  let f2 := snd (processGazeData F page (data_x d) (data_y d) timestamp d f) in
  lastRawX f2 = lastRawX f1 /\ lastRawY f2 = lastRawY f1 /\
  lastTimestamp f2 = lastTimestamp f1.
Proof.
  intros Hlc lerpedX lerpedY f1 f2. unfold f2, f1, processGazeData.
  rewrite Hlc. fold lerpedX lerpedY.
  destruct (calculateVelocity lerpedX lerpedY timestamp f) as [v g]. simpl.
  destruct (Qltb _ (speedSq v)); [repeat split |].
  destruct (isOutlier F lerpedX lerpedY g); repeat split.
Qed.

(** C7, as amended: a sample that passes the confidence check, arriving when
    no raw sample is stored or with a time stamp later than the stored one,
    leaves its normalized coordinate and its time stamp in [lastRawX],
    [lastRawY] and [lastTimestamp], whether it is then accepted or rejected
    as a saccade or an outlier.  A sample rejected for low confidence leaves
    the whole filter state as it was, and a sample whose time stamp is not
    later than the stored one leaves these three fields as they were. *)
Theorem velocity_fields_updated (F : FilterConfig) (page : Page) (f : FilterState)
        (d : GazeData) (timestamp : Q) :
  let r := processGazeData F page (data_x d) (data_y d) timestamp d f in
  (lowConfidence F d = false ->
   (lastRawX f = None \/ lastTimestamp f = None \/
    exists lt, lastTimestamp f = Some lt /\ lt < timestamp) ->
   lastRawX (snd r) = Some (lerpCoordinate F (data_x d) (innerWidth page)) /\
   lastRawY (snd r) = Some (lerpCoordinate F (data_y d) (innerHeight page)) /\
   lastTimestamp (snd r) = Some timestamp) /\
  (lowConfidence F d = true -> r = (None, f)) /\
  (forall lx lt,
      lastRawX f = Some lx -> lastTimestamp f = Some lt -> timestamp <= lt ->
      lastRawX (snd r) = lastRawX f /\
      lastRawY (snd r) = lastRawY f /\
      lastTimestamp (snd r) = lastTimestamp f).
Proof.
  intros r. unfold r.
  set (lerpedX := lerpCoordinate F (data_x d) (innerWidth page)).
  set (lerpedY := lerpCoordinate F (data_y d) (innerHeight page)).
  split; [| split].
  - intros Hlc Hfresh.
    destruct (processGazeData_velocity_fields F page d timestamp f Hlc)
      as (Kx & Ky & Kt).
    fold lerpedX lerpedY in Kx, Ky, Kt. rewrite Kx, Ky, Kt.
    unfold calculateVelocity.
    destruct (lastRawX f) as [lx |] eqn:Ex; [| repeat split].
    destruct (lastTimestamp f) as [lt |] eqn:Et; [| repeat split].
    destruct Hfresh as [H | [H | (lt' & H & Hlt)]]; try discriminate.
    injection H as <-.
    assert (E : Qleb ((timestamp - lt) / 1000) 0 = false).
    { destruct (Qleb ((timestamp - lt) / 1000) 0) eqn:E; [| reflexivity].
      apply elapsed_nonpos in E. lra. }
    rewrite E. repeat split.
  - intros Hlc. unfold processGazeData. rewrite Hlc. reflexivity.
  - intros lx lt Hx Ht Hle.
    destruct (lowConfidence F d) eqn:Hlc.
    { unfold processGazeData. rewrite Hlc. repeat split. }
    destruct (processGazeData_velocity_fields F page d timestamp f Hlc)
      as (Kx & Ky & Kt).
    fold lerpedX lerpedY in Kx, Ky, Kt. rewrite Kx, Ky, Kt.
    unfold calculateVelocity. rewrite Hx, Ht.
    assert (E : Qleb ((timestamp - lt) / 1000) 0 = true)
      by (apply elapsed_nonpos; exact Hle).
    rewrite E. simpl. repeat split; congruence.
Qed.

Lemma velocity_fields_updated_witness :
  lastTimestamp
    (snd (processGazeData ContentJs.FILTER page1000x800
            (data_x sampleFar) (data_y sampleFar) 1033 sampleFar filterAt500x400))
  = Some 1033.
Proof.
  destruct (velocity_fields_updated ContentJs.FILTER page1000x800 filterAt500x400
              sampleFar 1033) as (H & _).
  apply H.
  - reflexivity.
  - right. right. exists 1000. split; [reflexivity | vm_compute; reflexivity].
Defined.

(** C7 as stated fails for a low-confidence sample: it returns before the
    velocity step and the stored time stamp stays. *)
Lemma velocity_fields_updated_counterexample :
  ~ velocityUpdatedAsStated ContentJs.FILTER page1000x800 filterAt500x400
      sampleLowConfidence 1033.
Proof.
  unfold velocityUpdatedAsStated. vm_compute. intros H. discriminate.
Qed.

(** ** Resize *)

(** C8, as amended: a viewport resize puts every filter field back to its
    initial value (filtered coordinates, buffer, last raw coordinate, last
    time stamp, velocities, both Kalman states) and leaves the zone fields
    ([currentZone], [pendingZone], [zoneSwitchTime], [dwellStartTime]) and
    the calibration fields as they were. *)
Theorem resize_resets_filter_only (w h : Q) (wd : ContentJs.World) :
  ContentJs.fs (ContentJs.st (ContentJs.onResize w h wd)) = initialFilterState /\
  ContentJs.zs (ContentJs.st (ContentJs.onResize w h wd))
  = ContentJs.zs (ContentJs.st wd) /\
  ContentJs.cw (ContentJs.onResize w h wd) = ContentJs.cw wd /\
  ContentJs.lastGazeTime (ContentJs.st (ContentJs.onResize w h wd))
  = ContentJs.lastGazeTime (ContentJs.st wd).
Proof. repeat split. Qed.

(** C8 as stated fails for the zone fields: a tracked zone survives the
    resize. *)
Lemma resize_counterexample :
  ~ resizeResetsZoneAsStated 1200 900 worldTrackingMedia.
Proof.
  unfold resizeResetsZoneAsStated. vm_compute. intros H. discriminate.
Qed.

(** ** Kalman filter *)

Lemma qpow_nonneg a n : 0 <= a -> 0 <= qpow a n.
Proof.
  intros Ha. induction n as [| n IH]; simpl; [lra |].
  apply Qmult_le_0_compat; assumption.
Qed.

Lemma qpow_step_le a n : 0 <= a -> a <= 1 -> qpow a (S n) <= qpow a n.
Proof.
  intros H0 H1. simpl. pose proof (qpow_nonneg a n H0) as Hp. nra.
Qed.

Lemma qpow_antitone a m n :
  0 <= a -> a <= 1 -> (m <= n)%nat -> qpow a n <= qpow a m.
Proof.
  intros H0 H1 Hmn. induction Hmn as [| n Hmn IH]; [lra |].
  pose proof (qpow_step_le a n H0 H1). lra.
Qed.

Lemma ratio_bounds q r : 0 < q -> 0 < r -> 0 < r / (q + r) /\ r / (q + r) < 1.
Proof.
  intros Hq Hr. split.
  - apply Qlt_shift_div_l; lra.
  - apply Qlt_shift_div_r; lra.
Qed.

(** Bernoulli's bound for the contraction factor. *)
Lemma contraction_bound q r n :
  0 < q -> 0 < r ->
  (r + inject_Z (Z.of_nat n) * q) * qpow (r / (q + r)) n <= r.
Proof.
  intros Hq Hr. induction n as [| n IH].
  - change (inject_Z (Z.of_nat 0)) with 0. cbn [qpow]. lra.
  - set (m := inject_Z (Z.of_nat n)) in *.
    assert (Hm : 0 <= m).
    { unfold m. replace 0 with (inject_Z 0) by reflexivity.
      rewrite <- Zle_Qle. lia. }
    assert (Hs : inject_Z (Z.of_nat (S n)) == m + 1).
    { unfold m. rewrite Nat2Z.inj_succ. unfold Z.succ. rewrite inject_Z_plus. reflexivity. }
    rewrite Hs. simpl qpow.
    destruct (ratio_bounds q r Hq Hr) as [Ha0 Ha1].
    set (a := r / (q + r)) in *.
    pose proof (qpow_nonneg a n (Qlt_le_weak _ _ Ha0)) as HP.
    set (P := qpow a n) in *.
    assert (Hstep : (r + (m + 1) * q) * a <= r + m * q).
    { assert (E : (r + (m + 1) * q) * a == ((r + (m + 1) * q) * r) / (q + r))
        by (unfold a; field; lra).
      rewrite E. apply Qle_shift_div_r; [lra |].
      assert (0 <= m * (q * q)) by (apply Qmult_le_0_compat; [exact Hm | nra]).
      nra. }
    nra.
Qed.

Lemma kalmanFilter_ok M ks : kalmanOk ks -> kalmanOk (kalmanFilter M ks).
Proof.
  intros (Hp & Hq & Hr). unfold kalmanOk, kalmanFilter. simpl.
  repeat split; [| exact Hq | exact Hr].
  assert (Hk : (K.p ks + K.q ks) / (K.p ks + K.q ks + K.r ks) <= 1)
    by (apply Qle_shift_div_r; lra).
  apply Qmult_le_0_compat; lra.
Qed.

Lemma kalmanFilter_qr M ks :
  K.q (kalmanFilter M ks) = K.q ks /\ K.r (kalmanFilter M ks) = K.r ks.
Proof. split; reflexivity. Qed.

(** One update multiplies the error by [r / (p + q + r)]. *)
Lemma kalmanFilter_error M ks :
  kalmanOk ks ->
  exists c, 0 < c /\ c <= K.r ks / (K.q ks + K.r ks) /\ c < 1 /\
            K.x (kalmanFilter M ks) - M == c * (K.x ks - M).
Proof.
  intros (Hp & Hq & Hr).
  exists (K.r ks / (K.p ks + K.q ks + K.r ks)).
  repeat split.
  - apply Qlt_shift_div_l; lra.
  - apply Qle_shift_div_l; [lra |].
    assert (E : K.r ks / (K.p ks + K.q ks + K.r ks) * (K.q ks + K.r ks)
                == (K.r ks * (K.q ks + K.r ks)) / (K.p ks + K.q ks + K.r ks))
      by (field; lra).
    rewrite E. apply Qle_shift_div_r; [lra |]. nra.
  - apply Qlt_shift_div_r; lra.
  - unfold kalmanFilter. simpl. field. lra.
Qed.

Lemma kalmanFeed_ok n M ks : kalmanOk ks -> kalmanOk (kalmanFeed n M ks).
Proof.
  revert ks. induction n as [| n IH]; intros ks H; simpl; [exact H |].
  apply IH, kalmanFilter_ok, H.
Qed.

Lemma kalmanFeed_qr n M ks :
  K.q (kalmanFeed n M ks) = K.q ks /\ K.r (kalmanFeed n M ks) = K.r ks.
Proof.
  revert ks. induction n as [| n IH]; intros ks; simpl; [auto |].
  destruct (IH (kalmanFilter M ks)) as [-> ->]. apply kalmanFilter_qr.
Qed.

Lemma kalmanFeed_succ n M ks :
  kalmanFeed (S n) M ks = kalmanFilter M (kalmanFeed n M ks).
Proof.
  revert ks. induction n as [| n IH]; intros ks; [reflexivity |].
  change (kalmanFeed (S (S n)) M ks) with (kalmanFeed (S n) M (kalmanFilter M ks)).
  rewrite IH. reflexivity.
Qed.

Lemma Qabs_scale c e : 0 <= c -> Qabs (c * e) == c * Qabs e.
Proof.
  intros Hc. rewrite Qabs_Qmult. rewrite (Qabs_pos c Hc). reflexivity.
Qed.

Lemma kalmanFeed_geometric n M ks :
  kalmanOk ks ->
  Qabs (K.x (kalmanFeed n M ks) - M)
  <= qpow (K.r ks / (K.q ks + K.r ks)) n * Qabs (K.x ks - M).
Proof.
  revert ks. induction n as [| n IH]; intros ks Hok.
  - simpl. lra.
  - cbn [kalmanFeed qpow].
    pose proof (IH (kalmanFilter M ks) (kalmanFilter_ok M ks Hok)) as H.
    destruct (kalmanFilter_qr M ks) as [Eq Er]. rewrite Eq, Er in H.
    destruct (kalmanFilter_error M ks Hok) as (c & Hc0 & Hc & _ & E).
    rewrite E, Qabs_scale in H by lra.
    destruct Hok as (_ & Hq & Hr).
    destruct (ratio_bounds _ _ Hq Hr) as [Ha0 _].
    pose proof (qpow_nonneg _ n (Qlt_le_weak _ _ Ha0)) as HP.
    pose proof (Qabs_nonneg (K.x ks - M)) as He.
    set (a := K.r ks / (K.q ks + K.r ks)) in *.
    set (P := qpow a n) in *. set (e := Qabs (K.x ks - M)) in *.
    assert (H1 : c * e <= a * e) by nra.
    assert (H2 : P * (c * e) <= P * (a * e)).
    { rewrite (Qmult_comm P (c * e)), (Qmult_comm P (a * e)).
      apply Qmult_le_compat_r; assumption. }
    lra.
Qed.

Lemma qpow_small q r n :
  0 < q -> 0 < r -> (kalmanSteps q r <= n)%nat ->
  100 * qpow (r / (q + r)) n <= 1.
Proof.
  intros Hq Hr Hn.
  pose proof (contraction_bound q r n Hq Hr) as Hb.
  destruct (ratio_bounds q r Hq Hr) as [Ha0 _].
  pose proof (qpow_nonneg _ n (Qlt_le_weak _ _ Ha0)) as HP.
  set (P := qpow (r / (q + r)) n) in *.
  set (m := inject_Z (Z.of_nat n)) in *.
  assert (Hm : 99 * r <= m * q).
  { assert (Hc : 99 * r / q <= m).
    { eapply Qle_trans; [apply Qle_ceiling |].
      unfold m. rewrite <- Zle_Qle. unfold kalmanSteps in Hn. lia. }
    assert (E : 99 * r == 99 * r / q * q) by (field; lra).
    rewrite E. apply Qmult_le_compat_r; lra. }
  assert (H1 : 100 * r * P <= (r + m * q) * P)
    by (apply Qmult_le_compat_r; lra).
  assert (H2 : r * (100 * P) <= r * 1) by lra.
  apply Qmult_lt_0_le_reg_r with (z := r); [exact Hr |]. lra.
Qed.

(** C9: for [q > 0], [r > 0] and initial covariance [p >= 0], feeding the
    constant measurement [M] moves the estimate monotonically toward [M]:
    the error never grows, shrinks while it is not zero, and keeps its sign.
    After [n] steps it is at most [(r/(q+r))^n] times the initial error, so
    from the initial estimate 0 (or any estimate no farther from [M] than 0
    is) the estimate is within 1% of [M] after [kalmanSteps q r] steps, a
    number fixed by [q] and [r]; for [q = 8], [r = 20], 14 steps do. *)
Theorem kalman_converges (x0 p q r M : Q) (n : nat) :
  0 <= p -> 0 < q -> 0 < r ->
  let est k := K.x (kalmanFeed k M (K.mk x0 p q r)) in
  Qabs (est (S n) - M) <= Qabs (est n - M) /\
  (~ est n == M -> Qabs (est (S n) - M) < Qabs (est n - M)) /\
  (est n <= M -> est n <= est (S n) /\ est (S n) <= M) /\
  (M <= est n -> M <= est (S n) /\ est (S n) <= est n) /\
  Qabs (est n - M) <= qpow (r / (q + r)) n * Qabs (x0 - M) /\
  (Qabs (x0 - M) <= Qabs M -> (kalmanSteps q r <= n)%nat ->
   Qabs (est n - M) <= Qabs M / 100) /\
  (Qabs (x0 - M) <= Qabs M -> (14 <= n)%nat ->
   Qabs (K.x (kalmanFeed n M (K.mk x0 p 8 20)) - M) <= Qabs M / 100).
Proof.
  intros Hp Hq Hr est.
  assert (Hok : kalmanOk (K.mk x0 p q r)) by (repeat split; assumption).
  pose proof (kalmanFeed_ok n M _ Hok) as Hokn.
  assert (Hgeo : Qabs (est n - M) <= qpow (r / (q + r)) n * Qabs (x0 - M))
    by (apply (kalmanFeed_geometric n M (K.mk x0 p q r) Hok)).
  destruct (kalmanFilter_error M _ Hokn) as (c & Hc0 & _ & Hc1 & E).
  rewrite <- kalmanFeed_succ in E. fold (est (S n)) (est n) in E.
  pose proof (Qabs_nonneg (est n - M)) as He.
  assert (Eabs : Qabs (est (S n) - M) == c * Qabs (est n - M))
    by (rewrite E; apply Qabs_scale; lra).
  split; [| split; [| split; [| split; [| split; [| split]]]]].
  - rewrite Eabs. nra.
  - intros Hne. rewrite Eabs.
    assert (Hpos : 0 < Qabs (est n - M)).
    { destruct (Qlt_le_dec 0 (Qabs (est n - M))) as [H | H]; [exact H |].
      exfalso. apply Hne.
      assert (H0 : Qabs (est n - M) == 0) by lra.
      pose proof (Qle_Qabs (est n - M)) as Hu.
      pose proof (Qle_Qabs (- (est n - M))) as Hl.
      rewrite Qabs_opp in Hl. lra. }
    nra.
  - intros Hle. nra.
  - intros Hle. nra.
  - exact Hgeo.
  - intros H0 Hn.
    pose proof (qpow_small q r n Hq Hr Hn) as Hs.
    destruct (ratio_bounds q r Hq Hr) as [Ha0 _].
    pose proof (qpow_nonneg _ n (Qlt_le_weak _ _ Ha0)) as HP.
    apply Qle_shift_div_l; [lra |].
    pose proof (Qabs_nonneg (x0 - M)). pose proof (Qabs_nonneg M).
    nra.
  - intros H0 Hn.
    assert (Hok8 : kalmanOk (K.mk x0 p 8 20)) by (repeat split; simpl; lra).
    pose proof (kalmanFeed_geometric n M (K.mk x0 p 8 20) Hok8) as Hg.
    cbn [K.x K.q K.r] in Hg.
    assert (Ha : 0 <= 20 / (8 + 20) /\ 20 / (8 + 20) <= 1)
      by (split; vm_compute; discriminate).
    pose proof (qpow_antitone _ 14 n (proj1 Ha) (proj2 Ha) Hn) as Hmono.
    assert (H14 : 100 * qpow (20 / (8 + 20)) 14 <= 1) by (vm_compute; discriminate).
    pose proof (qpow_nonneg _ n (proj1 Ha)) as HP.
    apply Qle_shift_div_l; [lra |].
    pose proof (Qabs_nonneg (x0 - M)). pose proof (Qabs_nonneg M).
    nra.
Qed.

Lemma kalman_converges_witness :
  Qabs (K.x (kalmanFeed 14 500 initialKalman) - 500) <= Qabs 500 / 100.
Proof.
  assert (Hp : 0 <= 1000) by lra.
  assert (Hq : 0 < 8) by lra.
  assert (Hr : 0 < 20) by lra.
  destruct (kalman_converges 0 1000 8 20 500 14 Hp Hq Hr)
    as (_ & _ & _ & _ & _ & _ & H).
  apply H; [vm_compute; discriminate | lia].
Defined.

(** ** Calibration *)

Lemma sum_list_with_insert {A} (f : A -> nat) (l : list A) (i : nat) (a b : A) :
  l !! i = Some a ->
  (sum_list_with f (<[i := b]> l) + f a = sum_list_with f l + f b)%nat.
Proof.
  revert i. induction l as [| c l IH]; intros i Hi; [discriminate |].
  destruct i as [| i]; simpl in *.
  - injection Hi as ->. lia.
  - specialize (IH i Hi). lia.
Qed.

Lemma completedDots_le K (l : list nat) : (completedDots K l <= length l)%nat.
Proof.
  unfold completedDots. induction l as [| n l IH]; simpl; [lia |].
  destruct (K <=? n)%nat; lia.
Qed.

Lemma sum_list_le K (l : list nat) :
  Forall (fun n => (n <= K)%nat) l -> (sum_list l <= length l * K)%nat.
Proof.
  induction 1 as [| n l Hn _ IH]; simpl; [lia |]. lia.
Qed.

(** All clicks are in exactly when all dots are complete. *)
Lemma all_clicks_iff_all_dots K (l : list nat) :
  (1 <= K)%nat ->
  Forall (fun n => (n <= K)%nat) l ->
  sum_list l = (length l * K)%nat <-> completedDots K l = length l.
Proof.
  intros HK. induction 1 as [| n l Hn Hl IH]; simpl; [tauto |].
  pose proof (sum_list_le K l Hl) as Hs.
  pose proof (completedDots_le K l) as Hc.
  unfold completedDots in *. simpl.
  destruct (Nat.leb_spec K n) as [Hk | Hk]; split; intros Heq; lia.
Qed.

Lemma completedDots_full K (l : list nat) (i n : nat) :
  completedDots K l = length l -> l !! i = Some n -> (K <= n)%nat.
Proof.
  revert i. induction l as [| m l IH]; intros i Hc Hi; [discriminate |].
  pose proof (completedDots_le K l) as Hle.
  unfold completedDots in *. simpl in Hc.
  destruct (Nat.leb_spec K m); [| lia].
  destruct i as [| i]; simpl in Hi.
  - injection Hi as ->. assumption.
  - apply (IH i); [lia | exact Hi].
Qed.

Lemma finishTimers_app es1 es2 :
  finishTimers (es1 ++ es2) = (finishTimers es1 + finishTimers es2)%nat.
Proof.
  induction es1 as [| e es1 IH]; simpl; [reflexivity |].
  destruct e as [| | t | | | | | | |]; try destruct t; simpl; rewrite IH; reflexivity.
Qed.

Lemma freshOverlay_inv cfg ls :
  (1 <= CLICKS_PER_POINT cfg)%nat ->
  isCalibrationDone cfg ls = false ->
  overlayInv cfg (createCalibrationOverlay cfg (sessionStart ls)) freshOverlay.
Proof.
  intros HK Hd. unfold createCalibrationOverlay, sessionStart. simpl. rewrite Hd.
  unfold overlayInv. simpl.
  destruct (Nat.leb_spec (CLICKS_PER_POINT cfg) 0) as [H | H]; [lia |].
  repeat split; try reflexivity; try lia.
  repeat constructor; lia.
Qed.

(** One click on a dot: a delivered click adds one to the clicks counted,
    keeps the overlay invariant, and sets the finish timer exactly when it
    completes the ninth dot. *)
Lemma clickDot_step cfg (recordClick : Q -> Q -> list Effect) i x y w o :
  CALIBRATION_POINTS cfg = 9%nat ->
  (forall a b, finishTimers (recordClick a b) = O) ->
  overlayInv cfg w o ->
  exists o',
    overlayInv cfg (fst (clickDot cfg recordClick i x y w)) o' /\
    sum_list (dotClicks o')
    = (sum_list (dotClicks o) + (if delivered i w then 1 else 0))%nat /\
    (finishTimers (snd (clickDot cfg recordClick i x y w))
     + (if (completedDots (CLICKS_PER_POINT cfg) (dotClicks o) =? 9)%nat
        then 1 else 0)
     = (if (completedDots (CLICKS_PER_POINT cfg) (dotClicks o') =? 9)%nat
        then 1 else 0))%nat /\
    storage (fst (clickDot cfg recordClick i x y w)) = storage w /\
    isCalibrated (cal (fst (clickDot cfg recordClick i x y w)))
    = isCalibrated (cal w).
Proof.
  intros HN Hrec (Ho & Hlen & Hdis & Hall & Hcc).
  unfold clickDot, delivered. rewrite Ho.
  assert (Hskip : forall b : bool,
             b = false ->
             exists o',
               overlayInv cfg w o' /\
               sum_list (dotClicks o')
               = (sum_list (dotClicks o) + (if b then 1 else 0))%nat /\
               (finishTimers [] +
                (if (completedDots (CLICKS_PER_POINT cfg) (dotClicks o) =? 9)%nat
                 then 1 else 0)
                = (if (completedDots (CLICKS_PER_POINT cfg) (dotClicks o') =? 9)%nat
                   then 1 else 0))%nat /\
               storage w = storage w /\
               isCalibrated (cal w) = isCalibrated (cal w)).
  { intros b ->. exists o. unfold overlayInv.
    repeat split; try assumption; simpl; lia. }
  destruct (dotDisabled o !! i) as [[|] |] eqn:Ed;
    [apply Hskip, bool_decide_eq_false_2; congruence
    | | apply Hskip, bool_decide_eq_false_2; congruence].
  clear Hskip.
  rewrite bool_decide_eq_true_2 by reflexivity.
  rewrite Hdis, list_lookup_fmap in Ed.
  destruct (dotClicks o !! i) as [n |] eqn:En; [| discriminate].
  simpl in Ed. injection Ed as Ed. apply Nat.leb_gt in Ed.
  pose proof (sum_list_with_insert id (dotClicks o) i n (S n) En) as Hsum.
  pose proof (sum_list_with_insert
                (fun m => if (CLICKS_PER_POINT cfg <=? m)%nat then 1%nat else 0%nat)
                (dotClicks o) i n (S n) En) as Hcnt.
  fold (completedDots (CLICKS_PER_POINT cfg) (<[i:=S n]> (dotClicks o))) in Hcnt.
  fold (completedDots (CLICKS_PER_POINT cfg) (dotClicks o)) in Hcnt.
  simpl in Hcnt.
  change (id n) with n in Hsum. change (id (S n)) with (S n) in Hsum.
  destruct (Nat.leb_spec (CLICKS_PER_POINT cfg) n) as [Hbad | _]; [lia |].
  pose proof (completedDots_le (CLICKS_PER_POINT cfg) (<[i:=S n]> (dotClicks o))) as Hle'.
  rewrite length_insert, Hlen in Hle'.
  assert (Hnotfull : completedDots (CLICKS_PER_POINT cfg) (dotClicks o) <> 9%nat).
  { intros Hfull. rewrite <- Hlen in Hfull.
    pose proof (completedDots_full _ _ _ _ Hfull En). lia. }
  unfold dotClickHandler. rewrite En. simpl default.
  destruct (Nat.leb_spec (CLICKS_PER_POINT cfg) (S n)) as [Hfull | Hpart].
  - exists {| dotClicks := <[i:=S n]> (dotClicks o);
              dotDisabled := <[i:=true]> (dotDisabled o);
              fading := fading o |}.
    unfold overlayInv. simpl. rewrite HN.
    repeat split.
    + rewrite length_insert. exact Hlen.
    + rewrite list_fmap_insert, <- Hdis.
      destruct (Nat.leb_spec (CLICKS_PER_POINT cfg) (S n)); [reflexivity | lia].
    + apply Forall_insert; [exact Hall | lia].
    + rewrite Hcc. lia.
    + lia.
    + rewrite finishTimers_app, Hrec, Hcc.
      destruct (Nat.eqb_spec (completedDots (CLICKS_PER_POINT cfg) (dotClicks o)) 9);
        [contradiction |].
      destruct (Nat.eqb_spec
                  (completedDots (CLICKS_PER_POINT cfg) (<[i:=S n]> (dotClicks o))) 9);
        destruct (Nat.leb_spec 9 (S (completedDots (CLICKS_PER_POINT cfg) (dotClicks o))));
        simpl; lia.
  - exists {| dotClicks := <[i:=S n]> (dotClicks o);
              dotDisabled := dotDisabled o;
              fading := fading o |}.
    unfold overlayInv. simpl.
    repeat split.
    + rewrite length_insert. exact Hlen.
    + rewrite list_fmap_insert, <- Hdis.
      symmetry. apply list_insert_id.
      rewrite Hdis, list_lookup_fmap, En. simpl. f_equal.
      transitivity false; [apply Nat.leb_gt; lia | symmetry; apply Nat.leb_gt; lia].
    + apply Forall_insert; [exact Hall | lia].
    + rewrite Hcc. lia.
    + lia.
    + rewrite Hrec.
      destruct (Nat.eqb_spec (completedDots (CLICKS_PER_POINT cfg) (dotClicks o)) 9);
        [contradiction |].
      destruct (Nat.eqb_spec
                  (completedDots (CLICKS_PER_POINT cfg) (<[i:=S n]> (dotClicks o))) 9);
        simpl; lia.
Qed.

Lemma clickDots_run cfg (recordClick : Q -> Q -> list Effect) cs :
  CALIBRATION_POINTS cfg = 9%nat ->
  (forall a b, finishTimers (recordClick a b) = O) ->
  forall w o,
    overlayInv cfg w o ->
    exists o',
      overlayInv cfg (fst (fst (clickDots cfg recordClick cs w))) o' /\
      sum_list (dotClicks o')
      = (sum_list (dotClicks o) + snd (fst (clickDots cfg recordClick cs w)))%nat /\
      (finishTimers (snd (clickDots cfg recordClick cs w))
       + (if (completedDots (CLICKS_PER_POINT cfg) (dotClicks o) =? 9)%nat
          then 1 else 0)
       = (if (completedDots (CLICKS_PER_POINT cfg) (dotClicks o') =? 9)%nat
          then 1 else 0))%nat /\
      storage (fst (fst (clickDots cfg recordClick cs w))) = storage w /\
      isCalibrated (cal (fst (fst (clickDots cfg recordClick cs w))))
      = isCalibrated (cal w).
Proof.
  intros HN Hrec. induction cs as [| [[i x] y] cs IH]; intros w o Hinv.
  - exists o. simpl. split; [exact Hinv | repeat split; lia].
  - destruct (clickDot_step cfg recordClick i x y w o HN Hrec Hinv)
      as (o1 & Hinv1 & Hs1 & Ht1 & Hst1 & Hc1).
    cbn [clickDots].
    destruct (clickDot cfg recordClick i x y w) as [w1 es1]. simpl in *.
    destruct (IH w1 o1 Hinv1) as (o2 & Hinv2 & Hs2 & Ht2 & Hst2 & Hc2).
    destruct (clickDots cfg recordClick cs w1) as [[w2 k] es2]. simpl in *.
    exists o2. rewrite finishTimers_app.
    split; [exact Hinv2 |].
    split; [lia |]. split; [lia |]. split; congruence.
Qed.

(** C5: from a session whose stored flag is absent, the overlay counts
    delivered dot clicks; no more than [CALIBRATION_POINTS x
    CLICKS_PER_POINT] can be delivered, the clicks alone never set
    [isCalibrated], and the 500 ms finish timer is set exactly once, exactly
    when that many clicks have been delivered (18 in the Python script).
    When it runs, [finishCalibration] sets [isCalibrated] and, with
    [localStorage] accessible, stores the flag, so that the next session's
    [createCalibrationOverlay] sets [isCalibrated] without building an
    overlay.  The recalibration button of either script removes the stored
    flag, clears [isCalibrated] and [calibrationClicks], and puts up a fresh
    overlay. *)
Theorem calibration_gate (cfg : UIConfig) (recordClick : Q -> Q -> list Effect)
        (ls : LocalStorage) (cs : list (nat * Q * Q)) :
  CALIBRATION_POINTS cfg = 9%nat ->
  (1 <= CLICKS_PER_POINT cfg)%nat ->
  (forall a b, finishTimers (recordClick a b) = O) ->
  accessible ls = true ->
  isCalibrationDone cfg ls = false ->
  let r := clickDots cfg recordClick cs
             (createCalibrationOverlay cfg (sessionStart ls)) in
  let w1 := fst (fst r) in
  let k := snd (fst r) in
  let total := (CALIBRATION_POINTS cfg * CLICKS_PER_POINT cfg)%nat in
  (k <= total)%nat /\
  isCalibrated (cal w1) = false /\
  storage w1 = ls /\
  finishTimers (snd r) = (if (k =? total)%nat then 1%nat else 0%nat) /\
  (isCalibrated (cal (finishCalibration cfg w1)) = true /\
   isCalibrationDone cfg (storage (finishCalibration cfg w1)) = true /\
   createCalibrationOverlay cfg (sessionStart (storage (finishCalibration cfg w1)))
   = {| cal := {| isCalibrated := true; calibrationClicks := O |};
        storage := storage (finishCalibration cfg w1);
        overlay := None |}) /\
  (forall rt w,
      accessible (storage (ContentJs.cw w)) = true ->
      let w' := ContentJs.cw (fst (ContentJs.recalibrate rt w)) in
      cal w' = {| isCalibrated := false; calibrationClicks := O |} /\
      isCalibrationDone ContentJs.CONFIG (storage w') = false /\
      overlay w' = Some freshOverlay) /\
  (forall w,
      accessible (storage (ContentPython.cw w)) = true ->
      let w' := ContentPython.cw (fst (ContentPython.recalibrate w)) in
      cal w' = {| isCalibrated := false; calibrationClicks := O |} /\
      isCalibrationDone ContentPython.CONFIG (storage w') = false /\
      overlay w' = Some freshOverlay) /\
  (CALIBRATION_POINTS ContentPython.CONFIG * CLICKS_PER_POINT ContentPython.CONFIG
   = 18)%nat.
Proof.
  intros HN HK Hrec Hacc Hnot r w1 k total.
  pose proof (freshOverlay_inv cfg ls HK Hnot) as Hinv0.
  destruct (clickDots_run cfg recordClick cs HN Hrec _ _ Hinv0)
    as (o' & Hinv & Hsum & Htim & Hst & Hcal).
  fold r in Hinv, Hsum, Htim, Hst, Hcal. fold w1 in Hinv, Hst, Hcal. fold k in Hsum.
  destruct Hinv as (Ho & Hlen & Hdis & Hall & Hcc).
  assert (Hstart : storage (createCalibrationOverlay cfg (sessionStart ls)) = ls /\
                   isCalibrated (cal (createCalibrationOverlay cfg (sessionStart ls)))
                   = false).
  { unfold createCalibrationOverlay, sessionStart. simpl. rewrite Hnot.
    split; reflexivity. }
  destruct Hstart as [Hst0 Hcal0].
  pose proof (sum_list_le _ _ Hall) as Hle.
  pose proof (all_clicks_iff_all_dots _ _ HK Hall) as Hiff.
  rewrite Hlen in Hle, Hiff.
  assert (Hk : sum_list (dotClicks o') = k) by (rewrite Hsum; reflexivity).
  unfold total. rewrite HN.
  assert (Hremoved : forall c l,
             accessible l = true ->
             isCalibrationDone c (removeCalibrationFlag c l) = false).
  { intros c l Hl. unfold isCalibrationDone, removeCalibrationFlag. rewrite Hl. simpl.
    apply bool_decide_eq_false_2. rewrite lookup_delete_eq. discriminate. }
  assert (Hstored : isCalibrationDone cfg (storage (finishCalibration cfg w1)) = true).
  { unfold finishCalibration, setCalibrationDone, isCalibrationDone. simpl.
    rewrite Hst, Hst0, Hacc. simpl.
    apply bool_decide_eq_true_2. apply lookup_insert_eq. }
  repeat split.
  - lia.
  - rewrite Hcal. exact Hcal0.
  - rewrite Hst. exact Hst0.
  - rewrite <- Hk.
    assert (H0 : completedDots (CLICKS_PER_POINT cfg) (dotClicks freshOverlay) = O).
    { unfold completedDots. simpl.
      destruct (Nat.leb_spec (CLICKS_PER_POINT cfg) 0); [lia | reflexivity]. }
    rewrite H0 in Htim. simpl in Htim.
    destruct (Nat.eqb_spec (completedDots (CLICKS_PER_POINT cfg) (dotClicks o')) 9);
      destruct (Nat.eqb_spec (sum_list (dotClicks o')) (9 * CLICKS_PER_POINT cfg));
      lia.
  - exact Hstored.
  - unfold createCalibrationOverlay, sessionStart. cbn [storage].
    rewrite Hstored. reflexivity.
  - unfold ContentJs.recalibrate, ContentJs.resetCalibration. rewrite H. simpl.
    unfold createCalibrationOverlay. simpl. rewrite (Hremoved _ _ H). reflexivity.
  - unfold ContentJs.recalibrate, ContentJs.resetCalibration. rewrite H. simpl.
    unfold createCalibrationOverlay. simpl. rewrite (Hremoved _ _ H).
    simpl. apply (Hremoved _ _ H).
  - unfold ContentJs.recalibrate, ContentJs.resetCalibration. rewrite H. simpl.
    unfold createCalibrationOverlay. simpl. rewrite (Hremoved _ _ H). reflexivity.
  - unfold ContentPython.recalibrate, ContentPython.resetCalibration. simpl.
    unfold createCalibrationOverlay. simpl. rewrite (Hremoved _ _ H). reflexivity.
  - unfold ContentPython.recalibrate, ContentPython.resetCalibration. simpl.
    unfold createCalibrationOverlay. simpl. rewrite (Hremoved _ _ H).
    simpl. apply (Hremoved _ _ H).
  - unfold ContentPython.recalibrate, ContentPython.resetCalibration. simpl.
    unfold createCalibrationOverlay. simpl. rewrite (Hremoved _ _ H). reflexivity.
Qed.

Lemma calibration_gate_witness :
  finishTimers
    (snd (clickDots ContentPython.CONFIG (ContentPython.sendCalibrationPoint true)
            eighteenClicks
            (createCalibrationOverlay ContentPython.CONFIG (sessionStart emptyStorage))))
  = 1%nat.
Proof.
  assert (HN : CALIBRATION_POINTS ContentPython.CONFIG = 9%nat) by reflexivity.
  assert (HK : (1 <= CLICKS_PER_POINT ContentPython.CONFIG)%nat) by (simpl; lia).
  assert (Hrec : forall a b,
             finishTimers (ContentPython.sendCalibrationPoint true a b) = O)
    by reflexivity.
  assert (Hacc : accessible emptyStorage = true) by reflexivity.
  assert (Hnot : isCalibrationDone ContentPython.CONFIG emptyStorage = false)
    by (vm_compute; reflexivity).
  destruct (calibration_gate ContentPython.CONFIG
              (ContentPython.sendCalibrationPoint true) emptyStorage eighteenClicks
              HN HK Hrec Hacc Hnot) as (_ & _ & _ & H & _).
  rewrite H. vm_compute. reflexivity.
Defined.

(** ** Watchdog *)

(** C10, as amended: with calibration done, WebGazer ready and
    [lastGazeTime > 0], a watchdog check at which more than
    [WATCHDOG_TIMEOUT] has passed since [lastGazeTime] calls
    [recoverWebGazer] exactly once; when the pause succeeds, the resume
    timer 500 ms later stamps [lastGazeTime], so the check one interval
    later calls none.  A check calls no recovery while calibration is not
    done, WebGazer is not ready, [lastGazeTime] is not positive, or the
    timeout has not passed.  [initWebGazer] stamps [lastGazeTime] and starts
    the watchdog, so the stamp does not tell whether a sample was ever
    received. *)
Theorem watchdog_recovery (rt : ContentJs.Runtime) (w : ContentJs.World)
        (dateNow : Q) :
  (isCalibrated (cal (ContentJs.cw w)) = true ->
   ContentJs.isWebGazerReady (ContentJs.st w) = true ->
   0 < ContentJs.lastGazeTime (ContentJs.st w) ->
   WATCHDOG_TIMEOUT ContentJs.FILTER < dateNow - ContentJs.lastGazeTime (ContentJs.st w) ->
   ContentJs.recoveries (snd (ContentJs.watchdogCheck rt dateNow w)) = 1%nat /\
   fst (ContentJs.watchdogCheck rt dateNow w) = w /\
   (ContentJs.webgazerLoaded rt = true -> ContentJs.pauseOk rt = true ->
    snd (ContentJs.watchdogCheck rt dateNow w)
    = [RecoverWebGazer; WebGazerPause; SetTimeout ResumeWebGazer 500] /\
    let w' := fst (ContentJs.resumeWebGazer (dateNow + 500) w) in
    ContentJs.watchdogCheck rt (dateNow + WATCHDOG_INTERVAL ContentJs.FILTER) w'
    = (w', []))) /\
  (isCalibrated (cal (ContentJs.cw w)) = false \/
   ContentJs.isWebGazerReady (ContentJs.st w) = false \/
   ContentJs.lastGazeTime (ContentJs.st w) <= 0 \/
   dateNow - ContentJs.lastGazeTime (ContentJs.st w) <= WATCHDOG_TIMEOUT ContentJs.FILTER ->
   ContentJs.watchdogCheck rt dateNow w = (w, [])) /\
  (ContentJs.webgazerLoaded rt = true -> ContentJs.beginOk rt = true ->
   ContentJs.lastGazeTime (ContentJs.st (ContentJs.initWebGazer rt dateNow w)) = dateNow /\
   ContentJs.isWebGazerReady (ContentJs.st (ContentJs.initWebGazer rt dateNow w)) = true /\
   ContentJs.watchdogId (ContentJs.st (ContentJs.initWebGazer rt dateNow w)) = true).
Proof.
  split; [| split].
  - intros Hcal Hready Hpos Hlate.
    assert (Echeck : ContentJs.watchdogCheck rt dateNow w
                     = (w, RecoverWebGazer :: ContentJs.recoverWebGazer rt)).
    { unfold ContentJs.watchdogCheck. rewrite Hcal, Hready. cbn [negb orb].
      apply Qltb_true in Hpos. apply Qltb_true in Hlate.
      rewrite Hpos, Hlate. reflexivity. }
    rewrite Echeck. simpl.
    split; [| split; [reflexivity |]].
    + unfold ContentJs.recoverWebGazer.
      destruct (ContentJs.webgazerLoaded rt), (ContentJs.pauseOk rt),
        (ContentJs.endOk rt); reflexivity.
    + intros Hl Hp. unfold ContentJs.recoverWebGazer. rewrite Hl, Hp. simpl.
      split; [reflexivity |].
      unfold ContentJs.watchdogCheck, ContentJs.resumeWebGazer. simpl.
      rewrite Hcal, Hready. simpl.
      assert (E : Qltb 5000 (dateNow + 3000 - (dateNow + 500)) = false)
        by (apply Qltb_false; lra).
      rewrite E, andb_false_r. reflexivity.
  - intros H. unfold ContentJs.watchdogCheck.
    destruct (isCalibrated (cal (ContentJs.cw w))) eqn:Ec; [| reflexivity].
    destruct (ContentJs.isWebGazerReady (ContentJs.st w)) eqn:Er; [| reflexivity].
    cbn [negb orb].
    destruct H as [H | [H | [H | H]]]; try discriminate.
    + apply Qltb_false in H. rewrite H. reflexivity.
    + apply Qltb_false in H. rewrite H, andb_false_r. reflexivity.
  - intros Hl Hb. unfold ContentJs.initWebGazer. rewrite Hl, Hb. simpl.
    repeat split.
Qed.

Lemma watchdog_recovery_witness :
  ContentJs.recoveries
    (snd (ContentJs.watchdogCheck runtimeOk 6500
            (fst (ContentJs.run runtimeOk
                    [ContentJs.EvInit 500; ContentJs.EvOverlay]
                    (ContentJs.startSession calibratedStorageJs page1000x800)))))
  = 1%nat.
Proof.
  destruct (watchdog_recovery runtimeOk
              (fst (ContentJs.run runtimeOk
                      [ContentJs.EvInit 500; ContentJs.EvOverlay]
                      (ContentJs.startSession calibratedStorageJs page1000x800)))
              6500) as (H & _).
  apply H; vm_compute; reflexivity.
Defined.

(** C10 as stated fails for a session that never receives a sample: the
    stamp set by [initWebGazer] lets the second check call recovery. *)
Lemma watchdog_counterexample :
  ~ inertWithoutSamplesAsStated runtimeOk silentSession
      (ContentJs.startSession calibratedStorageJs page1000x800).
Proof.
  unfold inertWithoutSamplesAsStated. intros H.
  assert (Hno : forallb (fun e => negb (ContentJs.isSample e)) silentSession = true)
    by reflexivity.
  specialize (H Hno). clear Hno.
  assert (E : ContentJs.recoveries
                (snd (ContentJs.run runtimeOk silentSession
                        (ContentJs.startSession calibratedStorageJs page1000x800)))
              = 1%nat)
    by (vm_compute; reflexivity).
  rewrite E in H. discriminate H.
Qed.

(** * Further properties of the scripts *)

(** ** Coordinate normalization *)

Lemma clamp01_cases (t : Q) :
  (t <= 0 /\ Qmax 0 (Qmin 1 t) == 0) \/
  (0 <= t /\ t <= 1 /\ Qmax 0 (Qmin 1 t) == t) \/
  (1 <= t /\ Qmax 0 (Qmin 1 t) == 1).
Proof.
  destruct (Q.min_spec 1 t) as [[H1 E1] | [H1 E1]];
    destruct (Q.max_spec 0 (Qmin 1 t)) as [[H2 E2] | [H2 E2]];
    rewrite E1 in *; rewrite E2.
  - right. right. split; lra.
  - lra.
  - right. left. repeat split; lra.
  - left. split; lra.
Qed.

(** X1: [lerpCoordinate] maps every raw value into [[0, viewportSize]]; with
    a margin below one half it sends the lower margin to 0, the upper margin
    to the full extent, is linear in between and monotone everywhere. *)
Theorem lerpCoordinate_range (F : FilterConfig) (value value' viewportSize : Q) :
  0 < viewportSize ->
  0 <= LERP_MARGIN F ->
  LERP_MARGIN F < 1 # 2 ->
  (0 <= lerpCoordinate F value viewportSize /\
   lerpCoordinate F value viewportSize <= viewportSize) /\
  lerpCoordinate F (LERP_MARGIN F * viewportSize) viewportSize == 0 /\
  lerpCoordinate F ((1 - LERP_MARGIN F) * viewportSize) viewportSize == viewportSize /\
  (LERP_MARGIN F * viewportSize <= value ->
   value <= (1 - LERP_MARGIN F) * viewportSize ->
   lerpCoordinate F value viewportSize
   == (value - LERP_MARGIN F * viewportSize) / (1 - 2 * LERP_MARGIN F)) /\
  (value <= value' ->
   lerpCoordinate F value viewportSize <= lerpCoordinate F value' viewportSize).
Proof.
  intros Hv Hm0 Hm1.
  set (m := LERP_MARGIN F) in *.
  assert (Hr : 0 < (1 - m) * viewportSize - m * viewportSize) by nra.
  assert (Hnorm : forall a,
             (a - m * viewportSize) / ((1 - m) * viewportSize - m * viewportSize)
             * ((1 - m) * viewportSize - m * viewportSize)
             == a - m * viewportSize)
    by (intros a; field; lra).
  assert (Hlin : forall a,
             m * viewportSize <= a -> a <= (1 - m) * viewportSize ->
             lerpCoordinate F a viewportSize
             == (a - m * viewportSize) / (1 - 2 * m)).
  { intros a Hlo Hhi. unfold lerpCoordinate. fold m.
    assert (Hq0 : 0 <= (a - m * viewportSize)
                       / ((1 - m) * viewportSize - m * viewportSize))
      by (apply Qle_shift_div_l; lra).
    assert (Hq1 : (a - m * viewportSize)
                  / ((1 - m) * viewportSize - m * viewportSize) <= 1)
      by (apply Qle_shift_div_r; lra).
    pose proof (Hnorm a) as Hn.
    destruct (clamp01_cases ((a - m * viewportSize)
                             / ((1 - m) * viewportSize - m * viewportSize)))
      as [[H0 E] | [(H0 & H1 & E) | [H1 E]]]; rewrite E.
    - assert (Ez : (a - m * viewportSize)
                   / ((1 - m) * viewportSize - m * viewportSize) == 0) by lra.
      rewrite Ez in Hn.
      assert (Ev : a - m * viewportSize == 0) by lra.
      rewrite Ev. field. lra.
    - field. split; lra.
    - assert (Ez : (a - m * viewportSize)
                   / ((1 - m) * viewportSize - m * viewportSize) == 1) by lra.
      rewrite Ez in Hn.
      assert (Ev : a - m * viewportSize == (1 - 2 * m) * viewportSize) by lra.
      rewrite Ev. field. lra. }
  split; [| split; [| split; [| split]]].
  - unfold lerpCoordinate. fold m.
    destruct (clamp01_cases ((value - m * viewportSize)
                             / ((1 - m) * viewportSize - m * viewportSize)))
      as [[_ E] | [(H0 & H1 & E) | [_ E]]]; rewrite E; split; nra.
  - rewrite Hlin by nra. field. lra.
  - rewrite Hlin by nra. field. lra.
  - apply Hlin.
  - intros Hle. unfold lerpCoordinate. fold m.
    assert (Hq : (value - m * viewportSize)
                 / ((1 - m) * viewportSize - m * viewportSize)
                 <= (value' - m * viewportSize)
                    / ((1 - m) * viewportSize - m * viewportSize)).
    { apply Qle_shift_div_l; [exact Hr |]. rewrite Hnorm. lra. }
    destruct (clamp01_cases ((value - m * viewportSize)
                             / ((1 - m) * viewportSize - m * viewportSize)))
      as [[A0 A] | [(A0 & A1 & A) | [A1 A]]];
      destruct (clamp01_cases ((value' - m * viewportSize)
                               / ((1 - m) * viewportSize - m * viewportSize)))
        as [[B0 B] | [(B0 & B1 & B) | [B1 B]]];
      rewrite A, B; nra.
Qed.

Lemma lerpCoordinate_range_witness :
  lerpCoordinate ContentJs.FILTER 836 1000 == (836 - (8 # 100) * 1000) / (1 - 2 * (8 # 100)).
Proof.
  assert (Hv : 0 < 1000) by lra.
  assert (Hm0 : 0 <= LERP_MARGIN ContentJs.FILTER) by (vm_compute; discriminate).
  assert (Hm1 : LERP_MARGIN ContentJs.FILTER < 1 # 2) by (vm_compute; reflexivity).
  destruct (lerpCoordinate_range ContentJs.FILTER 836 836 1000 Hv Hm0 Hm1)
    as (_ & _ & _ & H & _).
  apply H; vm_compute; discriminate.
Defined.

Lemma lerpCoordinate_bounds (F : FilterConfig) (value viewportSize : Q) :
  0 <= viewportSize ->
  0 <= lerpCoordinate F value viewportSize /\
  lerpCoordinate F value viewportSize <= viewportSize.
Proof.
  intros Hv. unfold lerpCoordinate.
  match goal with
  | |- context [Qmax 0 (Qmin 1 ?t)] =>
      destruct (clamp01_cases t) as [[_ E] | [(H0 & H1 & E) | [_ E]]]
  end; rewrite E; split; nra.
Qed.

(** ** One Kalman update *)

(** X2: with [p >= 0], [q > 0], [r > 0] one call of [kalmanFilter] keeps
    these conditions, leaves [q] and [r] alone, brings the error covariance
    below [r], and puts the estimate between the old estimate and the
    measurement: any interval holding both holds the new estimate. *)
Theorem kalmanFilter_between (measurement lo hi : Q) (ks : KalmanState) :
  kalmanOk ks ->
  kalmanOk (kalmanFilter measurement ks) /\
  K.q (kalmanFilter measurement ks) = K.q ks /\
  K.r (kalmanFilter measurement ks) = K.r ks /\
  K.p (kalmanFilter measurement ks) < K.r ks /\
  (lo <= K.x ks -> lo <= measurement -> lo <= K.x (kalmanFilter measurement ks)) /\
  (K.x ks <= hi -> measurement <= hi -> K.x (kalmanFilter measurement ks) <= hi).
Proof.
  intros Hok.
  destruct (kalmanFilter_error measurement ks Hok) as (c & Hc0 & _ & Hc1 & E).
  split; [apply kalmanFilter_ok, Hok |].
  split; [reflexivity |]. split; [reflexivity |].
  destruct Hok as (Hp & Hq & Hr).
  split; [| split].
  - unfold kalmanFilter. simpl.
    assert (E1 : (1 - (K.p ks + K.q ks) / (K.p ks + K.q ks + K.r ks))
                 * (K.p ks + K.q ks)
                 == K.r ks * (K.p ks + K.q ks) / (K.p ks + K.q ks + K.r ks))
      by (field; lra).
    rewrite E1. apply Qlt_shift_div_r; [lra | nra].
  - intros H1 H2. nra.
  - intros H1 H2. nra.
Qed.

Lemma kalmanFilter_between_witness :
  K.x (kalmanFilter 500 initialKalman) <= 500.
Proof.
  assert (Hok : kalmanOk initialKalman) by (repeat split; simpl; lra).
  destruct (kalmanFilter_between 500 0 500 initialKalman Hok)
    as (_ & _ & _ & _ & _ & H).
  apply H; simpl; lra.
Defined.

(** ** The filter keeps the gaze inside the viewport *)

Lemma kalman_step_in_range m hi ks :
  kalmanOk ks ->
  0 <= K.x ks -> K.x ks <= hi -> 0 <= m -> m <= hi ->
  kalmanOk (kalmanFilter m ks) /\
  0 <= K.x (kalmanFilter m ks) /\ K.x (kalmanFilter m ks) <= hi.
Proof.
  intros Hok H0 H1 M0 M1.
  destruct (kalmanFilter_error m ks Hok) as (c & Hc0 & _ & Hc1 & E).
  split; [apply kalmanFilter_ok, Hok |]. split; nra.
Qed.

Lemma lowPass_in_range F m hi old :
  0 <= FILTER_ALPHA F -> FILTER_ALPHA F <= 1 ->
  within 0 hi old -> 0 <= m -> m <= hi ->
  0 <= applyLowPassFilter F m old /\ applyLowPassFilter F m old <= hi.
Proof.
  intros A0 A1 Hw M0 M1. unfold applyLowPassFilter.
  destruct old as [v |]; simpl in Hw; [| lra].
  destruct Hw. split; nra.
Qed.

(** X3: on a viewport of positive size, with [FILTER_ALPHA] in [[0, 1]],
    [processGazeData] keeps the filter estimates inside the viewport, and
    every position it returns lies inside the viewport; the initial (and
    post-resize) filter state satisfies the invariant.  In particular the
    zone step of the WebGazer script never sees a negative [y]. *)
Theorem processGazeData_in_viewport (F : FilterConfig) (page : Page)
        (rawX rawY timestamp : Q) (d : GazeData) (f : FilterState) :
  0 < innerWidth page ->
  0 < innerHeight page ->
  0 <= FILTER_ALPHA F -> FILTER_ALPHA F <= 1 ->
  filterInv page f ->
  filterInv page initialFilterState /\
  filterInv page (snd (processGazeData F page rawX rawY timestamp d f)) /\
  (forall x y,
      fst (processGazeData F page rawX rawY timestamp d f) = Some (x, y) ->
      (0 <= x /\ x <= innerWidth page) /\ (0 <= y /\ y <= innerHeight page)).
Proof.
  intros Hw Hh A0 A1 Hinv.
  split.
  { unfold filterInv, kalmanOk. simpl. repeat split; lra. }
  unfold processGazeData.
  destruct (lowConfidence F d); [split; [exact Hinv | discriminate] |].
  set (lx := lerpCoordinate F rawX (innerWidth page)).
  set (ly := lerpCoordinate F rawY (innerHeight page)).
  destruct (lerpCoordinate_bounds F rawX (innerWidth page)) as [Lx0 Lx1]; [lra |].
  destruct (lerpCoordinate_bounds F rawY (innerHeight page)) as [Ly0 Ly1]; [lra |].
  fold lx in Lx0, Lx1. fold ly in Ly0, Ly1.
  destruct (calculateVelocity_frame lx ly timestamp f) as (Ex & Ey & Ekx & Eky & _).
  destruct (calculateVelocity lx ly timestamp f) as [v f1]. simpl in Ex, Ey, Ekx, Eky.
  assert (Hinv1 : filterInv page f1).
  { unfold filterInv. rewrite Ex, Ey, Ekx, Eky. exact Hinv. }
  pose proof Hinv1 as (Okx & Oky & (X0 & X1) & (Y0 & Y1) & Wx & Wy).
  destruct (Qltb _ (speedSq v)).
  { split; [exact Hinv1 | discriminate]. }
  destruct (isOutlier F lx ly f1).
  { split; [exact Hinv1 |].
    intros x y Hres. simpl in Hres.
    destruct (filteredX f1) as [fx |]; [| discriminate].
    injection Hres as <- <-. simpl in Wx.
    split; [exact Wx |].
    destruct (filteredY f1) as [fy |]; simpl in *; [exact Wy | lra]. }
  destruct (KALMAN_ENABLED F).
  - destruct (kalman_step_in_range lx (innerWidth page) (kalmanX f1) Okx X0 X1 Lx0 Lx1)
      as (Okx' & X0' & X1').
    destruct (kalman_step_in_range ly (innerHeight page) (kalmanY f1) Oky Y0 Y1 Ly0 Ly1)
      as (Oky' & Y0' & Y1').
    split.
    + unfold filterInv, within. simpl. tauto.
    + intros x y Hres. simpl in Hres. injection Hres as <- <-. tauto.
  - destruct (lowPass_in_range F lx (innerWidth page) (filteredX f1) A0 A1 Wx Lx0 Lx1)
      as [PX0 PX1].
    destruct (lowPass_in_range F ly (innerHeight page) (filteredY f1) A0 A1 Wy Ly0 Ly1)
      as [PY0 PY1].
    split.
    + unfold filterInv, within. simpl. tauto.
    + intros x y Hres. simpl in Hres. injection Hres as <- <-. tauto.
Qed.

Lemma processGazeData_in_viewport_witness :
  filterInv page1000x800
    (snd (processGazeData ContentJs.FILTER page1000x800 836 400 1033 sampleFar
            filterAt500x400)).
Proof.
  assert (Hw : 0 < innerWidth page1000x800) by (simpl; lra).
  assert (Hh : 0 < innerHeight page1000x800) by (simpl; lra).
  assert (A0 : 0 <= FILTER_ALPHA ContentJs.FILTER) by (vm_compute; discriminate).
  assert (A1 : FILTER_ALPHA ContentJs.FILTER <= 1) by (vm_compute; discriminate).
  assert (Hinv : filterInv page1000x800 filterAt500x400)
    by (unfold filterInv, kalmanOk, within; simpl; repeat split; lra).
  destruct (processGazeData_in_viewport ContentJs.FILTER page1000x800 836 400 1033
              sampleFar filterAt500x400 Hw Hh A0 A1 Hinv) as (_ & H & _).
  exact H.
Defined.

(** ** Acceptance after a reset, and the saccade rule *)

(** X4: a sample that passes the confidence check and reaches a filter with
    no stored raw sample and no filtered position (the state at start and
    after a resize) is never vetoed: its velocity counts as zero, it cannot
    be an outlier, and its filtered position is returned and stored. *)
Theorem first_sample_accepted (F : FilterConfig) (page : Page) (d : GazeData)
        (timestamp : Q) (f : FilterState) :
  lowConfidence F d = false ->
  lastRawX f = None \/ lastTimestamp f = None ->
  filteredX f = None \/ filteredY f = None ->
  exists x y,
    processGazeData F page (data_x d) (data_y d) timestamp d f
    = (Some (x, y),
       snd (processGazeData F page (data_x d) (data_y d) timestamp d f)) /\
    filteredX (snd (processGazeData F page (data_x d) (data_y d) timestamp d f))
    = Some x /\
    filteredY (snd (processGazeData F page (data_x d) (data_y d) timestamp d f))
    = Some y /\
    lastTimestamp (snd (processGazeData F page (data_x d) (data_y d) timestamp d f))
    = Some timestamp.
Proof.
  intros Hlc Hraw Hfil. unfold processGazeData. rewrite Hlc.
  set (lx := lerpCoordinate F (data_x d) (innerWidth page)).
  set (ly := lerpCoordinate F (data_y d) (innerHeight page)).
  assert (Ev : calculateVelocity lx ly timestamp f
               = ({| vx := 0; vy := 0; speedSq := 0 |},
                  {| filteredX := filteredX f;
                     filteredY := filteredY f;
                     gazeBuffer := gazeBuffer f;
                     lastRawX := Some lx;
                     lastRawY := Some ly;
                     lastTimestamp := Some timestamp;
                     velocityX := velocityX f;
                     velocityY := velocityY f;
                     kalmanX := kalmanX f;
                     kalmanY := kalmanY f |})).
  { unfold calculateVelocity. destruct Hraw as [-> | H]; [reflexivity |].
    rewrite H. destruct (lastRawX f); reflexivity. }
  rewrite Ev. cbn [speedSq].
  assert (Es : Qltb (VELOCITY_THRESHOLD F * VELOCITY_THRESHOLD F) 0 = false).
  { apply Qltb_false. nra. }
  rewrite Es.
  assert (Eo : isOutlier F lx ly
                 {| filteredX := filteredX f;
                    filteredY := filteredY f;
                    gazeBuffer := gazeBuffer f;
                    lastRawX := Some lx;
                    lastRawY := Some ly;
                    lastTimestamp := Some timestamp;
                    velocityX := velocityX f;
                    velocityY := velocityY f;
                    kalmanX := kalmanX f;
                    kalmanY := kalmanY f |} = false).
  { unfold isOutlier. simpl. destruct Hfil as [-> | ->]; [reflexivity |].
    destruct (filteredX f); reflexivity. }
  rewrite Eo. simpl. eexists. eexists. repeat split.
Qed.

Lemma first_sample_accepted_witness :
  exists x y,
    fst (processGazeData ContentJs.FILTER page1000x800 836 400 1033 sampleFar
           initialFilterState) = Some (x, y).
Proof.
  destruct (first_sample_accepted ContentJs.FILTER page1000x800 sampleFar 1033
              initialFilterState eq_refl (or_introl eq_refl) (or_introl eq_refl))
    as (x & y & H & _).
  exists x, y. change 836 with (data_x sampleFar). change 400 with (data_y sampleFar).
  rewrite H. reflexivity.
Defined.

(** X5: with a raw sample stored at an earlier time stamp, a confident
    sample is vetoed as a saccade exactly when its normalized position has
    moved by more than [VELOCITY_THRESHOLD] pixels per second of elapsed
    time; a vetoed sample returns nothing and leaves the filter estimates
    as they were. *)
Theorem saccade_rule (F : FilterConfig) (page : Page) (d : GazeData)
        (timestamp lx ly lt : Q) (f : FilterState) :
  lowConfidence F d = false ->
  lastRawX f = Some lx ->
  lastRawY f = Some ly ->
  lastTimestamp f = Some lt ->
  lt < timestamp ->
  let dt := (timestamp - lt) / 1000 in
  let dx := lerpCoordinate F (data_x d) (innerWidth page) - lx in
  let dy := lerpCoordinate F (data_y d) (innerHeight page) - ly in
  let r := processGazeData F page (data_x d) (data_y d) timestamp d f in
  let saccade :=
    Qltb (VELOCITY_THRESHOLD F * VELOCITY_THRESHOLD F)
         (speedSq (fst (calculateVelocity
                          (lerpCoordinate F (data_x d) (innerWidth page))
                          (lerpCoordinate F (data_y d) (innerHeight page))
                          timestamp f))) in
  (saccade = true <->
   (VELOCITY_THRESHOLD F * dt) * (VELOCITY_THRESHOLD F * dt) < dx * dx + dy * dy) /\
  (saccade = true ->
   fst r = None /\
   filteredX (snd r) = filteredX f /\ filteredY (snd r) = filteredY f /\
   kalmanX (snd r) = kalmanX f /\ kalmanY (snd r) = kalmanY f).
Proof.
  intros Hlc Hx Hy Ht Hlt dt dx dy r saccade.
  assert (Hdt : 0 < dt).
  { unfold dt. apply Qlt_shift_div_l; lra. }
  assert (Edt : Qleb dt 0 = false) by (apply Qleb_false; exact Hdt).
  assert (Ev : speedSq (fst (calculateVelocity
                          (lerpCoordinate F (data_x d) (innerWidth page))
                          (lerpCoordinate F (data_y d) (innerHeight page))
                          timestamp f))
               = dx / dt * (dx / dt) + dy / dt * (dy / dt)).
  { unfold calculateVelocity. rewrite Hx, Ht. fold dt. rewrite Edt.
    rewrite Hy. reflexivity. }
  split.
  - unfold saccade. rewrite Ev, Qltb_true.
    assert (Esq : (dx / dt * (dx / dt) + dy / dt * (dy / dt)) * (dt * dt)
                  == dx * dx + dy * dy) by (field; lra).
    assert (Hdd : 0 < dt * dt) by nra.
    set (sp := dx / dt * (dx / dt) + dy / dt * (dy / dt)) in *.
    set (T := VELOCITY_THRESHOLD F) in *.
    split; intros H.
    + assert (T * T * (dt * dt) < sp * (dt * dt))
        by (apply Qmult_lt_compat_r; assumption).
      lra.
    + destruct (Qlt_le_dec (T * T) sp) as [Hs | Hs]; [exact Hs |].
      assert (sp * (dt * dt) <= T * T * (dt * dt))
        by (apply Qmult_le_compat_r; lra).
      lra.
  - intros Hs. unfold r, processGazeData. rewrite Hlc.
    destruct (calculateVelocity_frame
                (lerpCoordinate F (data_x d) (innerWidth page))
                (lerpCoordinate F (data_y d) (innerHeight page)) timestamp f)
      as (Ex & Ey & Ekx & Eky & _).
    unfold saccade in Hs.
    destruct (calculateVelocity
                (lerpCoordinate F (data_x d) (innerWidth page))
                (lerpCoordinate F (data_y d) (innerHeight page)) timestamp f)
      as [v f1].
    simpl in Hs, Ex, Ey, Ekx, Eky. rewrite Hs. simpl. auto.
Qed.

Lemma saccade_rule_witness :
  fst (processGazeData ContentJs.FILTER page1000x800 836 400 1033 sampleFar
         filterAt500x400) = None.
Proof.
  destruct (saccade_rule ContentJs.FILTER page1000x800 sampleFar 1033 500 400 1000
              filterAt500x400 eq_refl eq_refl eq_refl eq_refl) as (_ & H).
  - vm_compute. reflexivity.
  - apply H. vm_compute. reflexivity.
Defined.

(** ** Invariant of the zone fields *)

Lemma handleZoneAction_frame z s :
  currentZone (fst (handleZoneAction z s)) = currentZone s /\
  pendingZone (fst (handleZoneAction z s)) = pendingZone s /\
  zoneSwitchTime (fst (handleZoneAction z s)) = zoneSwitchTime s /\
  dwellStartTime (fst (handleZoneAction z s)) = dwellStartTime s /\
  actions (snd (handleZoneAction z s)) = [z].
Proof. destruct z; repeat split. Qed.

Lemma resolveZone_zoneInv cfg zone now s :
  zone <> ZNull -> zoneInv s -> zoneInv (resolveZone cfg zone now s).
Proof.
  intros Hz Hinv. pose proof Hinv as [H1 H2]. unfold resolveZone.
  destruct (zone_neq zone (currentZone s)) eqn:Ec.
  - apply zone_neq_true in Ec.
    destruct (zone_neq zone (pendingZone s)) eqn:Ep.
    + split; simpl; [exact H1 |]. intros _. split; [exact Ec | discriminate].
    + destruct (Qleb _ _); [| exact Hinv].
      split; simpl; [| intros H; contradiction].
      split; intros H; [contradiction | discriminate].
  - split; simpl; [exact H1 | intros H; contradiction].
Qed.

Lemma dwellCheck_zoneInv cfg now s : zoneInv s -> zoneInv (fst (dwellCheck cfg now s)).
Proof.
  intros Hinv. unfold dwellCheck.
  destruct (currentZone s) as [| | z] eqn:Ec; [exact Hinv | exact Hinv |].
  destruct (Qleb _ _); [| exact Hinv].
  destruct Hinv as [H1 H2].
  destruct (handleZoneAction_frame z s) as (Fc & Fp & Ft & _ & _).
  destruct (handleZoneAction z s) as [s1 es]. simpl in *.
  split; simpl.
  - rewrite Fc, Ec. split; intros H; discriminate.
  - rewrite Fp, Fc, Ft. exact H2.
Qed.

Lemma updateZone_zoneInv cfg page x y now s :
  zoneInv s -> zoneInv (fst (updateZone cfg page x y now s)).
Proof.
  intros Hinv. unfold updateZone.
  destruct (sidebarHost page); simpl; [| exact Hinv].
  destruct (isInSidebar cfg page x).
  - apply dwellCheck_zoneInv, resolveZone_zoneInv;
      [apply getZoneFromY_not_null | exact Hinv].
  - destruct (truthy (currentZone s)); simpl; [| exact Hinv].
    split; simpl; [tauto | intros H; contradiction].
Qed.

(** X6: from the initial state, whatever positions and times the zone step
    is evaluated at, [dwellStartTime] is set exactly while [currentZone] is
    not [null], and a candidate zone is held only while it differs from the
    current zone and has its time stamp. *)
Theorem zone_fields_invariant (cfg : UIConfig) (page : Page)
        (evals : list (Q * Q * Q)) :
  zoneInv (fst (updateZoneRun cfg page evals initialZoneState)).
Proof.
  assert (H0 : zoneInv initialZoneState).
  { split; simpl; [tauto | intros H; contradiction]. }
  revert H0. generalize initialZoneState.
  induction evals as [| [[x y] now] evals IH]; intros s Hs; [exact Hs |].
  cbn [updateZoneRun].
  pose proof (updateZone_zoneInv cfg page x y now s Hs) as H1.
  destruct (updateZone cfg page x y now s) as [s1 es1]. simpl in H1.
  specialize (IH s1 H1).
  destruct (updateZoneRun cfg page evals s1) as [s2 es2]. exact IH.
Qed.

(** ** Committing a zone switch *)

(** X7: a zone that differs from the current one, seen in the strip at two
    successive evaluations, is first recorded as the candidate with its time
    stamp; at the second evaluation it becomes the current zone exactly when
    [ZONE_SWITCH_DELAY] has passed since the first: then the candidate is
    cleared, scrolling is stopped, dwell starts at that instant and (with a
    positive [DWELL_TIME]) nothing is dispatched; otherwise the current zone
    and the candidate stay. *)
Theorem zone_switch_after_delay (cfg : UIConfig) (page : Page) (s : ZoneState)
        (z' : zoneval) (x1 y1 t1 x2 y2 t2 : Q) :
  sidebarHost page = true ->
  0 < DWELL_TIME cfg ->
  resolvesTo cfg page z' (x1, y1, t1) ->
  resolvesTo cfg page z' (x2, y2, t2) ->
  z' <> currentZone s ->
  z' <> pendingZone s ->
  let s1 := fst (updateZone cfg page x1 y1 t1 s) in
  let r2 := updateZone cfg page x2 y2 t2 s1 in
  (currentZone s1 = currentZone s /\ pendingZone s1 = z' /\
   zoneSwitchTime s1 = Some t1) /\
  (ZONE_SWITCH_DELAY cfg <= t2 - t1 ->
   currentZone (fst r2) = z' /\ pendingZone (fst r2) = ZNull /\
   dwellStartTime (fst r2) = Some t2 /\ isScrolling (fst r2) = false /\
   actions (snd r2) = []) /\
  (t2 - t1 < ZONE_SWITCH_DELAY cfg ->
   currentZone (fst r2) = currentZone s /\ pendingZone (fst r2) = z' /\
   zoneSwitchTime (fst r2) = Some t1).
Proof.
  intros Hh HD [Hx1 Hy1] [Hx2 Hy2] Hc Hp s1 r2. simpl in Hx1, Hy1, Hx2, Hy2.
  assert (E1 : s1 = fst (dwellCheck cfg t1 (set_pending z' (Some t1) s))).
  { unfold s1. rewrite (updateZone_in_strip cfg page x1 y1 t1 s Hh Hx1), Hy1.
    unfold resolveZone.
    apply zone_neq_true in Hc. apply zone_neq_true in Hp. rewrite Hc, Hp.
    reflexivity. }
  assert (Hc1 : currentZone s1 = currentZone s)
    by (rewrite E1, dwellCheck_currentZone; reflexivity).
  assert (Hp1 : pendingZone s1 = z')
    by (rewrite E1, dwellCheck_pendingZone; reflexivity).
  assert (Ht1 : zoneSwitchTime s1 = Some t1).
  { rewrite E1. unfold dwellCheck. simpl.
    destruct (currentZone s) as [| | z]; simpl; try reflexivity.
    destruct (Qleb _ _); simpl; [| reflexivity].
    destruct z; reflexivity. }
  split; [auto |].
  assert (E2 : r2 = dwellCheck cfg t2 (resolveZone cfg z' t2 s1)).
  { unfold r2. rewrite (updateZone_in_strip cfg page x2 y2 t2 s1 Hh Hx2), Hy2.
    reflexivity. }
  assert (Hne : zone_neq z' (currentZone s1) = true)
    by (apply zone_neq_true; congruence).
  assert (Heq : zone_neq z' (pendingZone s1) = false)
    by (apply zone_neq_false; congruence).
  split.
  - intros Hdelay.
    assert (Er : resolveZone cfg z' t2 s1
                 = stopScrolling (set_zone z' ZNull (Some t2) s1)).
    { unfold resolveZone. rewrite Hne, Heq, Ht1. simpl num.
      apply Qleb_true in Hdelay. rewrite Hdelay. reflexivity. }
    rewrite E2, Er.
    destruct (dwellCheck_waiting cfg t2 (stopScrolling (set_zone z' ZNull (Some t2) s1)))
      as [Hd Ha].
    { simpl. lra. }
    rewrite dwellCheck_currentZone, dwellCheck_pendingZone, Hd, Ha.
    repeat split.
    unfold dwellCheck. simpl.
    destruct z' as [| | z]; simpl; try reflexivity.
    assert (Ew : Qleb (DWELL_TIME cfg) (t2 - t2) = false) by (apply Qleb_false; lra).
    rewrite Ew. reflexivity.
  - intros Hearly.
    assert (Er : resolveZone cfg z' t2 s1 = s1).
    { unfold resolveZone. rewrite Hne, Heq, Ht1. simpl num.
      apply Qleb_false in Hearly. rewrite Hearly. reflexivity. }
    rewrite E2, Er, dwellCheck_currentZone, dwellCheck_pendingZone.
    repeat split; [exact Hc1 | exact Hp1 |].
    unfold dwellCheck.
    destruct (currentZone s1) as [| | z]; simpl; try exact Ht1.
    destruct (Qleb _ _); simpl; [| exact Ht1].
    destruct z; exact Ht1.
Qed.

Lemma zone_switch_after_delay_witness :
  currentZone
    (fst (updateZone ContentJs.CONFIG page1000x800 950 470 216
            (fst (updateZone ContentJs.CONFIG page1000x800 950 470 116
                    (tracking ASK_AI 0)))))
  = ZName MEDIA.
Proof.
  assert (HD : 0 < DWELL_TIME ContentJs.CONFIG) by (simpl; lra).
  assert (H1 : resolvesTo ContentJs.CONFIG page1000x800 (ZName MEDIA) (950, 470, 116))
    by (split; reflexivity).
  assert (H2 : resolvesTo ContentJs.CONFIG page1000x800 (ZName MEDIA) (950, 470, 216))
    by (split; reflexivity).
  assert (Hc : ZName MEDIA <> currentZone (tracking ASK_AI 0)) by discriminate.
  assert (Hp : ZName MEDIA <> pendingZone (tracking ASK_AI 0)) by discriminate.
  destruct (zone_switch_after_delay ContentJs.CONFIG page1000x800 (tracking ASK_AI 0)
              (ZName MEDIA) 950 470 116 950 470 216 eq_refl HD H1 H2 Hc Hp)
    as (_ & H & _).
  apply H. vm_compute. discriminate.
Defined.

(** ** What one evaluation can dispatch *)

Lemma dwellCheck_dispatch cfg now s :
  actions (snd (dwellCheck cfg now s)) = [] \/
  exists z, actions (snd (dwellCheck cfg now s)) = [z] /\
            currentZone s = ZName z /\
            dwellStartTime (fst (dwellCheck cfg now s)) = Some now.
Proof.
  unfold dwellCheck. destruct (currentZone s) as [| | z]; simpl; auto.
  destruct (Qleb _ _); simpl; auto.
  right. exists z. destruct z; repeat split.
Qed.

(** X8: one evaluation of the zone step dispatches at most one action, and
    only from inside the strip: the action is that of the zone which is
    current after the step, whose dwell restarts at that instant.  Without
    the sidebar host nothing happens at all; outside the strip nothing is
    dispatched, a named current zone is dropped together with the candidate
    and the dwell start, and scrolling is stopped. *)
Theorem zone_step_dispatch (cfg : UIConfig) (page : Page) (x y now : Q)
        (s : ZoneState) :
  (sidebarHost page = false -> updateZone cfg page x y now s = (s, [])) /\
  (isInSidebar cfg page x = false ->
   actions (snd (updateZone cfg page x y now s)) = [] /\
   (sidebarHost page = true -> truthy (currentZone s) = true ->
    currentZone (fst (updateZone cfg page x y now s)) = ZNull /\
    pendingZone (fst (updateZone cfg page x y now s)) = ZNull /\
    dwellStartTime (fst (updateZone cfg page x y now s)) = None /\
    isScrolling (fst (updateZone cfg page x y now s)) = false) /\
   (truthy (currentZone s) = false -> fst (updateZone cfg page x y now s) = s)) /\
  (actions (snd (updateZone cfg page x y now s)) = [] \/
   exists z,
     actions (snd (updateZone cfg page x y now s)) = [z] /\
     isInSidebar cfg page x = true /\
     currentZone (fst (updateZone cfg page x y now s)) = ZName z /\
     dwellStartTime (fst (updateZone cfg page x y now s)) = Some now).
Proof.
  unfold updateZone. split; [| split].
  - intros ->. reflexivity.
  - intros ->. destruct (sidebarHost page); simpl.
    + destruct (truthy (currentZone s)) eqn:Et; simpl; repeat split; try discriminate.
    + repeat split; try discriminate.
  - destruct (sidebarHost page); simpl; [| auto].
    destruct (isInSidebar cfg page x).
    + destruct (dwellCheck_dispatch cfg now
                  (resolveZone cfg (getZoneFromY cfg page y) now s))
        as [H | (z & Ha & Hc & Hd)]; [auto |].
      right. exists z. repeat split; try assumption.
      rewrite dwellCheck_currentZone. exact Hc.
    + destruct (truthy (currentZone s)); simpl; auto.
Qed.

(** ** Kill switch and watchdog in the WebGazer script *)

Lemma gazeListener_inactive data dateNow perfNow w :
  isActive (ContentJs.zs (ContentJs.st w)) = false ->
  ContentJs.gazeListener data dateNow perfNow w
  = (match data with
     | Some _ => ContentJs.set_st (ContentJs.set_lastGazeTime dateNow (ContentJs.st w)) w
     | None => w
     end, []).
Proof.
  intros H. unfold ContentJs.gazeListener. destruct data; [| reflexivity].
  simpl. rewrite H. reflexivity.
Qed.

(** X9: dispatching [KILL_SWITCH] clears [isActive] and sets the 3 s
    reactivation timer; while [isActive] is false every call of the gaze
    listener is dropped (no effect, zone and filter state untouched), and
    the reactivation timer sets [isActive] again. *)
Theorem kill_switch_pauses (rt : ContentJs.Runtime) (w : ContentJs.World)
        (gazes : list (option GazeData * Q * Q)) (s : ZoneState) (t : Q) :
  isActive (ContentJs.zs (ContentJs.st w)) = false ->
  (isActive (fst (handleZoneAction KILL_SWITCH s)) = false /\
   snd (handleZoneAction KILL_SWITCH s)
   = [ZoneAction KILL_SWITCH; SetTimeout ReactivateTracking 3000]) /\
  snd (ContentJs.run rt (gazeEvents gazes) w) = [] /\
  ContentJs.zs (ContentJs.st (fst (ContentJs.run rt (gazeEvents gazes) w)))
  = ContentJs.zs (ContentJs.st w) /\
  ContentJs.fs (ContentJs.st (fst (ContentJs.run rt (gazeEvents gazes) w)))
  = ContentJs.fs (ContentJs.st w) /\
  isActive (ContentJs.zs (ContentJs.st
     (fst (ContentJs.handle rt (ContentJs.EvTimer ReactivateTracking t)
             (fst (ContentJs.run rt (gazeEvents gazes) w)))))) = true.
Proof.
  intros Hin. split; [split; reflexivity |].
  assert (Hrun : forall w0,
             isActive (ContentJs.zs (ContentJs.st w0)) = false ->
             snd (ContentJs.run rt (gazeEvents gazes) w0) = [] /\
             ContentJs.zs (ContentJs.st (fst (ContentJs.run rt (gazeEvents gazes) w0)))
             = ContentJs.zs (ContentJs.st w0) /\
             ContentJs.fs (ContentJs.st (fst (ContentJs.run rt (gazeEvents gazes) w0)))
             = ContentJs.fs (ContentJs.st w0)).
  { induction gazes as [| [[d dn] pn] gazes IH]; intros w0 H0; [repeat split |].
    cbn [gazeEvents map ContentJs.run ContentJs.handle fst snd].
    rewrite (gazeListener_inactive d dn pn w0 H0).
    set (w1 := match d with
               | Some _ => ContentJs.set_st
                             (ContentJs.set_lastGazeTime dn (ContentJs.st w0)) w0
               | None => w0
               end).
    assert (Hz : ContentJs.zs (ContentJs.st w1) = ContentJs.zs (ContentJs.st w0))
      by (unfold w1; destruct d; reflexivity).
    assert (Hf : ContentJs.fs (ContentJs.st w1) = ContentJs.fs (ContentJs.st w0))
      by (unfold w1; destruct d; reflexivity).
    assert (H1 : isActive (ContentJs.zs (ContentJs.st w1)) = false)
      by (rewrite Hz; exact H0).
    destruct (IH w1 H1) as (Ia & Iz & If).
    fold (gazeEvents gazes).
    destruct (ContentJs.run rt (gazeEvents gazes) w1) as [w2 es2].
    simpl in *. subst es2. repeat split; congruence. }
  destruct (Hrun w Hin) as (Ha & Hz & Hf).
  repeat split; assumption || reflexivity.
Qed.

Lemma kill_switch_pauses_witness :
  snd (ContentJs.run runtimeOk
         (gazeEvents [(Some sampleInStrip, 2000, 1000)])
         (ContentJs.set_st
            (ContentJs.set_zs (set_isActive false (tracking KILL_SWITCH 0))
                              ContentJs.initialState)
            (ContentJs.startSession calibratedStorageJs page1000x800)))
  = [].
Proof.
  destruct (kill_switch_pauses runtimeOk
              (ContentJs.set_st
                 (ContentJs.set_zs (set_isActive false (tracking KILL_SWITCH 0))
                                   ContentJs.initialState)
                 (ContentJs.startSession calibratedStorageJs page1000x800))
              [(Some sampleInStrip, 2000, 1000)]
              (tracking KILL_SWITCH 0) 3000 eq_refl) as (_ & H & _).
  exact H.
Defined.

(** X10: every non-null sample given to the gaze listener stamps
    [lastGazeTime], also while tracking is paused or calibration is not
    done, and a [null] sample changes nothing; after a sample at [dateNow]
    no watchdog check up to [dateNow + WATCHDOG_TIMEOUT] calls recovery. *)
Theorem sample_quiets_watchdog (rt : ContentJs.Runtime) (w : ContentJs.World)
        (d : GazeData) (dateNow perfNow later : Q) :
  later <= dateNow + WATCHDOG_TIMEOUT ContentJs.FILTER ->
  ContentJs.lastGazeTime
    (ContentJs.st (fst (ContentJs.gazeListener (Some d) dateNow perfNow w)))
  = dateNow /\
  ContentJs.gazeListener None dateNow perfNow w = (w, []) /\
  snd (ContentJs.watchdogCheck rt later
         (fst (ContentJs.gazeListener (Some d) dateNow perfNow w))) = [].
Proof.
  intros Hlater.
  assert (Hstamp : ContentJs.lastGazeTime
            (ContentJs.st (fst (ContentJs.gazeListener (Some d) dateNow perfNow w)))
          = dateNow).
  { unfold ContentJs.gazeListener.
    destruct (negb _ || negb _); [reflexivity |].
    destruct (processGazeData _ _ _ _ _ _ _) as [[[x y] |] f]; [| reflexivity].
    unfold ContentJs.updateGazePosition.
    destruct (updateZone _ _ _ _ _ _) as [z es]. reflexivity. }
  split; [exact Hstamp |]. split; [reflexivity |].
  unfold ContentJs.watchdogCheck.
  destruct (negb _ || negb _); [reflexivity |].
  rewrite Hstamp.
  assert (E : Qltb (WATCHDOG_TIMEOUT ContentJs.FILTER) (later - dateNow) = false)
    by (apply Qltb_false; lra).
  rewrite E, andb_false_r. reflexivity.
Qed.

Lemma sample_quiets_watchdog_witness :
  snd (ContentJs.watchdogCheck runtimeOk 7000
         (fst (ContentJs.gazeListener (Some sampleInStrip) 2000 1000 worldTrackingMedia)))
  = [].
Proof.
  destruct (sample_quiets_watchdog runtimeOk worldTrackingMedia sampleInStrip
              2000 1000 7000) as (_ & _ & H).
  - vm_compute. discriminate.
  - exact H.
Defined.

(** X11: while nothing is received, recovery repeats: after a check at [t]
    that calls recovery and the resume timer at [t + 500], the check at
    [t + 3000] calls none and the check at [t + 6000] calls recovery again. *)
Theorem freeze_recovers_every_second_check (rt : ContentJs.Runtime)
        (w : ContentJs.World) (t : Q) :
  isCalibrated (cal (ContentJs.cw w)) = true ->
  ContentJs.isWebGazerReady (ContentJs.st w) = true ->
  ContentJs.watchdogId (ContentJs.st w) = true ->
  0 < ContentJs.lastGazeTime (ContentJs.st w) ->
  WATCHDOG_TIMEOUT ContentJs.FILTER < t - ContentJs.lastGazeTime (ContentJs.st w) ->
  0 <= t ->
  let first := ContentJs.run rt [ContentJs.EvWatchdog t;
                                 ContentJs.EvTimer ResumeWebGazer (t + 500)] w in
  ContentJs.recoveries (snd first) = 1%nat /\
  ContentJs.recoveries
    (snd (ContentJs.handle rt (ContentJs.EvWatchdog (t + 3000)) (fst first))) = O /\
  ContentJs.recoveries
    (snd (ContentJs.handle rt (ContentJs.EvWatchdog (t + 6000)) (fst first))) = 1%nat.
Proof.
  intros Hcal Hready Hid Hpos Hlate Ht first.
  assert (Echeck : ContentJs.watchdogCheck rt t w
                   = (w, RecoverWebGazer :: ContentJs.recoverWebGazer rt)).
  { unfold ContentJs.watchdogCheck. rewrite Hcal, Hready. cbn [negb orb].
    apply Qltb_true in Hpos. apply Qltb_true in Hlate.
    rewrite Hpos, Hlate. reflexivity. }
  assert (Hrec : ContentJs.recoveries (ContentJs.recoverWebGazer rt) = O).
  { unfold ContentJs.recoverWebGazer.
    destruct (ContentJs.webgazerLoaded rt), (ContentJs.pauseOk rt),
      (ContentJs.endOk rt); reflexivity. }
  assert (Efirst : first
                   = (ContentJs.set_st
                        (ContentJs.set_lastGazeTime (t + 500) (ContentJs.st w)) w,
                      (RecoverWebGazer :: ContentJs.recoverWebGazer rt)
                        ++ [WebGazerResume] ++ [])).
  { unfold first. cbn [ContentJs.run ContentJs.handle]. rewrite Hid, Echeck.
    reflexivity. }
  rewrite Efirst. cbn [fst snd].
  assert (Happ : forall a b,
             ContentJs.recoveries (a ++ b)
             = (ContentJs.recoveries a + ContentJs.recoveries b)%nat).
  { induction a as [| e a IHa]; intros b; [reflexivity |].
    destruct e; simpl; rewrite IHa; reflexivity. }
  split; [| split].
  - rewrite Happ. simpl. rewrite Hrec. reflexivity.
  - unfold ContentJs.handle. simpl ContentJs.watchdogId. rewrite Hid.
    unfold ContentJs.watchdogCheck. simpl. rewrite Hcal, Hready. simpl.
    assert (E : Qltb 5000 (t + 3000 - (t + 500)) = false) by (apply Qltb_false; lra).
    rewrite E, andb_false_r. reflexivity.
  - unfold ContentJs.handle. simpl ContentJs.watchdogId. rewrite Hid.
    unfold ContentJs.watchdogCheck. simpl. rewrite Hcal, Hready. simpl.
    assert (E1 : Qltb 0 (t + 500) = true) by (apply Qltb_true; lra).
    assert (E2 : Qltb 5000 (t + 6000 - (t + 500)) = true) by (apply Qltb_true; lra).
    rewrite E1, E2. simpl. rewrite Hrec. reflexivity.
Qed.

Lemma freeze_recovers_every_second_check_witness :
  ContentJs.recoveries
    (snd (ContentJs.run runtimeOk
            [ContentJs.EvWatchdog 6500; ContentJs.EvTimer ResumeWebGazer (6500 + 500)]
            (fst (ContentJs.run runtimeOk
                    [ContentJs.EvInit 500; ContentJs.EvOverlay]
                    (ContentJs.startSession calibratedStorageJs page1000x800)))))
  = 1%nat.
Proof.
  destruct (freeze_recovers_every_second_check runtimeOk
              (fst (ContentJs.run runtimeOk
                      [ContentJs.EvInit 500; ContentJs.EvOverlay]
                      (ContentJs.startSession calibratedStorageJs page1000x800)))
              6500) as (H & _).
  - vm_compute. reflexivity.
  - vm_compute. reflexivity.
  - vm_compute. reflexivity.
  - vm_compute. reflexivity.
  - vm_compute. reflexivity.
  - vm_compute. discriminate.
  - exact H.
Defined.

(** ** Moving-average buffer *)

Lemma shiftWhileLonger_drop size buf :
  shiftWhileLonger size buf = drop (length buf - size) buf.
Proof.
  induction buf as [| e buf IH]; [reflexivity |].
  cbn [shiftWhileLonger].
  destruct (Nat.ltb_spec size (length (e :: buf))) as [H | H]; simpl in H.
  - rewrite IH. simpl length.
    replace (S (length buf) - size)%nat with (S (length buf - size)) by lia.
    reflexivity.
  - simpl length. replace (S (length buf) - size)%nat with O by lia. reflexivity.
Qed.

(** X12: [addToGazeBuffer] appends the sample and keeps the newest
    [MOVING_AVG_SIZE] entries in order: the buffer never grows beyond that
    size, and with a positive size the sample just added is its last entry. *)
Theorem addToGazeBuffer_keeps_newest (F : FilterConfig) (x y now : Q)
        (f : FilterState) :
  gazeBuffer (addToGazeBuffer F x y now f)
  = drop (S (length (gazeBuffer f)) - MOVING_AVG_SIZE F) (gazeBuffer f ++ [(x, y, now)]) /\
  length (gazeBuffer (addToGazeBuffer F x y now f))
  = Nat.min (S (length (gazeBuffer f))) (MOVING_AVG_SIZE F) /\
  ((1 <= MOVING_AVG_SIZE F)%nat ->
   last (gazeBuffer (addToGazeBuffer F x y now f)) = Some (x, y, now)).
Proof.
  unfold addToGazeBuffer. cbn [gazeBuffer].
  rewrite shiftWhileLonger_drop, length_app. simpl length.
  replace (length (gazeBuffer f) + 1)%nat with (S (length (gazeBuffer f))) by lia.
  split; [reflexivity |]. split.
  - rewrite length_drop, length_app. cbn [length]. lia.
  - intros HM.
    set (k := (S (length (gazeBuffer f)) - MOVING_AVG_SIZE F)%nat).
    assert (Hk : (k <= length (gazeBuffer f))%nat) by (unfold k; lia).
    rewrite drop_app_le by exact Hk. apply last_snoc.
Qed.

Lemma addToGazeBuffer_keeps_newest_witness :
  last (gazeBuffer (addToGazeBuffer ContentJs.FILTER 10 20 30
                      (withBuffer [(1, 1, 1); (2, 2, 2); (3, 3, 3); (4, 4, 4)])))
  = Some (10, 20, 30).
Proof.
  destruct (addToGazeBuffer_keeps_newest ContentJs.FILTER 10 20 30
              (withBuffer [(1, 1, 1); (2, 2, 2); (3, 3, 3); (4, 4, 4)]))
    as (_ & _ & H).
  apply H. simpl. lia.
Defined.

Lemma weightedSums_bounds (len lo hi : Q) (buf : list (Q * Q * Q)) :
  0 < len ->
  Forall (fun e => lo <= fst (fst e) /\ fst (fst e) <= hi) buf ->
  forall i sx sy sw,
    0 <= sw -> lo * sw <= sx -> sx <= hi * sw ->
    let r := weightedSums len i buf (sx, sy, sw) in
    sw <= snd r /\ (buf <> [] -> 0 < snd r) /\
    lo * snd r <= fst (fst r) /\ fst (fst r) <= hi * snd r.
Proof.
  intros Hlen Hall.
  induction Hall as [| [[x y] t] buf [Hx0 Hx1] _ IH]; intros i sx sy sw Hsw Hlo Hhi.
  - simpl. repeat split; try lra. intros H. contradiction.
  - cbn [weightedSums fst snd]. simpl in Hx0, Hx1.
    assert (Hw : 0 < (inject_Z (Z.of_nat i) + 1) / len).
    { apply Qlt_shift_div_l; [exact Hlen |].
      assert (0 <= inject_Z (Z.of_nat i)).
      { replace 0 with (inject_Z 0) by reflexivity. rewrite <- Zle_Qle. lia. }
      lra. }
    set (weight := (inject_Z (Z.of_nat i) + 1) / len) in *.
    destruct (IH (S i) (sx + x * weight) (sy + y * weight) (sw + weight))
      as (I1 & _ & I3 & I4); [lra | nra | nra |].
    repeat split; try assumption; lra.
Qed.

(** X13: [getMovingAverage] returns nothing for an empty buffer; for a
    non-empty one it returns a position, and an interval that holds the [x]
    of every buffered sample holds the averaged [x]. *)
Theorem getMovingAverage_within (f : FilterState) (lo hi : Q) :
  Forall (fun e => lo <= fst (fst e) /\ fst (fst e) <= hi) (gazeBuffer f) ->
  (gazeBuffer f = [] -> getMovingAverage f = None) /\
  (gazeBuffer f <> [] ->
   exists ax ay, getMovingAverage f = Some (ax, ay) /\ lo <= ax /\ ax <= hi).
Proof.
  intros Hall. unfold getMovingAverage. split.
  - intros ->. reflexivity.
  - intros Hne. destruct (gazeBuffer f) as [| e buf] eqn:Eb; [contradiction |].
    assert (Hlen : 0 < inject_Z (Z.of_nat (length (e :: buf)))).
    { replace 0 with (inject_Z 0) by reflexivity. rewrite <- Zlt_Qlt. simpl. lia. }
    destruct (weightedSums_bounds _ lo hi (e :: buf) Hlen Hall 0%nat 0 0 0)
      as (_ & Hpos & Hl & Hh); try lra.
    specialize (Hpos Hne).
    eexists. eexists. split; [reflexivity |].
    split.
    + apply Qle_shift_div_l; [exact Hpos | exact Hl].
    + apply Qle_shift_div_r; [exact Hpos | exact Hh].
Qed.

Lemma getMovingAverage_within_witness :
  exists ax ay,
    getMovingAverage (withBuffer [(100, 1, 1); (200, 2, 2)]) = Some (ax, ay) /\
    100 <= ax /\ ax <= 200.
Proof.
  destruct (getMovingAverage_within (withBuffer [(100, 1, 1); (200, 2, 2)]) 100 200)
    as (_ & H).
  - repeat constructor; simpl; lra.
  - apply H. discriminate.
Defined.

(** ** The animation frame of the Python script *)

(** X14: with a target set, one animation frame moves the displayed cursor
    15% of the way to the target on each axis (it starts at the target when
    nothing was displayed yet), so the cursor never overshoots; without a
    target the frame does nothing. *)
Theorem animate_closes_gap (now gx gy : Q) (w : ContentPython.World) :
  ContentPython.gazeX (ContentPython.st w) = Some gx ->
  ContentPython.gazeY (ContentPython.st w) = Some gy ->
  let w' := fst (ContentPython.animate now w) in
  (exists dx dy,
      ContentPython.displayX (ContentPython.st w') = Some dx /\
      ContentPython.displayY (ContentPython.st w') = Some dy /\
      (ContentPython.displayX (ContentPython.st w) = None -> dx == gx /\ dy == gy) /\
      (forall d, ContentPython.displayX (ContentPython.st w) = Some d ->
                 dx - gx == (85 # 100) * (d - gx) /\
                 dy - gy == (85 # 100) * (num (ContentPython.displayY (ContentPython.st w)) - gy))) /\
  ContentPython.gazeX (ContentPython.st w') = Some gx /\
  ContentPython.gazeY (ContentPython.st w') = Some gy /\
  (forall w0, ContentPython.gazeX (ContentPython.st w0) = None \/
              ContentPython.gazeY (ContentPython.st w0) = None ->
              ContentPython.animate now w0 = (w0, [])).
Proof.
  intros Hx Hy w'.
  assert (Hnone : forall w0,
             ContentPython.gazeX (ContentPython.st w0) = None \/
             ContentPython.gazeY (ContentPython.st w0) = None ->
             ContentPython.animate now w0 = (w0, [])).
  { intros w0 [H | H]; unfold ContentPython.animate; rewrite H;
      [reflexivity | destruct (ContentPython.gazeX (ContentPython.st w0)); reflexivity]. }
  unfold w', ContentPython.animate, ContentPython.updateZoneFromGaze.
  rewrite Hx, Hy.
  destruct (ContentPython.displayX (ContentPython.st w)) as [d |] eqn:Ed.
  - destruct (updateZone _ _ _ _ _ _) as [z es]. simpl.
    split; [| repeat split; assumption].
    eexists. eexists. split; [reflexivity |]. split; [reflexivity |].
    split; [discriminate |].
    intros d' Hd. injection Hd as <-. rewrite Ed. simpl. unfold ContentPython.CURSOR_SMOOTHING.
    split; ring.
  - destruct (updateZone _ _ _ _ _ _) as [z es]. simpl.
    split; [| repeat split; assumption].
    eexists. eexists. split; [reflexivity |]. split; [reflexivity |].
    split; [| discriminate].
    intros _. split; ring.
Qed.

Lemma animate_closes_gap_witness :
  exists dx,
    ContentPython.displayX
      (ContentPython.st (fst (ContentPython.animate 0 pythonCursorBehind))) = Some dx /\
    dx - 950 == (85 # 100) * (900 - 950).
Proof.
  destruct (animate_closes_gap 0 950 500 pythonCursorBehind eq_refl eq_refl)
    as ((dx & dy & Hx & _ & _ & H) & _).
  exists dx. split; [exact Hx |].
  apply (H 900). reflexivity.
Defined.

Lemma updateZone_isActive_actions cfg page x y now s b :
  actions (snd (updateZone cfg page x y now (set_isActive b s)))
  = actions (snd (updateZone cfg page x y now s)).
Proof.
  unfold updateZone. destruct (sidebarHost page); [| reflexivity]. cbn [negb].
  destruct (isInSidebar cfg page x);
    [| simpl; destruct (truthy (currentZone s)); reflexivity].
  apply (dwellCheck_frame cfg now
           (resolveZone cfg (getZoneFromY cfg page y) now s)
           (resolveZone cfg (getZoneFromY cfg page y) now (set_isActive b s)));
    unfold resolveZone; simpl;
    (destruct (zone_neq _ (currentZone s)); [| reflexivity]);
    (destruct (zone_neq _ (pendingZone s)); [reflexivity |]);
    destruct (Qleb _ _); reflexivity.
Qed.

Lemma updateZoneFromGaze_snd x y now w :
  snd (ContentPython.updateZoneFromGaze x y now w)
  = snd (updateZone ContentPython.CONFIG (ContentPython.page w) x y now
           (ContentPython.zs (ContentPython.st w))).
Proof.
  unfold ContentPython.updateZoneFromGaze.
  destruct (updateZone _ _ _ _ _ _). reflexivity.
Qed.

Lemma animate_effects now w :
  snd (ContentPython.animate now w)
  = match ContentPython.gazeX (ContentPython.st w),
          ContentPython.gazeY (ContentPython.st w) with
    | Some gx, Some gy =>
        let d0x := match ContentPython.displayX (ContentPython.st w) with
                   | None => gx
                   | Some d => d
                   end in
        let d0y := match ContentPython.displayX (ContentPython.st w) with
                   | None => gy
                   | Some _ => num (ContentPython.displayY (ContentPython.st w))
                   end in
        snd (updateZone ContentPython.CONFIG (ContentPython.page w)
               (d0x + (gx - d0x) * ContentPython.CURSOR_SMOOTHING)
               (d0y + (gy - d0y) * ContentPython.CURSOR_SMOOTHING)
               now (ContentPython.zs (ContentPython.st w)))
    | _, _ => []
    end.
Proof.
  unfold ContentPython.animate.
  destruct (ContentPython.gazeX (ContentPython.st w)) as [gx |]; [| reflexivity].
  destruct (ContentPython.gazeY (ContentPython.st w)) as [gy |]; [| reflexivity].
  rewrite updateZoneFromGaze_snd.
  destruct (ContentPython.displayX (ContentPython.st w)) eqn:Ed;
    simpl; rewrite ?Ed; reflexivity.
Qed.

(** X15: the animation frame reads neither the calibration state nor
    [isActive]: whatever they are, it produces the same effects, so in the
    Python script neither an open calibration gate nor the kill switch stops
    the dwell evaluation of the last target. *)
Theorem animate_ignores_gates (now : Q) (w : ContentPython.World)
        (c : CalWorld) (b : bool) :
  snd (ContentPython.animate now (ContentPython.set_cw c w))
  = snd (ContentPython.animate now w) /\
  ContentPython.cw (fst (ContentPython.animate now (ContentPython.set_cw c w))) = c /\
  actions (snd (ContentPython.animate now (pythonSetActive b w)))
  = actions (snd (ContentPython.animate now w)).
Proof.
  split; [| split].
  - rewrite !animate_effects. reflexivity.
  - unfold ContentPython.animate, ContentPython.updateZoneFromGaze.
    cbn [ContentPython.set_cw ContentPython.st].
    destruct (ContentPython.gazeX (ContentPython.st w)); [| reflexivity].
    destruct (ContentPython.gazeY (ContentPython.st w)); [| reflexivity].
    destruct (updateZone _ _ _ _ _ _). reflexivity.
  - rewrite !animate_effects. unfold pythonSetActive.
    cbn [ContentPython.set_st ContentPython.st ContentPython.set_zs
         ContentPython.gazeX ContentPython.gazeY ContentPython.displayX
         ContentPython.displayY ContentPython.zs ContentPython.page].
    destruct (ContentPython.gazeX (ContentPython.st w)); [| reflexivity].
    destruct (ContentPython.gazeY (ContentPython.st w)); [| reflexivity].
    apply updateZone_isActive_actions.
Qed.

(** ** Calibration messages, skipping, and a blocked store *)

(** X16: in the Python script a [calibration_reset] message clears
    [isCalibrated] and [calibrationClicks] but neither removes the stored
    flag nor builds an overlay, so a profile that had calibrated is taken
    as calibrated again at the next session start; a [calibration_ack] with
    [is_calibrated] finishes calibration and one without changes nothing;
    [frame] and unknown messages change nothing. *)
Theorem server_calibration_messages (w : ContentPython.World) (n : nat) :
  (let w' := fst (ContentPython.handleServerMessage ContentPython.MsgCalibrationReset w) in
   cal (ContentPython.cw w') = {| isCalibrated := false; calibrationClicks := O |} /\
   storage (ContentPython.cw w') = storage (ContentPython.cw w) /\
   overlay (ContentPython.cw w') = overlay (ContentPython.cw w) /\
   (isCalibrationDone ContentPython.CONFIG (storage (ContentPython.cw w)) = true ->
    isCalibrated
      (cal (createCalibrationOverlay ContentPython.CONFIG
              (sessionStart (storage (ContentPython.cw w'))))) = true)) /\
  ContentPython.handleServerMessage (ContentPython.MsgCalibrationAck n true) w
  = (ContentPython.set_cw (finishCalibration ContentPython.CONFIG (ContentPython.cw w)) w,
     []) /\
  ContentPython.handleServerMessage (ContentPython.MsgCalibrationAck n false) w = (w, []) /\
  ContentPython.handleServerMessage ContentPython.MsgFrame w = (w, []) /\
  ContentPython.handleServerMessage ContentPython.MsgOther w = (w, []).
Proof.
  repeat split.
  intros Hdone. unfold createCalibrationOverlay, sessionStart. simpl.
  rewrite Hdone. reflexivity.
Qed.

Lemma server_calibration_messages_witness :
  isCalibrated
    (cal (createCalibrationOverlay ContentPython.CONFIG
            (sessionStart
               (storage
                  (ContentPython.cw
                     (fst (ContentPython.handleServerMessage
                             ContentPython.MsgCalibrationReset
                             (ContentPython.startSession calibratedStoragePython
                                page1000x800)))))))) = true.
Proof.
  destruct (server_calibration_messages
              (ContentPython.startSession calibratedStoragePython page1000x800) 0)
    as ((_ & _ & _ & H) & _).
  apply H. vm_compute. reflexivity.
Defined.

(** X17: when [localStorage] throws, the flag is read as absent and writing
    or removing it does nothing: [finishCalibration] still sets
    [isCalibrated] for the session, but the next session builds the overlay
    again; and [resetCalibration] of the WebGazer script gives up before
    [webgazer.clearData()]. *)
Theorem blocked_storage_never_persists (cfg : UIConfig) (rt : ContentJs.Runtime)
        (w : CalWorld) :
  accessible (storage w) = false ->
  isCalibrationDone cfg (storage w) = false /\
  setCalibrationDone cfg (storage w) = storage w /\
  removeCalibrationFlag cfg (storage w) = storage w /\
  isCalibrated (cal (finishCalibration cfg w)) = true /\
  createCalibrationOverlay cfg (sessionStart (storage (finishCalibration cfg w)))
  = {| cal := {| isCalibrated := false; calibrationClicks := O |};
       storage := storage w;
       overlay := Some freshOverlay |} /\
  ContentJs.resetCalibration rt (storage w) = (storage w, []).
Proof.
  intros Hacc.
  assert (Hset : setCalibrationDone cfg (storage w) = storage w)
    by (unfold setCalibrationDone; rewrite Hacc; reflexivity).
  assert (Hdone : isCalibrationDone cfg (storage w) = false)
    by (unfold isCalibrationDone; rewrite Hacc; reflexivity).
  repeat split; try assumption.
  - unfold removeCalibrationFlag. rewrite Hacc. reflexivity.
  - unfold createCalibrationOverlay, finishCalibration, sessionStart.
    cbn [storage]. rewrite Hset, Hdone. reflexivity.
  - unfold ContentJs.resetCalibration. rewrite Hacc. reflexivity.
Qed.

Lemma blocked_storage_never_persists_witness :
  overlay (createCalibrationOverlay ContentJs.CONFIG
             (sessionStart
                (storage (finishCalibration ContentJs.CONFIG
                            (sessionStart blockedStorage)))))
  = Some freshOverlay.
Proof.
  destruct (blocked_storage_never_persists ContentJs.CONFIG runtimeOk
              (sessionStart blockedStorage) eq_refl) as (_ & _ & _ & _ & H & _).
  rewrite H. reflexivity.
Defined.

(** X18: the skip button, pressed while the overlay is up, ends calibration
    whatever was clicked before: [isCalibrated] is set and the flag is
    stored when the store is accessible.  The overlay is only faded: until
    its removal timer runs it stays in the document and its dots take clicks
    as before, with the same effects, and such a click leaves [isCalibrated]
    set.  When the timer runs the overlay goes away, dot clicks are no
    longer delivered and the button is gone; an overlay that was not faded
    is left alone by the timer.  Without an overlay the button does
    nothing. *)
Theorem skip_finishes_calibration (cfg : UIConfig)
        (recordClick : Q -> Q -> list Effect) (w : CalWorld) (o : Overlay)
        (i : nat) (x y : Q) :
  overlay w = Some o ->
  let w1 := clickSkip cfg w in
  let w2 := removeOverlay w1 in
  (isCalibrated (cal w1) = true /\
   calibrationClicks (cal w1) = calibrationClicks (cal w) /\
   (accessible (storage w) = true -> isCalibrationDone cfg (storage w1) = true)) /\
  (overlay w1 = Some {| dotClicks := dotClicks o;
                        dotDisabled := dotDisabled o;
                        fading := true |} /\
   delivered i w1 = delivered i w /\
   snd (clickDot cfg recordClick i x y w1) = snd (clickDot cfg recordClick i x y w) /\
   calibrationClicks (cal (fst (clickDot cfg recordClick i x y w1)))
   = calibrationClicks (cal (fst (clickDot cfg recordClick i x y w))) /\
   isCalibrated (cal (fst (clickDot cfg recordClick i x y w1))) = true) /\
  (overlay w2 = None /\
   cal w2 = cal w1 /\
   storage w2 = storage w1 /\
   delivered i w2 = false /\
   clickDot cfg recordClick i x y w2 = (w2, []) /\
   clickSkip cfg w2 = w2) /\
  (fading o = false -> removeOverlay w = w) /\
  (forall w0, overlay w0 = None -> clickSkip cfg w0 = w0 /\ removeOverlay w0 = w0).
Proof.
  intros Ho w1 w2.
  assert (E1 : w1 = finishCalibration cfg w)
    by (unfold w1, clickSkip; rewrite Ho; reflexivity).
  assert (Eo : overlay w1 = Some (fadeOverlay o))
    by (rewrite E1; unfold finishCalibration; cbn [overlay]; rewrite Ho; reflexivity).
  assert (E2 : w2 = {| cal := cal w1; storage := storage w1; overlay := None |})
    by (unfold w2, removeOverlay; rewrite Eo; reflexivity).
  split; [| split; [| split; [| split]]].
  - rewrite E1. split; [reflexivity |]. split; [reflexivity |].
    intros Hacc. unfold finishCalibration, setCalibrationDone, isCalibrationDone.
    cbn [storage]. rewrite Hacc. cbn [accessible items].
    apply bool_decide_eq_true_2, lookup_insert_eq.
  - split; [exact Eo |].
    split; [unfold delivered; rewrite Eo, Ho; reflexivity |].
    unfold clickDot. rewrite Eo, Ho. cbn [fadeOverlay dotDisabled].
    destruct (dotDisabled o !! i) as [[|] |];
      try (rewrite E1; repeat split; reflexivity).
    unfold dotClickHandler. rewrite E1.
    cbn [fadeOverlay dotClicks dotDisabled finishCalibration cal calibrationClicks
         isCalibrated].
    destruct (CLICKS_PER_POINT cfg <=? S (default O (dotClicks o !! i)))%nat;
      repeat split; reflexivity.
  - rewrite E2. repeat split.
  - intros Hf. unfold removeOverlay. rewrite Ho, Hf. reflexivity.
  - intros w0 H0. unfold clickSkip, removeOverlay. rewrite H0. split; reflexivity.
Qed.

Lemma skip_finishes_calibration_witness :
  delivered 0 (clickSkip ContentJs.CONFIG
                 (createCalibrationOverlay ContentJs.CONFIG (sessionStart emptyStorage)))
  = true /\
  overlay (removeOverlay
             (clickSkip ContentJs.CONFIG
                (createCalibrationOverlay ContentJs.CONFIG (sessionStart emptyStorage))))
  = None.
Proof.
  destruct (skip_finishes_calibration ContentJs.CONFIG (ContentJs.recordClick runtimeOk)
              (createCalibrationOverlay ContentJs.CONFIG (sessionStart emptyStorage))
              freshOverlay 0 100 100) as (_ & (_ & Hd & _) & (Hr & _) & _).
  - vm_compute. reflexivity.
  - split; [rewrite Hd; vm_compute; reflexivity | exact Hr].
Defined.

(** ** Dwell progress *)

(** X19: with a positive [DWELL_TIME] and a clock that has not gone back
    behind the stored dwell start, every progress value handed to
    [updateZoneVisuals] by one evaluation lies in [[0, 1]]. *)
Theorem dwell_progress_in_unit (cfg : UIConfig) (page : Page) (x y now : Q)
        (s : ZoneState) :
  0 < DWELL_TIME cfg ->
  num (dwellStartTime s) <= now ->
  Forall progressInUnit (snd (updateZone cfg page x y now s)).
Proof.
  intros HD Hnow. unfold updateZone.
  destruct (sidebarHost page); simpl; [| constructor].
  destruct (isInSidebar cfg page x).
  - assert (Hres : num (dwellStartTime
                          (resolveZone cfg (getZoneFromY cfg page y) now s)) <= now).
    { unfold resolveZone.
      destruct (zone_neq _ (currentZone s)); [| exact Hnow].
      destruct (zone_neq _ (pendingZone s)); [exact Hnow |].
      destruct (Qleb _ _); [simpl; lra | exact Hnow]. }
    set (s1 := resolveZone cfg (getZoneFromY cfg page y) now s) in *.
    unfold dwellCheck. destruct (currentZone s1) as [| | z]; simpl; try constructor.
    assert (Hp : 0 <= Qmin ((now - num (dwellStartTime s1)) / DWELL_TIME cfg) 1 /\
                 Qmin ((now - num (dwellStartTime s1)) / DWELL_TIME cfg) 1 <= 1).
    { assert (H0 : 0 <= (now - num (dwellStartTime s1)) / DWELL_TIME cfg)
        by (apply Qle_shift_div_l; lra).
      destruct (Q.min_spec ((now - num (dwellStartTime s1)) / DWELL_TIME cfg) 1)
        as [[H1 E] | [H1 E]]; rewrite E; split; lra. }
    destruct (Qleb _ _); simpl.
    + destruct z; simpl;
        repeat first [apply List.Forall_nil | apply List.Forall_cons];
        first [exact Hp | exact I].
    + apply List.Forall_cons; [exact Hp | apply List.Forall_nil].
  - destruct (truthy (currentZone s)); simpl; [| apply List.Forall_nil].
    apply List.Forall_cons; [simpl; split; lra | apply List.Forall_nil].
Qed.

Lemma dwell_progress_in_unit_witness :
  Forall progressInUnit
         (snd (updateZone ContentJs.CONFIG page1000x800 950 500 400 (tracking ASK_AI 0))).
Proof.
  apply dwell_progress_in_unit; simpl; lra.
Defined.

(** ** Server messages and counters *)

(** X20: in the Python script no server message produces an effect or
    touches the zone fields or the displayed cursor: a [gaze] message
    accepted by the gate only moves the target, so every zone action comes
    from the animation frame. *)
Theorem server_messages_never_dispatch (data : ContentPython.ServerMessage)
        (w : ContentPython.World) :
  snd (ContentPython.handleServerMessage data w) = [] /\
  ContentPython.zs (ContentPython.st (fst (ContentPython.handleServerMessage data w)))
  = ContentPython.zs (ContentPython.st w) /\
  ContentPython.displayX (ContentPython.st (fst (ContentPython.handleServerMessage data w)))
  = ContentPython.displayX (ContentPython.st w) /\
  ContentPython.displayY (ContentPython.st (fst (ContentPython.handleServerMessage data w)))
  = ContentPython.displayY (ContentPython.st w) /\
  (forall x y,
      data = ContentPython.MsgGaze x y ->
      isActive (ContentPython.zs (ContentPython.st w)) = true ->
      isCalibrated (cal (ContentPython.cw w)) = true ->
      ContentPython.gazeX (ContentPython.st (fst (ContentPython.handleServerMessage data w)))
      = Some x /\
      ContentPython.gazeY (ContentPython.st (fst (ContentPython.handleServerMessage data w)))
      = Some y).
Proof.
  unfold ContentPython.handleServerMessage.
  destruct data as [x y | | n b | |].
  - destruct (isActive _ && isCalibrated _) eqn:E;
      (split; [reflexivity |]); (split; [reflexivity |]);
      (split; [reflexivity |]); (split; [reflexivity |]);
      intros x' y' Hd Ha Hc; injection Hd as <- <-;
      rewrite Ha, Hc in E; try discriminate; split; reflexivity.
  - repeat split; intros; discriminate.
  - destruct b; repeat split; intros; discriminate.
  - repeat split; intros; discriminate.
  - repeat split; intros; discriminate.
Qed.

(** X21: from a fresh overlay, after any sequence of dot clicks, the overlay
    is still up with its nine dots, no dot has more than [CLICKS_PER_POINT]
    clicks, a dot is disabled exactly when it has that many, and
    [state.calibrationClicks] is the number of disabled dots, at most 9. *)
Theorem calibration_counters (cfg : UIConfig) (recordClick : Q -> Q -> list Effect)
        (ls : LocalStorage) (cs : list (nat * Q * Q)) :
  CALIBRATION_POINTS cfg = 9%nat ->
  (1 <= CLICKS_PER_POINT cfg)%nat ->
  (forall a b, finishTimers (recordClick a b) = O) ->
  isCalibrationDone cfg ls = false ->
  let w := fst (fst (clickDots cfg recordClick cs
                       (createCalibrationOverlay cfg (sessionStart ls)))) in
  exists o,
    overlay w = Some o /\
    length (dotClicks o) = 9%nat /\
    length (dotDisabled o) = 9%nat /\
    (forall i n, dotClicks o !! i = Some n ->
                 (n <= CLICKS_PER_POINT cfg)%nat /\
                 dotDisabled o !! i = Some (CLICKS_PER_POINT cfg <=? n)%nat) /\
    calibrationClicks (cal w) = completedDots (CLICKS_PER_POINT cfg) (dotClicks o) /\
    (calibrationClicks (cal w) <= 9)%nat.
Proof.
  intros HN HK Hrec Hnot w.
  pose proof (freshOverlay_inv cfg ls HK Hnot) as Hinv0.
  destruct (clickDots_run cfg recordClick cs HN Hrec _ _ Hinv0)
    as (o & (Ho & Hlen & Hdis & Hall & Hcc) & _).
  exists o. fold w in Ho, Hcc.
  split; [exact Ho |]. split; [exact Hlen |].
  split; [rewrite Hdis, length_fmap; exact Hlen |].
  split; [| split; [exact Hcc |]].
  - intros i n Hi. split.
    + rewrite Forall_forall in Hall. apply Hall.
      apply list_elem_of_lookup. exists i. exact Hi.
    + rewrite Hdis, list_lookup_fmap, Hi. reflexivity.
  - rewrite Hcc.
    pose proof (completedDots_le (CLICKS_PER_POINT cfg) (dotClicks o)). lia.
Qed.

Lemma calibration_counters_witness :
  exists o,
    overlay (fst (fst (clickDots ContentPython.CONFIG
                         (ContentPython.sendCalibrationPoint true) eighteenClicks
                         (createCalibrationOverlay ContentPython.CONFIG
                            (sessionStart emptyStorage))))) = Some o /\
    length (dotClicks o) = 9%nat.
Proof.
  assert (HN : CALIBRATION_POINTS ContentPython.CONFIG = 9%nat) by reflexivity.
  assert (HK : (1 <= CLICKS_PER_POINT ContentPython.CONFIG)%nat) by (simpl; lia).
  assert (Hrec : forall a b,
             finishTimers (ContentPython.sendCalibrationPoint true a b) = O)
    by reflexivity.
  assert (Hnot : isCalibrationDone ContentPython.CONFIG emptyStorage = false)
    by (vm_compute; reflexivity).
  destruct (calibration_counters ContentPython.CONFIG
              (ContentPython.sendCalibrationPoint true) emptyStorage eighteenClicks
              HN HK Hrec Hnot) as (o & Ho & Hlen & _).
  exists o. split; [exact Ho | exact Hlen].
Defined.

Lemma zone_step_dispatch_witness :
  currentZone (fst (updateZone ContentJs.CONFIG page1000x800 400 500 700
                      (tracking ASK_AI 0))) = ZNull.
Proof.
  destruct (zone_step_dispatch ContentJs.CONFIG page1000x800 400 500 700
              (tracking ASK_AI 0)) as (_ & H & _).
  destruct H as (_ & H & _); [reflexivity |].
  destruct H as (Hc & _); [reflexivity | reflexivity |]. exact Hc.
Defined.

Lemma server_messages_never_dispatch_witness :
  ContentPython.gazeX
    (ContentPython.st
       (fst (ContentPython.handleServerMessage (ContentPython.MsgGaze 950 500)
               (ContentPython.set_cw
                  (createCalibrationOverlay ContentPython.CONFIG
                     (sessionStart calibratedStoragePython))
                  (ContentPython.startSession calibratedStoragePython page1000x800)))))
  = Some 950.
Proof.
  destruct (server_messages_never_dispatch (ContentPython.MsgGaze 950 500)
              (ContentPython.set_cw
                 (createCalibrationOverlay ContentPython.CONFIG
                    (sessionStart calibratedStoragePython))
                 (ContentPython.startSession calibratedStoragePython page1000x800)))
    as (_ & _ & _ & _ & H).
  destruct (H 950 500) as [Hx _]; [reflexivity | reflexivity | | exact Hx].
  vm_compute. reflexivity.
Defined.
